(** * Retail data pipeline: inventory cleaning, sales cleaning, star schema

    A shallow embedding of [CleanInventory.py], [CleanSales.py],
    [BuildStarSchema.py] and [main.py].  The three stages are sequences of
    pandas calls on whole tables; each pandas call the stages make is given a
    definition in [Module Pandas], and each method of the three classes is
    then transcribed call by call.

    Conventions of the model.
    - A table is its list of column labels and its list of rows; a row maps
      labels to cells.  A cell is NaN/None/NaT ([NA]), a [str], a number or a
      timestamp.
    - Numbers are exact: a finite number is a rational, the two infinities
      are explicit.  The rounding of float64 is not modelled; the cast to
      int64 is, with what it does to a float beyond the range of int64.
    - Text is a string of bytes; [upper] and [strip] act on the ASCII range.
    - Text columns are object columns (the [.str] accessor is available on
      them, and gives NaN on a cell that is not a [str]).
    - The text recognisers of [pd.to_numeric] and [pd.to_datetime] and the
      dtype predicates are taken as parameters ([Class Parsers]).
    - Logging and the CSV files are an explicit world that every method
      threads through; a CSV file is identified with the table it holds.
    - Timestamps are calendar dates; the day on which the clock is read is
      a parameter of the methods that read it. *)

From stdpp Require Import base strings gmap list.
From Stdlib Require Import Ascii ZArith QArith Lia.

Local Open Scope string_scope.
Local Open Scope list_scope.
Local Open Scope Z_scope.

(** ** The pandas fragment used by the pipeline *)
Module Pandas.

Inductive number :=
| Fin (q : Q)
| Inf (negative : bool).

Record Timestamp := mkTimestamp { year : Z; month : Z; day : Z }.

Inductive cell :=
| NA
| Txt (s : string)
| Num (x : number)
| TS (t : Timestamp).

Record DataFrame := mkDataFrame {
  columns : list string;
  rows : list (gmap string cell)
}.

Inductive label :=
| Name (c : string)
| Names (cs : list string)
| Pos (k : nat).

(** The exceptions of the pipeline.  [MergeDtypeError] is the ValueError of
    [merge] on key columns of different kinds ([You are trying to merge on
    object and int64 columns]); [OverflowError] is raised by the cast of an
    integer that does not fit int64. *)
Inductive exn :=
| KeyError (l : label)
| TypeError
| IntCastingNaNError
| InvalidLiteral (s : string)
| OverflowError
| DateParseError
| AlreadyExists (c : string)
| MergeDtypeError
| FileNotFoundError (path : string)
| ColonnesManquantes (missing : list string).

Inductive result (A : Type) :=
| Ok (a : A)
| Raise (e : exn).
Arguments Ok {A} a.
Arguments Raise {A} e.

Definition rbind {A B} (r : result A) (k : A → result B) : result B :=
  match r with Ok a => k a | Raise e => Raise e end.

Fixpoint mapM {A B} (f : A → result B) (l : list A) : result (list B) :=
  match l with
  | [] => Ok []
  | x :: l' => rbind (f x) (λ y, rbind (mapM f l') (λ ys, Ok (y :: ys)))
  end.

(** *** Cells *)

Definition isna (c : cell) : bool :=
  match c with NA => true | _ => false end.

Definition Int (z : Z) : cell := Num (Fin (inject_Z z)).

Definition timestamp_eqb (a b : Timestamp) : bool :=
  (year a =? year b) && (month a =? month b) && (day a =? day b).

(** Equality of values as [isin], [merge] and [duplicated] see it: numbers
    by value, NaN equal to NaN. *)
Definition cell_eqb (a b : cell) : bool :=
  match a, b with
  | NA, NA => true
  | Txt s, Txt t => bool_decide (s = t)
  | Num (Fin p), Num (Fin q) => Qeq_bool p q
  | Num (Inf m), Num (Inf n) => Bool.eqb m n
  | TS s, TS t => timestamp_eqb s t
  | _, _ => false
  end.

(** *** Text *)

(** [str.isspace] on the ASCII range: tab, LF, VT, FF, CR, FS, GS, RS, US
    and the space. *)
Definition is_space (a : ascii) : bool :=
  let n := N_of_ascii a in
  ((9 <=? n) && (n <=? 13) || (28 <=? n) && (n <=? 32))%N.

Definition upper_char (a : ascii) : ascii :=
  let n := N_of_ascii a in
  if ((97 <=? n) && (n <=? 122))%N then ascii_of_N (n - 32) else a.

Fixpoint upper (s : string) : string :=
  match s with
  | EmptyString => EmptyString
  | String a s' => String (upper_char a) (upper s')
  end.

Fixpoint lstrip (s : string) : string :=
  match s with
  | EmptyString => EmptyString
  | String a s' => if is_space a then lstrip s' else s
  end.

Fixpoint rstrip (s : string) : string :=
  match s with
  | EmptyString => EmptyString
  | String a s' =>
      match rstrip s' with
      | EmptyString => if is_space a then EmptyString else String a EmptyString
      | r => String a r
      end
  end.

Definition strip (s : string) : string := rstrip (lstrip s).

(** [s.split(sep)] for a one-character separator: every occurrence splits,
    and there is always at least one piece. *)
Fixpoint split (sep : ascii) (s : string) : list string :=
  match s with
  | EmptyString => [EmptyString]
  | String a s' =>
      if bool_decide (a = sep) then EmptyString :: split sep s'
      else match split sep s' with
           | p :: ps => String a p :: ps
           | [] => [String a EmptyString]
           end
  end.

Fixpoint contains_char (sep : ascii) (s : string) : bool :=
  match s with
  | EmptyString => false
  | String a s' => bool_decide (a = sep) || contains_char sep s'
  end.

(** [Series.str.strip()], [Series.str.upper()] on an object column: NaN on
    a cell that is not a [str].  On a column that is not an object column
    (a column of numbers) the [.str] accessor raises AttributeError; this is
    not modelled, and the statements that depend on it assume that the
    column holds text ([text_columns]). *)
Definition str_strip (col : list cell) : list cell :=
  map (λ c, match c with Txt s => Txt (strip s) | _ => NA end) col.

Definition str_upper (col : list cell) : list cell :=
  map (λ c, match c with Txt s => Txt (upper s) | _ => NA end) col.

(** [Series.str.len()] *)
Definition str_len (col : list cell) : list cell :=
  map (λ c, match c with
            | Txt s => Int (Z.of_nat (String.length s))
            | _ => NA
            end) col.

(** [Series.str.contains(sep, regex=False)]: [None] stands for NaN. *)
Definition str_contains (sep : ascii) (col : list cell) : list (option bool) :=
  map (λ c, match c with Txt s => Some (contains_char sep s) | _ => None end) col.

(** [Series.str.split(sep, expand=True)]: a frame whose columns are the
    positions 0, 1, ... up to the largest number of pieces of a row; shorter
    rows are filled with None.  A cell that is not a [str] gives one NaN. *)
Definition pieces (sep : ascii) (c : cell) : list cell :=
  match c with
  | Txt s => map Txt (split sep s)
  | _ => [NA]
  end.

Record Expanded := mkExpanded { width : nat; pieces_of : list (list cell) }.

Definition str_split_expand (sep : ascii) (col : list cell) : Expanded :=
  let ps := map (pieces sep) col in
  mkExpanded (foldr Nat.max 0%nat (map length ps)) ps.

(** [split_col[k]] *)
Definition expanded_col (e : Expanded) (k : nat) : result (list cell) :=
  if (k <? width e)%nat then Ok (map (λ ps, nth k ps NA) (pieces_of e))
  else Raise (KeyError (Pos k)).

(** *** Numbers *)

Definition is_negative (x : number) : bool :=
  match x with
  | Fin q => Qnum q <? 0
  | Inf negative => negative
  end.

(** [Series.clip(lower=0)]: NaN stays NaN; comparing a [str] or a timestamp
    with 0 raises. *)
Definition clip_lower0_cell (c : cell) : result cell :=
  match c with
  | NA => Ok NA
  | Num x => Ok (if is_negative x then Int 0 else Num x)
  | Txt _ | TS _ => Raise TypeError
  end.

Definition clip_lower0 (col : list cell) : result (list cell) :=
  mapM clip_lower0_cell col.

(** [Series.fillna(0)] *)
Definition fillna0 (col : list cell) : list cell :=
  map (λ c, if isna c then Int 0 else c) col.

(** Truncation towards zero, as the cast of a float to an integer does. *)
Definition trunc (q : Q) : Z := Z.quot (Qnum q) (Zpos (Qden q)).

Definition digit_val (a : ascii) : option Z :=
  let n := N_of_ascii a in
  if ((48 <=? n) && (n <=? 57))%N then Some (Z.of_N (n - 48)) else None.

Fixpoint digits_val (acc : Z) (s : string) : option Z :=
  match s with
  | EmptyString => Some acc
  | String a s' =>
      match digit_val a with
      | Some d => digits_val (10 * acc + d) s'
      | None => None
      end
  end.

(** [int(s)] on a non-empty string of decimal digits; signs, blanks and
    underscores, which [int] also accepts, do not occur in the pipeline and
    are rejected here. *)
Definition int_of_str (s : string) : result Z :=
  match s with
  | EmptyString => Raise (InvalidLiteral s)
  | _ => match digits_val 0 s with
         | Some z => Ok z
         | None => Raise (InvalidLiteral s)
         end
  end.

(** The integers of int64, and the cast of a float to int64: the float is
    truncated towards zero, and a float beyond the range of int64 gives the
    smallest int64 (the cast does not raise and does not saturate). *)
Definition int64_min : Z := -9223372036854775808.
Definition int64_max : Z := 9223372036854775807.

Definition in_int64 (z : Z) : bool := (int64_min <=? z) && (z <=? int64_max).

Definition float_to_int64 (q : Q) : Z :=
  if in_int64 (trunc q) then trunc q else int64_min.

(** [Series.astype(int)], a cast to int64: a number is cast as a float is
    (an integer of an int64 column is in range and stays as it is), a [str]
    goes through [int] and must fit int64; NaN and the infinities cannot be
    cast (IntCastingNaNError, or ValueError on an object column). *)
Definition astype_int_cell (c : cell) : result cell :=
  match c with
  | NA => Raise IntCastingNaNError
  | Num (Fin q) => Ok (Int (float_to_int64 q))
  | Num (Inf _) => Raise IntCastingNaNError
  | Txt s => rbind (int_of_str s)
               (λ z, if in_int64 z then Ok (Int z) else Raise OverflowError)
  | TS _ => Raise TypeError
  end.

Definition astype_int (col : list cell) : result (list cell) :=
  mapM astype_int_cell col.

(** [col < k] for an integer [k]: false on NaN; comparing a [str] or a
    timestamp with a number raises. *)
Definition number_ltb (x : number) (k : Z) : bool :=
  match x with
  | Fin q => Qnum q <? k * Zpos (Qden q)
  | Inf negative => negative
  end.

Definition lt_scalar (k : Z) (col : list cell) : result (list bool) :=
  mapM (λ c, match c with
             | NA => Ok false
             | Num x => Ok (number_ltb x k)
             | Txt _ | TS _ => Raise TypeError
             end) col.

(** [col > k] for an integer [k]: false on NaN; comparing a [str] or a
    timestamp with a number raises. *)
Definition number_gtb (x : number) (k : Z) : bool :=
  match x with
  | Fin q => k * Zpos (Qden q) <? Qnum q
  | Inf negative => negb negative
  end.

Definition gt_scalar (k : Z) (col : list cell) : result (list bool) :=
  mapM (λ c, match c with
             | NA => Ok false
             | Num x => Ok (number_gtb x k)
             | Txt _ | TS _ => Raise TypeError
             end) col.

(** [mask.any()], [mask.sum()] (NaN is skipped), [col == s] *)
Definition any (mask : list bool) : bool := existsb id mask.

Definition count_true (mask : list (option bool)) : nat :=
  length (List.filter (λ b, bool_decide (b = Some true)) mask).

Definition eq_str (s : string) (col : list cell) : list bool :=
  map (λ c, match c with Txt t => bool_decide (t = s) | _ => false end) col.

(** *** Timestamps *)

Definition is_leap (y : Z) : bool :=
  ((y mod 4 =? 0) && negb (y mod 100 =? 0)) || (y mod 400 =? 0).

Definition days_in_month (y m : Z) : Z :=
  if m =? 2 then (if is_leap y then 29 else 28)
  else if (m =? 4) || (m =? 6) || (m =? 9) || (m =? 11) then 30
  else 31.

(** A timestamp is a calendar date between [Timestamp.min] (1677-09-21) and
    [Timestamp.max] (2262-04-11). *)
Definition valid_timestamp (t : Timestamp) : bool :=
  (1 <=? month t) && (month t <=? 12) &&
  (1 <=? day t) && (day t <=? days_in_month (year t) (month t)) &&
  (16770921 <=? year t * 10000 + month t * 100 + day t) &&
  (year t * 10000 + month t * 100 + day t <=? 22620411).

Definition digit_char (d : Z) : ascii := ascii_of_N (48 + Z.to_N d).

Definition pad2 (n : Z) : string :=
  String (digit_char (n / 10 mod 10)) (String (digit_char (n mod 10)) EmptyString).

Definition pad4 (n : Z) : string :=
  String (digit_char (n / 1000 mod 10))
    (String (digit_char (n / 100 mod 10)) (pad2 n)).

(** [t.strftime("%Y%m%d")] *)
Definition strftime_Ymd (t : Timestamp) : string :=
  pad4 (year t) +:+ pad2 (month t) +:+ pad2 (day t).

(** [Series.dt.strftime("%Y%m%d")]: NaT gives NaN. *)
Definition strftime_Ymd_cell (c : cell) : cell :=
  match c with TS t => Txt (strftime_Ymd t) | _ => NA end.

Definition dt_strftime_Ymd (col : list cell) : list cell :=
  map strftime_Ymd_cell col.

(** [a < b] on timestamps *)
Definition timestamp_ltb (a b : Timestamp) : bool :=
  (year a <? year b) ||
  (year a =? year b) &&
  ((month a <? month b) || (month a =? month b) && (day a <? day b)).

(** [col > t] for a timestamp [t]: false on NaT; comparing a [str] or a
    number with a timestamp raises. *)
Definition gt_timestamp (t : Timestamp) (col : list cell) : result (list bool) :=
  mapM (λ c, match c with
             | NA => Ok false
             | TS d => Ok (timestamp_ltb t d)
             | Txt _ | Num _ => Raise TypeError
             end) col.

(** The parts of pandas that recognise text, and its dtype predicates.
    [parse_datetime col c] converts the cell [c] of the column [col]: the
    column is an argument because pandas infers one format for a column. *)
Class Parsers := {
  parse_number : string → option number;
  parse_datetime : list cell → cell → option Timestamp;
  is_numeric_dtype : list cell → bool;
  is_string_dtype : list cell → bool
}.

Section Conversions.
Context `{Parsers}.

(** [pd.to_numeric(col, errors="coerce")] *)
Definition to_numeric_coerce (col : list cell) : list cell :=
  map (λ c, match c with
            | Num x => Num x
            | Txt s => match parse_number s with
                       | Some x => Num x
                       | None => NA
                       end
            | NA | TS _ => NA
            end) col.

(** One cell of [pd.to_datetime(col)]: [None] when the value is not a
    date or is out of bounds. *)
Definition to_datetime_cell (col : list cell) (c : cell) : option Timestamp :=
  let parsed :=
    match c with
    | NA => None
    | TS t => Some t
    | _ => parse_datetime col c
    end in
  match parsed with
  | Some t => if valid_timestamp t then Some t else None
  | None => None
  end.

(** [pd.to_datetime(col, errors="coerce")] *)
Definition to_datetime_coerce (col : list cell) : list cell :=
  map (λ c, match to_datetime_cell col c with
            | Some t => TS t
            | None => NA
            end) col.

(** [pd.to_datetime(col)], that is [errors="raise"]: NaN becomes NaT, any
    other value that is not a date raises. *)
Definition to_datetime_one (col : list cell) (c : cell) : result cell :=
  match c with
  | NA => Ok NA
  | _ => match to_datetime_cell col c with
         | Some t => Ok (TS t)
         | None => Raise DateParseError
         end
  end.

Definition to_datetime (col : list cell) : result (list cell) :=
  mapM (to_datetime_one col) col.
End Conversions.

(** *** Frames *)

Definition cell_at (r : gmap string cell) (c : string) : cell :=
  default NA (r !! c).

Definition has_column (df : DataFrame) (c : string) : bool :=
  bool_decide (c ∈ columns df).

(** [len(df)] *)
Definition len (df : DataFrame) : nat := length (rows df).

(** [df.empty] *)
Definition empty (df : DataFrame) : bool :=
  match rows df, columns df with
  | _ :: _, _ :: _ => false
  | _, _ => true
  end.

(** [df[c]] *)
Definition getitem (df : DataFrame) (c : string) : result (list cell) :=
  if has_column df c then Ok (map (λ r, cell_at r c) (rows df))
  else Raise (KeyError (Name c)).

(** [df[c] = col], for a column computed from [df] itself (same index):
    replaces the column, or appends it as the last one. *)
Definition setitem (df : DataFrame) (c : string) (col : list cell) : DataFrame :=
  mkDataFrame
    (if has_column df c then columns df else columns df ++ [c])
    (zip_with (λ r v, <[c:=v]> r) (rows df) col).

(** [df[mask]] *)
Fixpoint select {A} (mask : list bool) (l : list A) : list A :=
  match mask, l with
  | b :: mask', x :: l' => if b then x :: select mask' l' else select mask' l'
  | _, _ => []
  end.

Definition where_ (df : DataFrame) (mask : list bool) : DataFrame :=
  mkDataFrame (columns df) (select mask (rows df)).

(** [df.dropna(how="all")] *)
Definition dropna_all (df : DataFrame) : DataFrame :=
  mkDataFrame (columns df)
    (List.filter (λ r, negb (forallb (λ c, isna (cell_at r c)) (columns df)))
       (rows df)).

(** [df.dropna(subset=cols)] *)
Definition dropna_subset (cols : list string) (df : DataFrame) : result DataFrame :=
  match List.filter (λ c, negb (has_column df c)) cols with
  | [] => Ok (mkDataFrame (columns df)
               (List.filter (λ r, forallb (λ c, negb (isna (cell_at r c))) cols)
                  (rows df)))
  | missing => Raise (KeyError (Names missing))
  end.

(** [col.dropna()] *)
Definition dropna (col : list cell) : list cell :=
  List.filter (λ c, negb (isna c)) col.

(** [df.drop(columns=cols)] *)
Definition drop_columns (cols : list string) (df : DataFrame) : result DataFrame :=
  match List.filter (λ c, negb (has_column df c)) cols with
  | [] => Ok (mkDataFrame
               (List.filter (λ c, negb (bool_decide (c ∈ cols))) (columns df))
               (map (λ r, foldr delete r cols) (rows df)))
  | missing => Raise (KeyError (Names missing))
  end.

(** [df[cols]] for a list of labels *)
Definition project_row (cols : list string) (r : gmap string cell) : gmap string cell :=
  list_to_map (map (λ c, (c, cell_at r c)) cols).

Definition getitems (df : DataFrame) (cols : list string) : result DataFrame :=
  match List.filter (λ c, negb (has_column df c)) cols with
  | [] => Ok (mkDataFrame cols (map (project_row cols) (rows df)))
  | missing => Raise (KeyError (Names missing))
  end.

(** [df.insert(0, c, col)] *)
Definition insert0 (df : DataFrame) (c : string) (col : list cell) : result DataFrame :=
  if has_column df c then Raise (AlreadyExists c)
  else Ok (mkDataFrame (c :: columns df)
             (zip_with (λ r v, <[c:=v]> r) (rows df) col)).

(** [range(1, n + 1)] *)
Definition range1 (n : nat) : list cell :=
  map (λ k, Int (Z.of_nat k)) (seq 1 n).

(** [col.duplicated(keep=False)]: every value that occurs more than once. *)
Definition duplicated_all (col : list cell) : list bool :=
  map (λ c, (1 <? length (List.filter (cell_eqb c) col))%nat) col.

(** [col.duplicated()]: every occurrence of a value after its first. *)
Fixpoint duplicated_from (seen : list cell) (col : list cell) : list bool :=
  match col with
  | [] => []
  | c :: col' => existsb (cell_eqb c) seen :: duplicated_from (c :: seen) col'
  end.

Definition duplicated (col : list cell) : list bool := duplicated_from [] col.

(** [col.isin(values)] *)
Definition isin (values : list cell) (col : list cell) : list bool :=
  map (λ c, existsb (cell_eqb c) values) col.

(** [left.merge(right, on=key, how="left")].  A label other than the key
    that both frames carry gets the suffixes [_x] and [_y]. *)
Definition left_label (key : string) (right : DataFrame) (c : string) : string :=
  if bool_decide (c ≠ key) && has_column right c then c +:+ "_x" else c.

Definition right_label (key : string) (left : DataFrame) (c : string) : string :=
  if has_column left c then c +:+ "_y" else c.

Definition others (key : string) (right : DataFrame) : list string :=
  List.filter (λ c, negb (bool_decide (c = key))) (columns right).

Definition merged_row (key : string) (left right : DataFrame)
    (l : gmap string cell) (r : option (gmap string cell)) : gmap string cell :=
  list_to_map
    (map (λ c, (left_label key right c, cell_at l c)) (columns left) ++
     map (λ c, (right_label key left c,
                match r with Some d => cell_at d c | None => NA end))
       (others key right)).

(** The kind of dtype of a column, read off its cells the way [read_csv]
    infers it: a column that holds a [str] is an object column, a column of
    timestamps is datetime64, any other column is numeric (int64 or float64;
    a column of NaN is float64). *)
Inductive dtype := Object | Numeric | Datetime.

Definition dtype_of (col : list cell) : dtype :=
  if existsb (λ c, match c with Txt _ => true | _ => false end) col then Object
  else if existsb (λ c, match c with TS _ => true | _ => false end) col then Datetime
  else Numeric.

Definition dtype_eqb (a b : dtype) : bool :=
  match a, b with
  | Object, Object | Numeric, Numeric | Datetime, Datetime => true
  | _, _ => false
  end.

(** The check of the key columns that [merge] makes before it joins: key
    columns of different kinds are refused, unless one of them has no row. *)
Definition keys_clash (lk rk : list cell) : bool :=
  match lk, rk with
  | _ :: _, _ :: _ => negb (dtype_eqb (dtype_of lk) (dtype_of rk))
  | _, _ => false
  end.

Definition merge_left (key : string) (left right : DataFrame) : result DataFrame :=
  if negb (has_column left key) || negb (has_column right key)
  then Raise (KeyError (Name key))
  else if keys_clash (map (λ r, cell_at r key) (rows left))
            (map (λ r, cell_at r key) (rows right))
  then Raise MergeDtypeError
  else Ok (mkDataFrame
             (map (left_label key right) (columns left) ++
              map (right_label key left) (others key right))
             (flat_map
                (λ l,
                   match List.filter (λ d, cell_eqb (cell_at l key) (cell_at d key))
                           (rows right) with
                   | [] => [merged_row key left right l None]
                   | ds => map (λ d, merged_row key left right l (Some d)) ds
                   end)
                (rows left))).

End Pandas.

(** ** Logging and files *)
Module Effects.
Import Pandas.

Inductive level := INFO | WARNING | ERROR.

(** What a logging call is given: a fixed text, or a text formatted with a
    list of labels, a path or a count, or a frame. *)
Inductive message :=
| Text (s : string)
| TextList (s : string) (l : list string)
| TextPath (s : string) (path : string)
| CountText (n : nat) (s : string)
| Frame (df : DataFrame).

Record World := mkWorld {
  logs : list (level * message);
  files : gmap string DataFrame
}.

Definition M (A : Type) : Type := World → result A * World.

Definition ret {A} (a : A) : M A := λ w, (Ok a, w).

Definition bind {A B} (m : M A) (k : A → M B) : M B :=
  λ w, match m w with
       | (Ok a, w') => k a w'
       | (Raise e, w') => (Raise e, w')
       end.

Definition lift {A} (r : result A) : M A := λ w, (r, w).

Definition raise {A} (e : exn) : M A := lift (Raise e).

Definition log (lvl : level) (msg : message) : M unit :=
  λ w, (Ok tt, mkWorld (logs w ++ [(lvl, msg)]) (files w)).

(** [if cond: logging...] *)
Definition when (cond : bool) (m : M unit) : M unit :=
  if cond then m else ret tt.

(** [pd.read_csv(path)].  The world holds, for each path, the table that
    [read_csv] returns for the file, and [to_csv] stores the table it is
    given: what [read_csv] infers again from the text of a file written in
    the same run (NaN from [NA] or from an empty text, numbers from digits)
    is not modelled, and no statement depends on such a read-back. *)
Definition read_csv (path : string) : M DataFrame :=
  λ w, match files w !! path with
       | Some df => (Ok df, w)
       | None => (Raise (FileNotFoundError path), w)
       end.

(** [df.to_csv(path, index=False)] *)
Definition to_csv (df : DataFrame) (path : string) : M unit :=
  λ w, (Ok tt, mkWorld (logs w) (<[path:=df]> (files w))).

End Effects.

Declare Scope pipeline_scope.
Delimit Scope pipeline_scope with pipeline.
Notation "'let*' x ':=' m 'in' k" :=
  (Effects.bind m (λ x, k))
  (at level 10, x name, m at level 100, k at level 200) : pipeline_scope.
Notation "m ';;' k" :=
  (Effects.bind m (λ _, k))
  (at level 100, k at level 200, right associativity) : pipeline_scope.
Local Open Scope pipeline_scope.

(** ** CleanInventory.py *)
Module CleanInventory.
Import Pandas Effects.

Record InventoryCleaner := mkInventoryCleaner {
  input_path : string;
  output_path : string
}.

Section Methods.
Context `{Parsers}.
Variable self : InventoryCleaner.

Definition check_required_columns (df : DataFrame) (required_cols : list string)
    : M unit :=
  let missing := List.filter (λ col, negb (has_column df col)) required_cols in
  match missing with
  | _ :: _ =>
      log ERROR (TextList "Colonnes manquantes dans Inventory_raw : " missing);;
      raise (ColonnesManquantes missing)
  | [] => log INFO (Text "Toutes les colonnes requises sont présentes.")
  end.

Definition load_data : M DataFrame :=
  log INFO (TextPath "Loading raw inventory: " (input_path self));;
  let* df := read_csv (input_path self) in
  ret df.

Definition validate_types (df : DataFrame) : M unit :=
  let* stock := lift (getitem df "Stock") in
  when (negb (is_numeric_dtype stock))
    (log WARNING (Text "La colonne 'Stock' n'est pas numérique dans le fichier brut."));;
  let* sku := lift (getitem df "SKU Code") in
  when (negb (is_string_dtype sku))
    (log WARNING (Text "La colonne 'SKU Code' devrait être du texte (string)."));;
  let* design := lift (getitem df "Design No.") in
  when (negb (is_string_dtype design))
    (log WARNING (Text "La colonne 'Design No.' devrait être du texte (string)."));;
  let* category := lift (getitem df "Category") in
  when (negb (is_string_dtype category))
    (log WARNING (Text "La colonne 'Category' devrait être du texte (string)."));;
  let* sku := lift (getitem df "SKU Code") in
  let* short := lift (lt_scalar 3 (str_len sku)) in
  when (any short)
    (log WARNING (Text "Certains SKU Code ont une longueur anormale (<3)."));;
  let* category := lift (getitem df "Category") in
  when (negb (count_true (str_contains ":" category) =? len df)%nat)
    (log WARNING (Text "Certaines valeurs de 'Category' ne contiennent pas ':'.")).

Definition clean_data (df : DataFrame) : M DataFrame :=
  log INFO (Text "Cleaning inventory data...");;
  (* 1. Drop lignes vides *)
  let df := dropna_all df in
  (* 2. Colonnes essentielles *)
  let* df := lift (dropna_subset ["SKU Code"; "Design No."; "Category"] df) in
  (* 3. Standardisation du SKU *)
  let* sku := lift (getitem df "SKU Code") in
  let df := setitem df "SKU Code" (str_upper (str_strip sku)) in
  (* 4. Nettoyage du stock *)
  let* stock := lift (getitem df "Stock") in
  let* clipped := lift (clip_lower0 stock) in
  let* stock := lift (astype_int (fillna0 clipped)) in
  let df := setitem df "Stock" stock in
  (* 5. Nettoyage de la categorie *)
  let* category := lift (getitem df "Category") in
  let split_col := str_split_expand ":" category in
  let* brand := lift (expanded_col split_col 0) in
  let df := setitem df "BrandCode" (str_strip brand) in
  let* name := lift (expanded_col split_col 1) in
  let df := setitem df "CategoryName" (str_strip name) in
  let* df := lift (drop_columns ["Category"] df) in
  (* 6. Doublons SKU *)
  let* sku := lift (getitem df "SKU Code") in
  let duplicates := where_ df (duplicated_all sku) in
  when (negb (empty duplicates))
    (log WARNING (Text "Duplicate SKU detected:");;
     log WARNING (Frame duplicates));;
  ret df.

Definition verification_data (df : DataFrame) : M unit :=
  let issues_found := false in
  (* Stock négatif *)
  let* stock := lift (getitem df "Stock") in
  let* negative := lift (lt_scalar 0 stock) in
  let* issues_found :=
    if any negative
    then log ERROR (Text "Stock négatif détecté après nettoyage !");; ret true
    else ret issues_found in
  (* BrandCode vide *)
  let* brand := lift (getitem df "BrandCode") in
  let* issues_found :=
    if any (map isna brand) || any (eq_str "" (str_strip brand))
    then log ERROR (Text "Certaines lignes ont un BrandCode vide après nettoyage.");;
         ret true
    else ret issues_found in
  (* CategoryName vide *)
  let* name := lift (getitem df "CategoryName") in
  let* issues_found :=
    if any (map isna name) || any (eq_str "" (str_strip name))
    then log ERROR (Text "Certaines lignes ont un CategoryName vide après nettoyage.");;
         ret true
    else ret issues_found in
  (* SKU dupliqués *)
  let* sku := lift (getitem df "SKU Code") in
  let* issues_found :=
    if any (duplicated sku)
    then log ERROR (Text "Des SKU en doublon existent après nettoyage, ce qui est interdit dans un inventaire.");;
         ret true
    else ret issues_found in
  (* SKU suspect (pas de tiret) *)
  when (negb (count_true (str_contains "-" sku) =? len df)%nat)
    (log WARNING (Text "Certains SKU semblent avoir un format inhabituel (pas de '-')."));;
  (* Message final *)
  when (negb issues_found)
    (log INFO (Text "Post-cleaning validation passed: données cohérentes et propres.")).

Definition save_data (df : DataFrame) : M unit :=
  log INFO (TextPath "Saving cleaned inventory → " (output_path self));;
  to_csv df (output_path self).

Definition run : M unit :=
  let* df := load_data in
  let required_cols := ["SKU Code"; "Design No."; "Category"; "Stock"] in
  check_required_columns df required_cols;;
  validate_types df;;
  let* df := clean_data df in
  verification_data df;;
  save_data df.
End Methods.

End CleanInventory.

(** ** CleanSales.py *)
Module CleanSales.
Import Pandas Effects.

Record SalesCleaner := mkSalesCleaner {
  sales_path : string;
  inventory_path : string;
  output_path : string
}.

Section Methods.
Context `{Parsers}.
Variable self : SalesCleaner.

Definition load_data : M (DataFrame * DataFrame) :=
  log INFO (Text "Chargement des fichiers Sales_raw et Inventory_clean...");;
  let* df_sales := read_csv (sales_path self) in
  let* df_inventory := read_csv (inventory_path self) in
  ret (df_sales, df_inventory).

Definition check_required_columns (df : DataFrame) (required_cols : list string)
    : M unit :=
  let missing := List.filter (λ c, negb (has_column df c)) required_cols in
  match missing with
  | _ :: _ =>
      log ERROR (TextList "Colonnes manquantes : " missing);;
      raise (ColonnesManquantes missing)
  | [] => log INFO (Text "Toutes les colonnes requises sont présentes.")
  end.

Definition validate_types (df : DataFrame) : M unit :=
  let* quantity := lift (getitem df "Quantity") in
  when (negb (is_numeric_dtype quantity))
    (log WARNING (Text "La colonne 'Quantity' n'est pas numérique dans le fichier brut."));;
  let* sku := lift (getitem df "SKU Code") in
  when (negb (is_string_dtype sku))
    (log WARNING (Text "La colonne 'SKU Code' devrait être du texte (string)."));;
  let* date := lift (getitem df "Date") in
  let parsed_dates := to_datetime_coerce date in
  when (any (map isna parsed_dates))
    (log WARNING (Text "Certaines valeurs de 'Date' sont invalides ou mal formatées."));;
  let* sku := lift (getitem df "SKU Code") in
  let* short := lift (lt_scalar 3 (str_len sku)) in
  when (any short)
    (log WARNING (Text "Certains SKU Code ont une longueur anormale (<3).")).

Definition clean_data (df_sales df_inventory : DataFrame) : M DataFrame :=
  log INFO (Text "Nettoyage des données sales...");;
  (* 1. Drop lignes vides *)
  let df_sales := dropna_all df_sales in
  (* 2. Colonnes essentielles *)
  let* df_sales := lift (dropna_subset ["SKU Code"; "Quantity"; "Date"] df_sales) in
  (* 3. Nettoyage Date *)
  let* date := lift (getitem df_sales "Date") in
  let df_sales := setitem df_sales "Date" (to_datetime_coerce date) in
  let* df_sales := lift (dropna_subset ["Date"] df_sales) in
  (* 4. Nettoyage Quantity *)
  let* quantity := lift (getitem df_sales "Quantity") in
  let df_sales := setitem df_sales "Quantity" (to_numeric_coerce quantity) in
  let* quantity := lift (getitem df_sales "Quantity") in
  let* quantity := lift (astype_int (fillna0 quantity)) in
  let df_sales := setitem df_sales "Quantity" quantity in
  (* Normalisation du SKU (pour cohérence avec inventory) *)
  let* sku := lift (getitem df_sales "SKU Code") in
  let df_sales := setitem df_sales "SKU Code" (str_upper (str_strip sku)) in
  (* Quantités négatives (rare mais possible) *)
  let* quantity := lift (getitem df_sales "Quantity") in
  let* negative := lift (lt_scalar 0 quantity) in
  let* df_sales :=
    if any negative
    then
      log WARNING (Text "Certaines quantités sont négatives — elles seront forcées à 0.");;
      let* quantity := lift (getitem df_sales "Quantity") in
      let* clipped := lift (clip_lower0 quantity) in
      ret (setitem df_sales "Quantity" clipped)
    else ret df_sales in
  (* 5. Filtrer les SKU validés depuis inventory_clean *)
  let* inventory_sku := lift (getitem df_inventory "SKU Code") in
  let valid_skus := dropna inventory_sku in
  let before := len df_sales in
  let* sku := lift (getitem df_sales "SKU Code") in
  let df_sales := where_ df_sales (isin valid_skus sku) in
  let dropped := (before - len df_sales)%nat in
  when (0 <? dropped)%nat
    (log WARNING
       (CountText dropped " lignes supprimées car SKU non trouvés dans Inventory_clean."));;
  ret df_sales.

(** The day on which [pd.Timestamp.today()] is read.  The timestamps of the
    model are calendar dates, and a date is later than the current instant
    exactly when it is later than the current day. *)
Variable today : Timestamp.

Definition post_validation (df : DataFrame) : M unit :=
  let issues_found := false in
  (* 1. Quantités négatives *)
  let* quantity := lift (getitem df "Quantity") in
  let* negative := lift (lt_scalar 0 quantity) in
  let* issues_found :=
    if any negative
    then log ERROR (Text "Des quantités négatives sont présentes après nettoyage.");;
         ret true
    else ret issues_found in
  (* 2. Dates manquantes *)
  let* date := lift (getitem df "Date") in
  let* issues_found :=
    if any (map isna date)
    then log ERROR (Text "Des dates sont manquantes après nettoyage.");; ret true
    else ret issues_found in
  (* 3. Dates dans le futur (erreur typique) *)
  let* date := lift (getitem df "Date") in
  let* future := lift (gt_timestamp today date) in
  let future_dates := where_ df future in
  when (negb (empty future_dates))
    (log WARNING (CountText (len future_dates) " ventes ont des dates dans le futur."));;
  (* 4. SKU vides ou corrompus *)
  let* sku := lift (getitem df "SKU Code") in
  let* issues_found :=
    if any (map isna sku) || any (eq_str "" (str_strip sku))
    then log ERROR (Text "Certains SKU Code sont vides après nettoyage.");; ret true
    else ret issues_found in
  (* 5. Vérification quantités anormalement élevées *)
  let* quantity := lift (getitem df "Quantity") in
  let* high := lift (gt_scalar 5000 quantity) in
  when (any high)
    (log WARNING (Text "Certaines quantités semblent anormalement élevées (> 5000)."));;
  (* Résultat final *)
  when (negb issues_found)
    (log INFO (Text "Post-cleaning validation passed: données cohérentes et exploitables.")).

Definition save_data (df : DataFrame) : M unit :=
  log INFO (TextPath "Sauvegarde du fichier cleaned → " (output_path self));;
  to_csv df (output_path self).

Definition run : M unit :=
  let* loaded := load_data in
  let '(df_sales, df_inventory) := loaded in
  let required_cols := ["SKU Code"; "Quantity"; "Date"] in
  check_required_columns df_sales required_cols;;
  validate_types df_sales;;
  let* df_cleaned := clean_data df_sales df_inventory in
  post_validation df_cleaned;;
  save_data df_cleaned.
End Methods.

End CleanSales.

(** ** BuildStarSchema.py *)
Module BuildStarSchema.
Import Pandas Effects.

Record StarSchemaBuilder := mkStarSchemaBuilder {
  inventory_clean_path : string;
  model_output_dir : string
}.

(** [self.model_output_dir / name] *)
Definition joinpath (dir name : string) : string := dir +:+ "/" +:+ name.

Section Methods.
Context `{Parsers}.
Variable self : StarSchemaBuilder.

Definition load_inventory : M DataFrame :=
  log INFO (TextPath "Chargement de Inventory_clean depuis " (inventory_clean_path self));;
  let* df_inventory := read_csv (inventory_clean_path self) in
  ret df_inventory.

Definition build_dim_product (df_inventory : DataFrame) : M DataFrame :=
  log INFO (Text "Construction de DimProduct...");;
  (* Colonnes utiles pour une dimension produit *)
  let cols := ["SKU Code"; "Design No."; "Size"; "Color"; "BrandCode"; "CategoryName"] in
  let* dim_product := lift (getitems df_inventory cols) in
  (* Ajout de la clé surrogate *)
  let* dim_product :=
    lift (insert0 dim_product "ProductKey" (range1 (len dim_product))) in
  (* Sauvegarde *)
  let output_path := joinpath (model_output_dir self) "DimProduct.csv" in
  log INFO (TextPath "Sauvegarde de DimProduct → " output_path);;
  to_csv dim_product output_path;;
  ret dim_product.

Definition build_fact_sales (sales_clean_path : string) (dim_product : DataFrame)
    : M DataFrame :=
  log INFO (Text "Construction de FactSales...");;
  let* df_sales := read_csv sales_clean_path in
  (* 1. Joindre les ventes avec DimProduct *)
  let* keys := lift (getitems dim_product ["ProductKey"; "SKU Code"]) in
  let* df_fact := lift (merge_left "SKU Code" df_sales keys) in
  (* 2. Générer DateKey (format YYYYMMDD) *)
  let* date := lift (getitem df_fact "Date") in
  let* date := lift (to_datetime date) in
  let df_fact := setitem df_fact "Date" date in
  let* date := lift (getitem df_fact "Date") in
  let* datekey := lift (astype_int (dt_strftime_Ymd date)) in
  let df_fact := setitem df_fact "DateKey" datekey in
  (* 3. Sélectionner les colonnes finales *)
  let* fact_sales := lift (getitems df_fact ["DateKey"; "ProductKey"; "Quantity"]) in
  (* Sauvegarde *)
  let output_path := joinpath (model_output_dir self) "FactSales.csv" in
  log INFO (TextPath "Sauvegarde de FactSales → " output_path);;
  to_csv fact_sales output_path;;
  ret fact_sales.

Definition run : M unit :=
  let* df_inventory := load_inventory in
  let* dim_product := build_dim_product df_inventory in
  build_fact_sales "../data/clean/Sales_clean.csv" dim_product;;
  ret tt.
End Methods.

End BuildStarSchema.

(** ** main.py *)
Module Main.
Import Pandas Effects.

(** The flags that [argparse] hands over. *)
Record Args := mkArgs {
  clean_inventory : bool;
  clean_sales : bool;
  clean_all : bool
}.

Section Main.
Context `{Parsers}.
Variable today : Timestamp.

Definition main (args : Args) : M unit :=
  when (clean_inventory args)
    (CleanInventory.run
       (CleanInventory.mkInventoryCleaner
          "../data/raw/Inventory_raw.csv" "../data/clean/Inventory_clean.csv"));;
  when (clean_sales args)
    (CleanSales.run
       (CleanSales.mkSalesCleaner
          "../data/raw/Sales_raw.csv" "../data/clean/Inventory_clean.csv"
          "../data/clean/Sales_clean.csv") today);;
  when (clean_all args)
    (CleanInventory.run
       (CleanInventory.mkInventoryCleaner
          "../data/raw/Inventory_raw.csv" "../data/clean/Inventory_clean.csv");;
     CleanSales.run
       (CleanSales.mkSalesCleaner
          "../data/raw/Sales_raw.csv" "../data/clean/Inventory_clean.csv"
          "../data/clean/Sales_clean.csv") today).
End Main.

End Main.


(** ** Row-wise views of the cleaners

    The methods work column by column.  The definitions below give, for one
    row, what those column operations amount to; the lemmas of the next part
    prove that the methods compute exactly these. *)
Module Rowwise.
Import Pandas Effects.

Definition unwrap (r : result cell) : cell :=
  match r with Ok c => c | Raise _ => NA end.

Definition fill0 (c : cell) : cell := if isna c then Int 0 else c.

Definition strip_cell (c : cell) : cell :=
  match c with Txt s => Txt (strip s) | _ => NA end.

Definition upper_cell (c : cell) : cell :=
  match c with Txt s => Txt (upper s) | _ => NA end.

(** [.str.strip().str.upper()] on one SKU *)
Definition normalize_sku (c : cell) : cell := upper_cell (strip_cell c).

(** [.clip(lower=0).fillna(0).astype(int)] on one stock value *)
Definition stock_result (c : cell) : result cell :=
  rbind (clip_lower0_cell c) (λ c1, astype_int_cell (fill0 c1)).

Definition stock_ok (r : gmap string cell) : Prop :=
  ∃ c, stock_result (cell_at r "Stock") = Ok c.

(** The rows that the two [dropna] calls of a cleaner keep. *)
Definition retained (cols required : list string) (r : gmap string cell) : bool :=
  negb (forallb (λ c, isna (cell_at r c)) cols) &&
  forallb (λ c, negb (isna (cell_at r c))) required.

Definition inventory_required : list string := ["SKU Code"; "Design No."; "Category"].

Definition retained_inventory (df : DataFrame) : list (gmap string cell) :=
  List.filter (retained (columns df) inventory_required) (rows df).

(** Steps 3, 4 and 5 of [InventoryCleaner.clean_data] on one row. *)
Definition with_sku (r : gmap string cell) : gmap string cell :=
  <["SKU Code" := normalize_sku (cell_at r "SKU Code")]> r.

Definition with_stock (r : gmap string cell) : gmap string cell :=
  <["Stock" := unwrap (stock_result (cell_at r "Stock"))]> r.

Definition with_split (r : gmap string cell) : gmap string cell :=
  let ps := pieces ":" (cell_at r "Category") in
  <["CategoryName" := strip_cell (nth 1 ps NA)]>
    (<["BrandCode" := strip_cell (nth 0 ps NA)]> r).

(** One retained inventory row as [InventoryCleaner.clean_data] returns it. *)
Definition clean_inventory_row (r : gmap string cell) : gmap string cell :=
  delete "Category" (with_split (with_stock (with_sku r))).

(** The text before the first separator (the whole text when there is
    none), and the split of a text at its first separator. *)
Fixpoint before_first (sep : ascii) (s : string) : string :=
  match s with
  | EmptyString => EmptyString
  | String a s' =>
      if bool_decide (a = sep) then EmptyString else String a (before_first sep s')
  end.

Fixpoint split_first (sep : ascii) (s : string) : option (string * string) :=
  match s with
  | EmptyString => None
  | String a s' =>
      if bool_decide (a = sep) then Some (EmptyString, s')
      else match split_first sep s' with
           | Some (l, r) => Some (String a l, r)
           | None => None
           end
  end.

(** The category split as the specification words it: BrandCode is the
    trimmed text on the left of the first [:], CategoryName the trimmed text
    on its right. *)
Definition spec_brand_code (category : string) : option string :=
  option_map (λ lr, strip (fst lr)) (split_first ":" category).

Definition spec_category_name (category : string) : option string :=
  option_map (λ lr, strip (snd lr)) (split_first ":" category).

Definition sales_required : list string := ["SKU Code"; "Quantity"; "Date"].

Section Sales.
Context `{Parsers}.

Definition retained_sales (df : DataFrame) : list (gmap string cell) :=
  List.filter (retained (columns df) sales_required) (rows df).

Definition date_cell (col : list cell) (c : cell) : cell :=
  match to_datetime_cell col c with Some t => TS t | None => NA end.

(** The retained sales rows with their parsed date, without the rows whose
    date does not parse. *)
Definition dated_sales (df : DataFrame) : list (gmap string cell) :=
  let kept := retained_sales df in
  let col := map (λ r, cell_at r "Date") kept in
  List.filter (λ r, negb (isna (cell_at r "Date")))
    (map (λ r, <["Date" := date_cell col (cell_at r "Date")]> r) kept).

Definition numeric_cell (c : cell) : cell :=
  match c with
  | Num x => Num x
  | Txt s => match parse_number s with Some x => Num x | None => NA end
  | NA | TS _ => NA
  end.

(** Step 4, the SKU normalisation and the clamp of
    [SalesCleaner.clean_data] on one row. *)
Definition with_numeric (r : gmap string cell) : gmap string cell :=
  <["Quantity" := numeric_cell (cell_at r "Quantity")]> r.

Definition with_int (r : gmap string cell) : gmap string cell :=
  <["Quantity" := unwrap (astype_int_cell (fill0 (cell_at r "Quantity")))]> r.

Definition with_clamp (r : gmap string cell) : gmap string cell :=
  <["Quantity" := unwrap (clip_lower0_cell (cell_at r "Quantity"))]> r.

(** One dated sales row as it stands before the referential filter. *)
Definition clean_sales_row (r : gmap string cell) : gmap string cell :=
  with_clamp (with_sku (with_int (with_numeric r))).

(** [to_numeric], [fillna(0)], [astype(int)] and the clamp on one
    quantity *)
Definition quantity_result (c : cell) : result cell :=
  rbind (astype_int_cell (fill0 (numeric_cell c))) clip_lower0_cell.

Definition quantity_ok (r : gmap string cell) : Prop :=
  ∃ y, quantity_result (cell_at r "Quantity") = Ok y.

(** Whether the quantity of a row is negative once it is an integer. *)
Definition negative_quantity (r : gmap string cell) : bool :=
  match cell_at (with_int (with_numeric r)) "Quantity" with
  | Num x => number_ltb x 0
  | _ => false
  end.

(** The sales table as it stands before the referential filter. *)
Definition normalized_sales (df : DataFrame) : list (gmap string cell) :=
  map clean_sales_row (dated_sales df).
End Sales.

(** The products a sale joins with, and the ProductKey cells the left join
    gives it: those of the matching products, or one NaN when there is
    none. *)
Definition matching_products (dim_product : DataFrame) (l : gmap string cell)
    : list (gmap string cell) :=
  List.filter (λ d, cell_eqb (cell_at l "SKU Code") (cell_at d "SKU Code"))
    (rows dim_product).

Definition resolved_keys (dim_product : DataFrame) (l : gmap string cell) : list cell :=
  match matching_products dim_product l with
  | [] => [NA]
  | ds => map (λ d, cell_at d "ProductKey") ds
  end.

(** The Date column of the joined frame. *)
Definition merged_dates (sales dim_product : DataFrame) : list cell :=
  flat_map (λ l, map (λ _, cell_at l "Date") (resolved_keys dim_product l))
    (rows sales).

(** YYYYMMDD as a number *)
Definition ymd (t : Timestamp) : Z := year t * 10000 + month t * 100 + day t.

Section Facts.
Context `{Parsers}.

(** [pd.to_datetime], [.dt.strftime("%Y%m%d")] and [.astype(int)] on one
    date of the column [col]. *)
Definition date_key_result (col : list cell) (c : cell) : result cell :=
  rbind (to_datetime_one col c) (λ d, astype_int_cell (strftime_Ymd_cell d)).

(** The fact row of a sale [l] resolved to the key [pk]. *)
Definition fact_row (col : list cell) (l : gmap string cell) (pk : cell)
    : gmap string cell :=
  list_to_map
    [("DateKey", unwrap (date_key_result col (cell_at l "Date")));
     ("ProductKey", pk);
     ("Quantity", cell_at l "Quantity")].

Definition fact_rows_of (sales dim_product : DataFrame) (l : gmap string cell)
    : list (gmap string cell) :=
  map (fact_row (merged_dates sales dim_product) l) (resolved_keys dim_product l).

(** The rows of the fact table, sale by sale. *)
Definition fact_rows (sales dim_product : DataFrame) : list (gmap string cell) :=
  flat_map (fact_rows_of sales dim_product) (rows sales).
End Facts.

Definition dim_columns : list string :=
  ["SKU Code"; "Design No."; "Size"; "Color"; "BrandCode"; "CategoryName"].

(** The set of valid SKU codes that [SalesCleaner.clean_data] builds. *)
Definition valid_skus (df_inventory : DataFrame) : list cell :=
  dropna (map (λ r, cell_at r "SKU Code") (rows df_inventory)).

Definition in_inventory (df_inventory : DataFrame) (r : gmap string cell) : bool :=
  existsb (cell_eqb (cell_at r "SKU Code")) (valid_skus df_inventory).

(** *** Predicates used in the statements *)

Definition has_columns (cols : list string) (df : DataFrame) : Prop :=
  ∀ c, c ∈ cols → c ∈ columns df.

(** [missing] in [check_required_columns] *)
Definition missing_columns (df : DataFrame) (required_cols : list string) : list string :=
  List.filter (λ col, negb (has_column df col)) required_cols.

Definition sku_column (l : list (gmap string cell)) : list cell :=
  map (λ r, cell_at r "SKU Code") l.

Definition product_key_column (df : DataFrame) : list cell :=
  map (λ r, cell_at r "ProductKey") (rows df).

Definition text_or_na (c : cell) : Prop :=
  match c with NA | Txt _ => True | _ => False end.

(** [r'] agrees with [r] on the columns [cols]. *)
Definition same_on (cols : list string) (r r' : gmap string cell) : Prop :=
  ∀ c, c ∈ cols → cell_at r' c = cell_at r c.



(** The Stock of [r] is a number of 2^63 or more, beyond int64. *)
Definition stock_overflows (r : gmap string cell) : Prop :=
  ∃ n d, cell_at r "Stock" = Num (Fin (n # d)) ∧ 9223372036854775807 < n / Zpos d.

(** BrandCode and CategoryName of the clean row [r'], for a raw row [r]
    whose Category holds a [:]: the trimmed text before the first [:], and
    the trimmed text between the first [:] and the next one (up to the end
    when there is no other). *)
Definition category_split (r r' : gmap string cell) : Prop :=
  ∀ s l rest,
    cell_at r "Category" = Txt s → split_first ":" s = Some (l, rest) →
    cell_at r' "BrandCode" = Txt (strip l) ∧
    cell_at r' "CategoryName" = Txt (strip (before_first ":" rest)) ∧
    (contains_char ":" rest = false → cell_at r' "CategoryName" = Txt (strip rest)).

(** The Category of [r] holds no [:]. *)
Definition no_separator (r : gmap string cell) : Prop :=
  ∀ s, cell_at r "Category" = Txt s → contains_char ":" s = false.

Definition dropped_message : string :=
  " lignes supprimées car SKU non trouvés dans Inventory_clean.".

(** A log entry that reports a count of dropped rows. *)
Definition is_dropped_report (e : Effects.level * Effects.message) : Prop :=
  ∃ n s, e.2 = Effects.CountText n s.

(** The quantity of the clean row [r'] is the normalised quantity of the
    sales row [r]: 0 for a text that is not a number and for a negative
    number; for a number [n/d] that is not negative, its integer part when
    that is an int64, and 0 when it is beyond (the cast gives the smallest
    int64, which the clamp that follows replaces by 0). *)
Definition quantity_normalized `{Parsers} (r r' : gmap string cell) : Prop :=
  (∀ s, cell_at r "Quantity" = Txt s → parse_number s = None →
        cell_at r' "Quantity" = Int 0) ∧
  (∀ n d, numeric_cell (cell_at r "Quantity") = Num (Fin (n # d)) →
     (n < 0 → cell_at r' "Quantity" = Int 0) ∧
     (0 <= n → n / Zpos d <= 9223372036854775807 →
      cell_at r' "Quantity" = Int (n / Zpos d)) ∧
     (9223372036854775807 < n / Zpos d → cell_at r' "Quantity" = Int 0)).

(** What [merge] demands of its key columns: the SKU Code columns of the
    sales and of the products are of the same kind, or one of the two tables
    has no row. *)
Definition compatible_keys (sales dim_product : DataFrame) : Prop :=
  keys_clash (sku_column (rows sales)) (sku_column (rows dim_product)) = false.

(** The rows of the joined frame that one sale contributes, and the
    ProductKey its partner carries. *)
Definition joined (sales keys : DataFrame) (l : gmap string cell)
    : list (gmap string cell) :=
  match List.filter (λ d, cell_eqb (cell_at l "SKU Code") (cell_at d "SKU Code"))
          (rows keys) with
  | [] => [merged_row "SKU Code" sales keys l None]
  | ds => map (λ d, merged_row "SKU Code" sales keys l (Some d)) ds
  end.

Definition key_of (r : option (gmap string cell)) : cell :=
  match r with Some d => cell_at d "ProductKey" | None => NA end.

(** [key] is the DateKey of a sale dated [c] in the column [col]: the date
    parses to a timestamp [t], and [key] is the integer that the eight
    digits of [t.strftime("%Y%m%d")] spell. *)
Definition is_date_key `{Parsers} (col : list cell) (c key : cell) : Prop :=
  ∃ t, to_datetime_cell col c = Some t ∧
       key = Int (ymd t) ∧
       int_of_str (strftime_Ymd t) = Ok (ymd t) ∧
       String.length (strftime_Ymd t) = 8%nat ∧
       10000000 <= ymd t <= 99999999.

End Rowwise.

(** ** What the checks log, and what a method may write

    The predicates and the views used in the statements about the methods
    that validate, verify and save: what a method is allowed to write, and,
    for each validation method, the entries it logs as a function of the
    table it is given.  The lemmas of the last part prove that the methods
    log exactly these. *)
Module Checks.
Import Pandas Effects Rowwise.

(** A computation that writes no file and only appends to the log. *)
Definition read_only {A} (m : M A) : Prop :=
  ∀ w, files (m w).2 = files w ∧ ∃ entries, logs (m w).2 = logs w ++ entries.

(** A computation that only appends to the log, writes no file when it
    raises, and writes at most the file [path] when it returns. *)
Definition saves_to {A} (path : string) (m : M A) : Prop :=
  ∀ w, (∃ entries, logs (m w).2 = logs w ++ entries) ∧
       match (m w).1 with
       | Raise _ => files (m w).2 = files w
       | Ok _ => ∃ df, files (m w).2 = <[path:=df]> (files w)
       end.

(** A column as [read_csv] reads it when it holds text: [str] values or
    NaN, with at least one [str] unless the table has no row.  Such a column
    is an object column, on which the [.str] accessor is available. *)
Definition text_column (df : DataFrame) (c : string) : Prop :=
  (∀ r, r ∈ rows df → text_or_na (cell_at r c)) ∧
  (rows df ≠ [] → ∃ r s, r ∈ rows df ∧ cell_at r c = Txt s).

Definition text_columns (cols : list string) (df : DataFrame) : Prop :=
  ∀ c, c ∈ cols → text_column df c.

(** The entries that a computation started in [w] and ended in [w'] has
    appended to the log. *)
Definition new_entries (w w' : World) : list (level * message) :=
  drop (length (logs w)) (logs w').

(** What [InventoryCleaner.validate_types] logs for a table. *)
Definition short_sku (r : gmap string cell) : bool :=
  match cell_at r "SKU Code" with
  | Txt s => Z.of_nat (String.length s) <? 3
  | _ => false
  end.

Definition has_separator (r : gmap string cell) : bool :=
  match cell_at r "Category" with
  | Txt s => contains_char ":" s
  | _ => false
  end.

Definition column (df : DataFrame) (c : string) : list cell :=
  map (λ r, cell_at r c) (rows df).

Definition inventory_type_warnings `{Parsers} (df : DataFrame)
    : list (level * message) :=
  (if negb (is_numeric_dtype (column df "Stock"))
   then [(WARNING, Text "La colonne 'Stock' n'est pas numérique dans le fichier brut.")]
   else []) ++
  (if negb (is_string_dtype (column df "SKU Code"))
   then [(WARNING, Text "La colonne 'SKU Code' devrait être du texte (string).")]
   else []) ++
  (if negb (is_string_dtype (column df "Design No."))
   then [(WARNING, Text "La colonne 'Design No.' devrait être du texte (string).")]
   else []) ++
  (if negb (is_string_dtype (column df "Category"))
   then [(WARNING, Text "La colonne 'Category' devrait être du texte (string).")]
   else []) ++
  (if existsb short_sku (rows df)
   then [(WARNING, Text "Certains SKU Code ont une longueur anormale (<3).")]
   else []) ++
  (if negb (forallb has_separator (rows df))
   then [(WARNING, Text "Certaines valeurs de 'Category' ne contiennent pas ':'.")]
   else []).

(** The labels of a table after [df[c] = ...]. *)
Definition with_column (c : string) (cols : list string) : list string :=
  if bool_decide (c ∈ cols) then cols else cols ++ [c].

(** The columns that [InventoryCleaner.clean_data] rewrites or creates. *)
Definition inventory_rewritten : list string :=
  ["SKU Code"; "Stock"; "Category"; "BrandCode"; "CategoryName"].

(** What [InventoryCleaner.verification_data] logs for a table. *)
Definition negative_number (c : cell) : bool :=
  match c with Num x => number_ltb x 0 | _ => false end.

(** NaN, or a text that is empty once trimmed. *)
Definition blank (c : cell) : bool :=
  isna c || match c with Txt s => bool_decide (strip s = "") | _ => false end.

Definition has_dash (r : gmap string cell) : bool :=
  match cell_at r "SKU Code" with
  | Txt s => contains_char "-" s
  | _ => false
  end.

Definition verification_report (df : DataFrame) : list (level * message) :=
  let negative := existsb negative_number (column df "Stock") in
  let no_brand := existsb blank (column df "BrandCode") in
  let no_name := existsb blank (column df "CategoryName") in
  let repeated := any (duplicated (column df "SKU Code")) in
  (if negative then [(ERROR, Text "Stock négatif détecté après nettoyage !")] else []) ++
  (if no_brand
   then [(ERROR, Text "Certaines lignes ont un BrandCode vide après nettoyage.")]
   else []) ++
  (if no_name
   then [(ERROR, Text "Certaines lignes ont un CategoryName vide après nettoyage.")]
   else []) ++
  (if repeated
   then [(ERROR, Text "Des SKU en doublon existent après nettoyage, ce qui est interdit dans un inventaire.")]
   else []) ++
  (if negb (forallb has_dash (rows df))
   then [(WARNING, Text "Certains SKU semblent avoir un format inhabituel (pas de '-').")]
   else []) ++
  (if negative || no_brand || no_name || repeated then []
   else [(INFO, Text "Post-cleaning validation passed: données cohérentes et propres.")]).

(** What [SalesCleaner.validate_types] logs for a table. *)
Definition sales_type_warnings `{Parsers} (df : DataFrame) : list (level * message) :=
  (if negb (is_numeric_dtype (column df "Quantity"))
   then [(WARNING, Text "La colonne 'Quantity' n'est pas numérique dans le fichier brut.")]
   else []) ++
  (if negb (is_string_dtype (column df "SKU Code"))
   then [(WARNING, Text "La colonne 'SKU Code' devrait être du texte (string).")]
   else []) ++
  (if existsb (λ c, isna (date_cell (column df "Date") c)) (column df "Date")
   then [(WARNING, Text "Certaines valeurs de 'Date' sont invalides ou mal formatées.")]
   else []) ++
  (if existsb short_sku (rows df)
   then [(WARNING, Text "Certains SKU Code ont une longueur anormale (<3).")]
   else []).

(** What [SalesCleaner.post_validation] logs for a table. *)
Definition high_number (c : cell) : bool :=
  match c with Num x => number_gtb x 5000 | _ => false end.

Definition in_future (today : Timestamp) (r : gmap string cell) : bool :=
  match cell_at r "Date" with TS d => timestamp_ltb today d | _ => false end.

Definition post_validation_report (today : Timestamp) (df : DataFrame)
    : list (level * message) :=
  let negative := existsb negative_number (column df "Quantity") in
  let undated := existsb isna (column df "Date") in
  let future_dates := mkDataFrame (columns df) (List.filter (in_future today) (rows df)) in
  let no_sku := existsb blank (column df "SKU Code") in
  (if negative
   then [(ERROR, Text "Des quantités négatives sont présentes après nettoyage.")]
   else []) ++
  (if undated then [(ERROR, Text "Des dates sont manquantes après nettoyage.")] else []) ++
  (if negb (empty future_dates)
   then [(WARNING, CountText (len future_dates) " ventes ont des dates dans le futur.")]
   else []) ++
  (if no_sku then [(ERROR, Text "Certains SKU Code sont vides après nettoyage.")] else []) ++
  (if existsb high_number (column df "Quantity")
   then [(WARNING, Text "Certaines quantités semblent anormalement élevées (> 5000).")]
   else []) ++
  (if negative || undated || no_sku then []
   else [(INFO, Text "Post-cleaning validation passed: données cohérentes et exploitables.")]).

(** The columns that [SalesCleaner.clean_data] rewrites. *)
Definition sales_rewritten : list string := ["Date"; "Quantity"; "SKU Code"].

(** The number of fact rows that a sale contributes. *)
Definition fan_out (dim_product : DataFrame) (l : gmap string cell) : nat :=
  Nat.max 1 (length (matching_products dim_product l)).

(** The table that [build_dim_product] builds from a clean inventory. *)
Definition dim_product_of (df_inventory : DataFrame) : DataFrame :=
  mkDataFrame ("ProductKey" :: dim_columns)
    (zip_with (λ r v, <["ProductKey":=v]> r)
       (map (project_row dim_columns) (rows df_inventory))
       (range1 (len df_inventory))).

End Checks.

(** ** A concrete instance of the recognisers, for the scenarios

    Decimal integers for numbers, and ISO dates [YYYY-MM-DD] for dates. *)
Module Scenario.
Import Pandas Effects Rowwise.

Definition iso_number (s : string) : option number :=
  match s with
  | String "-" s' =>
      match s' with
      | EmptyString => None
      | _ => option_map (λ z, Fin (inject_Z (- z))) (digits_val 0 s')
      end
  | EmptyString => None
  | _ => option_map (λ z, Fin (inject_Z z)) (digits_val 0 s)
  end.

Definition iso_date (s : string) : option Timestamp :=
  match s with
  | String y1 (String y2 (String y3 (String y4 (String "-"
      (String m1 (String m2 (String "-" (String d1 (String d2 EmptyString))))))))) =>
      match digits_val 0 (String y1 (String y2 (String y3 (String y4 EmptyString)))),
            digits_val 0 (String m1 (String m2 EmptyString)),
            digits_val 0 (String d1 (String d2 EmptyString)) with
      | Some y, Some m, Some d => Some (mkTimestamp y m d)
      | _, _, _ => None
      end
  | _ => None
  end.

Definition iso_parsers : Parsers := {|
  parse_number := iso_number;
  parse_datetime := λ _ c, match c with Txt s => iso_date s | _ => None end;
  is_numeric_dtype := forallb (λ c, match c with Num _ | NA => true | _ => false end);
  is_string_dtype := forallb (λ c, match c with Txt _ => true | _ => false end)
|}.

Definition row (kvs : list (string * cell)) : gmap string cell := list_to_map kvs.

Definition world0 : World := mkWorld [] ∅.

Definition inventory_cleaner : CleanInventory.InventoryCleaner :=
  CleanInventory.mkInventoryCleaner
    "../data/raw/Inventory_raw.csv" "../data/clean/Inventory_clean.csv".

Definition builder : BuildStarSchema.StarSchemaBuilder :=
  BuildStarSchema.mkStarSchemaBuilder "../data/clean/Inventory_clean.csv" "../data/model".

Definition sales_clean_path : string := "../data/clean/Sales_clean.csv".

(** Scenario A: the raw inventory row [SKU001, D1, "BR1:Shirts", -5, M, Red]. *)
Definition scenario_A : DataFrame :=
  mkDataFrame ["SKU Code"; "Design No."; "Category"; "Stock"; "Size"; "Color"]
    [row [("SKU Code", Txt "SKU001"); ("Design No.", Txt "D1");
          ("Category", Txt "BR1:Shirts"); ("Stock", Int (-5));
          ("Size", Txt "M"); ("Color", Txt "Red")]].

Definition scenario_A_clean : DataFrame :=
  mkDataFrame
    ["SKU Code"; "Design No."; "Stock"; "Size"; "Color"; "BrandCode"; "CategoryName"]
    [row [("SKU Code", Txt "SKU001"); ("Design No.", Txt "D1");
          ("Stock", Int 0); ("Size", Txt "M"); ("Color", Txt "Red");
          ("BrandCode", Txt "BR1"); ("CategoryName", Txt "Shirts")]].


Definition huge_stock : DataFrame :=
  mkDataFrame ["SKU Code"; "Design No."; "Category"; "Stock"; "Size"; "Color"]
    [row [("SKU Code", Txt "SKU001"); ("Design No.", Txt "D1");
          ("Category", Txt "BR1:Shirts"); ("Stock", Int (10 ^ 30));
          ("Size", Txt "M"); ("Color", Txt "Red")]].

Definition huge_stock_clean : DataFrame :=
  mkDataFrame
    ["SKU Code"; "Design No."; "Stock"; "Size"; "Color"; "BrandCode"; "CategoryName"]
    [row [("SKU Code", Txt "SKU001"); ("Design No.", Txt "D1");
          ("Stock", Int (-9223372036854775808)); ("Size", Txt "M"); ("Color", Txt "Red");
          ("BrandCode", Txt "BR1"); ("CategoryName", Txt "Shirts")]].

(** Scenario B: a raw inventory without the Stock column, as the file the
    cleaner reads. *)
Definition no_stock_column : DataFrame :=
  mkDataFrame ["SKU Code"; "Design No."; "Category"; "Size"; "Color"]
    [row [("SKU Code", Txt "SKU001"); ("Design No.", Txt "D1");
          ("Category", Txt "BR1:Shirts"); ("Size", Txt "M"); ("Color", Txt "Red")]].

Definition scenario_B_world : World :=
  mkWorld [] {[ "../data/raw/Inventory_raw.csv" := no_stock_column ]}.

(** A Category with two separators, one without any, and two SKU codes that
    normalise to the same code. *)
Definition multi_colon : DataFrame :=
  mkDataFrame ["SKU Code"; "Design No."; "Category"; "Stock"]
    [row [("SKU Code", Txt "SKU001"); ("Design No.", Txt "D1");
          ("Category", Txt "A:B:C"); ("Stock", Int 1)]].

Definition multi_colon_clean : DataFrame :=
  mkDataFrame ["SKU Code"; "Design No."; "Stock"; "BrandCode"; "CategoryName"]
    [row [("SKU Code", Txt "SKU001"); ("Design No.", Txt "D1"); ("Stock", Int 1);
          ("BrandCode", Txt "A"); ("CategoryName", Txt "B")]].

Definition no_colon : DataFrame :=
  mkDataFrame ["SKU Code"; "Design No."; "Category"; "Stock"]
    [row [("SKU Code", Txt "SKU001"); ("Design No.", Txt "D1");
          ("Category", Txt "Shirts"); ("Stock", Int 1)]].

Definition duplicate_skus : DataFrame :=
  mkDataFrame ["SKU Code"; "Design No."; "Category"; "Stock"]
    [row [("SKU Code", Txt "sku001"); ("Design No.", Txt "D1");
          ("Category", Txt "BR1:Shirts"); ("Stock", Int 1)];
     row [("SKU Code", Txt " SKU001 "); ("Design No.", Txt "D2");
          ("Category", Txt "BR2:Hats"); ("Stock", Int 2)]].

Definition duplicate_skus_clean : DataFrame :=
  mkDataFrame ["SKU Code"; "Design No."; "Stock"; "BrandCode"; "CategoryName"]
    [row [("SKU Code", Txt "SKU001"); ("Design No.", Txt "D1"); ("Stock", Int 1);
          ("BrandCode", Txt "BR1"); ("CategoryName", Txt "Shirts")];
     row [("SKU Code", Txt "SKU001"); ("Design No.", Txt "D2"); ("Stock", Int 2);
          ("BrandCode", Txt "BR2"); ("CategoryName", Txt "Hats")]].

(** Scenario C: raw sales with a quantity that is not a number, a negative
    quantity, and a sale of [SKU999], which the clean inventory of scenario A
    does not hold. *)
Definition scenario_C : DataFrame :=
  mkDataFrame ["SKU Code"; "Quantity"; "Date"]
    [row [("SKU Code", Txt " sku001"); ("Quantity", Txt "10"); ("Date", Txt "2024-03-05")];
     row [("SKU Code", Txt "SKU001"); ("Quantity", Txt "abc"); ("Date", Txt "2024-03-06")];
     row [("SKU Code", Txt "SKU001"); ("Quantity", Txt "-3"); ("Date", Txt "2024-03-07")];
     row [("SKU Code", Txt "SKU999"); ("Quantity", Txt "4"); ("Date", Txt "2024-03-08")]].

Definition scenario_C_clean : DataFrame :=
  mkDataFrame ["SKU Code"; "Quantity"; "Date"]
    [row [("SKU Code", Txt "SKU001"); ("Quantity", Int 10);
          ("Date", TS (mkTimestamp 2024 3 5))];
     row [("SKU Code", Txt "SKU001"); ("Quantity", Int 0);
          ("Date", TS (mkTimestamp 2024 3 6))];
     row [("SKU Code", Txt "SKU001"); ("Quantity", Int 0);
          ("Date", TS (mkTimestamp 2024 3 7))]].

Definition scenario_C_world : World :=
  mkWorld
    [(INFO, Text "Nettoyage des données sales...");
     (WARNING, Text "Certaines quantités sont négatives — elles seront forcées à 0.");
     (WARNING, CountText 1 dropped_message)] ∅.

(** Scenario D: the clean sales row [SKU001, 10, 2024-03-05] and a
    DimProduct that maps [SKU001] to the key 7. *)
Definition scenario_D_sales : DataFrame :=
  mkDataFrame ["SKU Code"; "Quantity"; "Date"]
    [row [("SKU Code", Txt "SKU001"); ("Quantity", Int 10); ("Date", Txt "2024-03-05")]].

Definition scenario_D_dim : DataFrame :=
  mkDataFrame ("ProductKey" :: dim_columns)
    [row [("ProductKey", Int 7); ("SKU Code", Txt "SKU001"); ("Design No.", Txt "D1");
          ("Size", Txt "M"); ("Color", Txt "Red"); ("BrandCode", Txt "BR1");
          ("CategoryName", Txt "Shirts")]].

Definition scenario_D_world : World :=
  mkWorld [] {[ sales_clean_path := scenario_D_sales ]}.

Definition scenario_D_fact : DataFrame :=
  mkDataFrame ["DateKey"; "ProductKey"; "Quantity"]
    [row [("DateKey", Int 20240305); ("ProductKey", Int 7); ("Quantity", Int 10)]].

(** Clean sales with a sale of [SKU999], which the DimProduct of scenario D
    does not hold. *)
Definition matched_sale : gmap string cell :=
  row [("SKU Code", Txt "SKU001"); ("Quantity", Int 10); ("Date", Txt "2024-03-05")].

Definition unmatched_sale : gmap string cell :=
  row [("SKU Code", Txt "SKU999"); ("Quantity", Int 4); ("Date", Txt "2024-03-08")].

Definition unmatched_sales : DataFrame :=
  mkDataFrame ["SKU Code"; "Quantity"; "Date"] [matched_sale; unmatched_sale].

Definition unmatched_world : World :=
  mkWorld [] {[ sales_clean_path := unmatched_sales ]}.

Definition unmatched_fact : DataFrame :=
  mkDataFrame ["DateKey"; "ProductKey"; "Quantity"]
    [row [("DateKey", Int 20240305); ("ProductKey", Int 7); ("Quantity", Int 10)];
     row [("DateKey", Int 20240308); ("ProductKey", NA); ("Quantity", Int 4)]].


(** Clean sales whose SKU codes are numbers, which [read_csv] reads as an
    int64 column, against the DimProduct of scenario D, whose codes are
    text. *)
Definition numeric_sku_sales : DataFrame :=
  mkDataFrame ["SKU Code"; "Quantity"; "Date"]
    [row [("SKU Code", Int 1001); ("Quantity", Int 10); ("Date", Txt "2024-03-05")]].

Definition numeric_sku_world : World :=
  mkWorld [] {[ sales_clean_path := numeric_sku_sales ]}.

(** The day of the runs. *)
Definition run_day : Timestamp := mkTimestamp 2024 6 1.

Definition sales_cleaner : CleanSales.SalesCleaner :=
  CleanSales.mkSalesCleaner
    "../data/raw/Sales_raw.csv" "../data/clean/Inventory_clean.csv"
    "../data/clean/Sales_clean.csv".

(** The raw files of scenarios A and C, before any cleaning. *)
Definition raw_world : World :=
  mkWorld [] {[ "../data/raw/Inventory_raw.csv" := scenario_A;
                "../data/raw/Sales_raw.csv" := scenario_C ]}.

(** The raw sales of scenario C beside the clean inventory of scenario A. *)
Definition sales_world : World :=
  mkWorld [] {[ "../data/raw/Sales_raw.csv" := scenario_C;
                "../data/clean/Inventory_clean.csv" := scenario_A_clean ]}.

(** The clean inventory of scenario A given back as a raw file. *)
Definition rerun_world : World :=
  mkWorld [] {[ "../data/raw/Inventory_raw.csv" := scenario_A_clean ]}.

(** A raw inventory in which one Category holds a [:] and one does not. *)
Definition mixed_categories : DataFrame :=
  mkDataFrame ["SKU Code"; "Design No."; "Category"; "Stock"]
    [row [("SKU Code", Txt "SKU001"); ("Design No.", Txt "D1");
          ("Category", Txt "BR1:Shirts"); ("Stock", Int 1)];
     row [("SKU Code", Txt "SKU002"); ("Design No.", Txt "D2");
          ("Category", Txt "Hats"); ("Stock", Int 2)]].

Definition no_colon_row : gmap string cell :=
  row [("SKU Code", Txt "SKU002"); ("Design No.", Txt "D2");
       ("Category", Txt "Hats"); ("Stock", Int 2)].

(** A raw inventory that holds its header only. *)
Definition header_only : DataFrame :=
  mkDataFrame ["SKU Code"; "Design No."; "Category"; "Stock"] [].

(** Raw sales without the Quantity column, and an inventory without its
    SKU Code column. *)
Definition no_quantity_column : DataFrame :=
  mkDataFrame ["SKU Code"; "Date"]
    [row [("SKU Code", Txt "SKU001"); ("Date", Txt "2024-03-05")]].

Definition no_quantity_world : World :=
  mkWorld [] {[ "../data/raw/Sales_raw.csv" := no_quantity_column;
                "../data/clean/Inventory_clean.csv" := scenario_A_clean ]}.

Definition no_sku_column : DataFrame :=
  mkDataFrame ["Design No."] [row [("Design No.", Txt "D1")]].

Definition scenario_A_row : gmap string cell :=
  row [("SKU Code", Txt "SKU001"); ("Design No.", Txt "D1");
       ("Category", Txt "BR1:Shirts"); ("Stock", Int (-5));
       ("Size", Txt "M"); ("Color", Txt "Red")].

Definition dated_sale : gmap string cell :=
  row [("SKU Code", Txt " sku001"); ("Quantity", Txt "10");
       ("Date", TS (mkTimestamp 2024 3 5))].

(** The clean files of scenarios A and D, as the builder finds them. *)
Definition clean_world : World :=
  mkWorld [] {[ "../data/clean/Inventory_clean.csv" := scenario_A_clean;
                "../data/clean/Sales_clean.csv" := scenario_D_sales ]}.

Definition inventory_only_world : World :=
  mkWorld [] {[ "../data/clean/Inventory_clean.csv" := scenario_A_clean ]}.

Definition raw_sales_only_world : World :=
  mkWorld [] {[ "../data/raw/Sales_raw.csv" := scenario_C ]}.

End Scenario.

(** Membership in a list given by its elements. *)
Ltac in_list :=
  solve [repeat (apply elem_of_cons; first [by left | right])].

(** Case analysis on the membership of an entry in an explicit log. *)
Ltac log_cases :=
  repeat match goal with
         | H : _ ∈ _ :: _ |- _ => apply elem_of_cons in H as [H|H]
         | H : _ ∈ [] |- _ => by apply elem_of_nil in H
         | H : (_, _) = (_, _) |- _ => first [discriminate H | injection H as -> ->]
         | H : _ = (_, _) |- _ => subst
         end.

(** ** Proofs *)

(** *** Running the monad *)
Import Pandas Effects Rowwise Scenario.

Section MonadLemmas.

Lemma bind_log {B} lvl msg (k : unit → M B) w :
  bind (log lvl msg) k w = k tt (mkWorld (logs w ++ [(lvl, msg)]) (files w)).
Proof. reflexivity. Qed.

Lemma bind_ret {A B} (a : A) (k : A → M B) w : bind (ret a) k w = k a w.
Proof. reflexivity. Qed.

Lemma bind_lift_inv {A B} (r : result A) (k : A → M B) w b w' :
  bind (lift r) k w = (Ok b, w') → ∃ a, r = Ok a ∧ k a w = (Ok b, w').
Proof.
  unfold bind, lift. destruct r as [a|e]; [eauto | discriminate].
Qed.

Lemma bind_when {B} (c : bool) lvl msg (k : unit → M B) w :
  bind (when c (log lvl msg)) k w
  = k tt (mkWorld (logs w ++ (if c then [(lvl, msg)] else [])) (files w)).
Proof.
  destruct c; cbn; [reflexivity |].
  rewrite app_nil_r. by destruct w.
Qed.

Lemma mapM_ok {A B} (f : A → result B) l l' :
  mapM f l = Ok l' → Forall2 (λ x y, f x = Ok y) l l'.
Proof.
  revert l'. induction l as [|x l IH]; intros l' Hl; cbn in Hl.
  - injection Hl as <-. constructor.
  - destruct (f x) as [y|] eqn:Hx; [|discriminate]. cbn in Hl.
    destruct (mapM f l) as [ys|]; [|discriminate]. cbn in Hl.
    injection Hl as <-. constructor; auto.
Qed.

Lemma mapM_total {A B} (f : A → result B) l :
  Forall (λ x, ∃ y, f x = Ok y) l → ∃ l', mapM f l = Ok l'.
Proof.
  induction 1 as [|x l [y Hy] _ [l' IH]]; cbn; [eauto |].
  rewrite Hy, IH. cbn. eauto.
Qed.

Lemma mapM_unwrap (f : cell → result cell) l l' :
  mapM f l = Ok l' →
  l' = map (λ x, Rowwise.unwrap (f x)) l ∧ Forall (λ x, ∃ y, f x = Ok y) l.
Proof.
  intros Hl. apply mapM_ok in Hl.
  induction Hl as [|x y l l' Hx _ [-> IH]]; [by split|].
  split; [cbn; by rewrite Hx | constructor; eauto].
Qed.
End MonadLemmas.

Section FrameLemmas.

Lemma cell_at_insert r c v : cell_at (<[c:=v]> r) c = v.
Proof. unfold cell_at. by rewrite lookup_insert_eq. Qed.

Lemma cell_at_insert_ne r c c' v : c ≠ c' → cell_at (<[c:=v]> r) c' = cell_at r c'.
Proof. intros. unfold cell_at. by rewrite lookup_insert_ne. Qed.

Lemma cell_at_delete_ne r c c' : c ≠ c' → cell_at (delete c r) c' = cell_at r c'.
Proof. intros. unfold cell_at. by rewrite lookup_delete_ne. Qed.

Lemma has_column_true df c : has_column df c = true ↔ c ∈ columns df.
Proof. unfold has_column. apply bool_decide_eq_true. Qed.

Lemma getitem_ok df c col :
  getitem df c = Ok col →
  c ∈ columns df ∧ col = map (λ r, cell_at r c) (rows df).
Proof.
  unfold getitem. destruct (has_column df c) eqn:Hc; [|discriminate].
  intros [= <-]. by apply has_column_true in Hc.
Qed.

Lemma getitem_total df c :
  c ∈ columns df → getitem df c = Ok (map (λ r, cell_at r c) (rows df)).
Proof. intros Hc. unfold getitem. apply has_column_true in Hc. by rewrite Hc. Qed.

Lemma zip_with_map_same {A B C} (f : A → B → C) (g : A → B) l :
  zip_with f l (map g l) = map (λ x, f x (g x)) l.
Proof. induction l; cbn; congruence. Qed.

Lemma rows_setitem df c (f : gmap string cell → cell) :
  rows (setitem df c (map f (rows df))) = map (λ r, <[c:=f r]> r) (rows df).
Proof. cbn. apply zip_with_map_same. Qed.

Lemma columns_setitem df c col c' :
  c' ∈ columns df → c' ∈ columns (setitem df c col).
Proof.
  intros Hc'. cbn. destruct (has_column df c); [done|].
  apply elem_of_app. by left.
Qed.

Lemma filter_missing_nil df cols :
  List.filter (λ c, negb (has_column df c)) cols = [] ↔ ∀ c, c ∈ cols → c ∈ columns df.
Proof.
  induction cols as [|c cols IH]; cbn.
  - split; [intros _ c Hc; by apply elem_of_nil in Hc | done].
  - destruct (has_column df c) eqn:Hc; cbn.
    + rewrite IH. apply has_column_true in Hc. split.
      * intros Hall c' [->|Hc']%elem_of_cons; auto.
      * intros Hall c' Hc'. apply Hall. by right.
    + split; [discriminate|]. intros Hall.
      assert (c ∈ columns df) as Hin by (apply Hall; by left).
      apply has_column_true in Hin. congruence.
Qed.

Lemma dropna_subset_ok cols df df' :
  dropna_subset cols df = Ok df' →
  (∀ c, c ∈ cols → c ∈ columns df) ∧
  columns df' = columns df ∧
  rows df' = List.filter (λ r, forallb (λ c, negb (isna (cell_at r c))) cols) (rows df).
Proof.
  unfold dropna_subset.
  destruct (List.filter _ cols) eqn:Hm; [|discriminate].
  intros [= <-]. split; [by apply filter_missing_nil | done].
Qed.

Lemma filter_filter {A} (p q : A → bool) l :
  List.filter q (List.filter p l) = List.filter (λ x, p x && q x) l.
Proof.
  induction l as [|x l IH]; cbn; [done|].
  destruct (p x); cbn; [destruct (q x); cbn; congruence | done].
Qed.

Lemma dropna_inventory df df' :
  dropna_subset inventory_required (dropna_all df) = Ok df' →
  (∀ c, c ∈ inventory_required → c ∈ columns df) ∧
  columns df' = columns df ∧ rows df' = retained_inventory df.
Proof.
  intros (Hc & Hcols & Hrows)%dropna_subset_ok. cbn in Hcols.
  split; [done|]. split; [done|].
  rewrite Hrows. cbn [rows dropna_all columns]. apply filter_filter.
Qed.

Lemma expanded_col_ok e k col :
  expanded_col e k = Ok col →
  (k < width e)%nat ∧ col = map (λ ps, nth k ps NA) (pieces_of e).
Proof.
  unfold expanded_col. destruct (k <? width e)%nat eqn:Hk; [|discriminate].
  intros [= <-]. by apply Nat.ltb_lt in Hk.
Qed.
End FrameLemmas.

Section Steps.
Context {X : Type} (L : list X).
Implicit Types (F : X → gmap string cell) (df : DataFrame).

Lemma getitem_rows df c col F :
  getitem df c = Ok col → rows df = map F L →
  col = map (λ x, cell_at (F x) c) L.
Proof. intros [_ ->]%getitem_ok ->. by rewrite map_map. Qed.

Lemma setitem_rows df c F (G : X → cell) :
  rows df = map F L →
  rows (setitem df c (map G L)) = map (λ x, <[c:=G x]> (F x)) L.
Proof.
  intros Hr. cbn. rewrite Hr. clear Hr.
  induction L; cbn; congruence.
Qed.

Lemma step_sku df sku F :
  rows df = map F L → getitem df "SKU Code" = Ok sku →
  rows (setitem df "SKU Code" (str_upper (str_strip sku)))
  = map (λ x, with_sku (F x)) L.
Proof.
  intros Hr Hsku. rewrite (getitem_rows _ _ _ _ Hsku Hr).
  unfold str_upper, str_strip. rewrite !map_map.
  exact (setitem_rows _ _ F (λ x, normalize_sku (cell_at (F x) "SKU Code")) Hr).
Qed.

Lemma stock_column col clipped stock :
  clip_lower0 col = Ok clipped →
  astype_int (fillna0 clipped) = Ok stock →
  stock = map (λ c, unwrap (stock_result c)) col ∧
  Forall (λ c, ∃ y, stock_result c = Ok y) col.
Proof.
  unfold clip_lower0, astype_int, fillna0. intros Hclip Hast.
  apply mapM_ok in Hclip. apply mapM_ok in Hast.
  revert stock Hast.
  induction Hclip as [|c c1 col clipped Hc _ IH]; intros stock Hast.
  - inversion Hast. by split.
  - cbn in Hast. inversion Hast as [|? y ? ys Hy Hys]; subst.
    destruct (IH _ Hys) as [-> Hall].
    assert (stock_result c = Ok y) as Hr
      by (unfold stock_result; rewrite Hc; exact Hy).
    split; [cbn; by rewrite Hr | constructor; eauto].
Qed.

Lemma step_stock df stock clipped stock' F :
  rows df = map F L → getitem df "Stock" = Ok stock →
  clip_lower0 stock = Ok clipped →
  astype_int (fillna0 clipped) = Ok stock' →
  rows (setitem df "Stock" stock') = map (λ x, with_stock (F x)) L ∧
  Forall (λ x, ∃ y, stock_result (cell_at (F x) "Stock") = Ok y) L.
Proof.
  intros Hr Hstock Hclip Hast.
  rewrite (getitem_rows _ _ _ _ Hstock Hr) in Hclip.
  destruct (stock_column _ _ _ Hclip Hast) as [-> Hall].
  rewrite map_map.
  split; [exact (setitem_rows _ _ F
                   (λ x, unwrap (stock_result (cell_at (F x) "Stock"))) Hr)|].
  clear -Hall. induction L; cbn in *; [constructor|].
  inversion Hall; subst. constructor; auto.
Qed.

Lemma step_split df category brand name F :
  rows df = map F L → getitem df "Category" = Ok category →
  expanded_col (str_split_expand ":" category) 0 = Ok brand →
  expanded_col (str_split_expand ":" category) 1 = Ok name →
  rows (setitem (setitem df "BrandCode" (str_strip brand))
          "CategoryName" (str_strip name))
  = map (λ x, with_split (F x)) L ∧
  (1 < width (str_split_expand ":" (map (λ x, cell_at (F x) "Category") L)))%nat.
Proof.
  intros Hr Hcat [_ ->]%expanded_col_ok [Hw ->]%expanded_col_ok.
  rewrite (getitem_rows _ _ _ _ Hcat Hr) in *. split; [|done].
  unfold str_split_expand, str_strip. cbn [pieces_of]. rewrite !map_map.
  pose proof (setitem_rows df "BrandCode" F
    (λ x, strip_cell (nth 0 (pieces ":" (cell_at (F x) "Category")) NA)) Hr) as Hr'.
  exact (setitem_rows _ "CategoryName" _
    (λ x, strip_cell (nth 1 (pieces ":" (cell_at (F x) "Category")) NA)) Hr').
Qed.
End Steps.

Section InventoryRun.
Import CleanInventory.

Lemma drop_columns_ok cols df df' :
  drop_columns cols df = Ok df' →
  rows df' = map (λ r, foldr delete r cols) (rows df) ∧
  columns df' = List.filter (λ c, negb (bool_decide (c ∈ cols))) (columns df).
Proof.
  unfold drop_columns. destruct (List.filter _ cols); [|discriminate].
  by intros [= <-].
Qed.

Lemma stock_with_sku r : cell_at (with_sku r) "Stock" = cell_at r "Stock".
Proof. by apply cell_at_insert_ne. Qed.

Lemma category_with_stock r :
  cell_at (with_stock (with_sku r)) "Category" = cell_at r "Category".
Proof. unfold with_stock, with_sku. by rewrite !cell_at_insert_ne. Qed.

(** What a run of [InventoryCleaner.clean_data] that returns a table has
    done: the table holds the clean row of every retained row, in order; the
    Stock of every retained row converted; the expanded split had at least
    two columns; the log and the files are as stated. *)
Lemma inventory_clean_data_run df w out w' :
  clean_data df w = (Ok out, w') →
  rows out = map clean_inventory_row (retained_inventory df) ∧
  Forall stock_ok (retained_inventory df) ∧
  (1 < width (str_split_expand ":"
                (map (λ r, cell_at r "Category") (retained_inventory df))))%nat ∧
  "SKU Code" ∈ columns out ∧
  let duplicates :=
    where_ out (duplicated_all (map (λ r, cell_at r "SKU Code") (rows out))) in
  logs w' = logs w ++ [(INFO, Text "Cleaning inventory data...")] ++
            (if empty duplicates then []
             else [(WARNING, Text "Duplicate SKU detected:");
                   (WARNING, Frame duplicates)]) ∧
  files w' = files w.
Proof.
  unfold clean_data. rewrite bind_log.
  set (L := retained_inventory df).
  intros (df1 & Hdrop & Hrun)%bind_lift_inv.
  apply dropna_inventory in Hdrop as (_ & _ & Hrows1). fold L in Hrows1.
  rewrite <- (map_id L) in Hrows1.
  apply bind_lift_inv in Hrun as (sku & Hsku & Hrun).
  pose proof (step_sku L _ _ _ Hrows1 Hsku) as Hrows2.
  set (df2 := setitem df1 "SKU Code" _) in *. clearbody df2. clear Hrows1 Hsku.
  apply bind_lift_inv in Hrun as (stock & Hstock & Hrun).
  apply bind_lift_inv in Hrun as (clipped & Hclip & Hrun).
  apply bind_lift_inv in Hrun as (stock' & Hast & Hrun).
  destruct (step_stock L _ _ _ _ _ Hrows2 Hstock Hclip Hast) as [Hrows3 Hall].
  set (df3 := setitem df2 "Stock" _) in *. clearbody df3.
  clear Hrows2 Hstock Hclip Hast.
  apply bind_lift_inv in Hrun as (category & Hcat & Hrun).
  apply bind_lift_inv in Hrun as (brand & Hbrand & Hrun).
  apply bind_lift_inv in Hrun as (name & Hname & Hrun).
  destruct (step_split L _ _ _ _ _ Hrows3 Hcat Hbrand Hname) as [Hrows4 Hw].
  set (df4 := setitem (setitem df3 "BrandCode" _) "CategoryName" _) in *.
  clearbody df4. clear Hrows3 Hcat Hbrand Hname.
  apply bind_lift_inv in Hrun as (df5 & [Hrows5 _]%drop_columns_ok & Hrun).
  rewrite Hrows4, map_map in Hrows5. clear Hrows4.
  apply bind_lift_inv in Hrun as (sku5 & [Hcol ->]%getitem_ok & Hrun).
  cbv beta in Hrun.
  assert (out = df5 ∧
          logs w' = logs w ++ [(INFO, Text "Cleaning inventory data...")] ++
            (if empty (where_ df5 (duplicated_all
                         (map (λ r, cell_at r "SKU Code") (rows df5))))
             then []
             else [(WARNING, Text "Duplicate SKU detected:");
                   (WARNING, Frame (where_ df5 (duplicated_all
                      (map (λ r, cell_at r "SKU Code") (rows df5)))))]) ∧
          files w' = files w) as (-> & Hlogs & Hfiles).
  { destruct (empty _); cbn in Hrun; injection Hrun as <- <-; cbn;
      rewrite <- ?app_assoc; by rewrite ?app_nil_r. }
  split; [exact Hrows5|]. split.
  - eapply Forall_impl; [exact Hall|]. intros r [y Hy]. exists y.
    by rewrite stock_with_sku in Hy.
  - split; [|by split].
    erewrite map_ext; [exact Hw|]. intros r. cbv beta.
    by rewrite category_with_stock.
Qed.
End InventoryRun.

Section InventoryFields.
Lemma sku_clean r :
  cell_at (clean_inventory_row r) "SKU Code" = normalize_sku (cell_at r "SKU Code").
Proof.
  unfold clean_inventory_row, with_split, with_stock, with_sku.
  rewrite cell_at_delete_ne by done. rewrite !cell_at_insert_ne by done.
  apply cell_at_insert.
Qed.

Lemma stock_clean r :
  cell_at (clean_inventory_row r) "Stock" = unwrap (stock_result (cell_at r "Stock")).
Proof.
  unfold clean_inventory_row, with_split, with_stock.
  rewrite cell_at_delete_ne by done. rewrite !cell_at_insert_ne by done.
  rewrite cell_at_insert. by rewrite stock_with_sku.
Qed.

Lemma brand_clean r :
  cell_at (clean_inventory_row r) "BrandCode"
  = strip_cell (nth 0 (pieces ":" (cell_at r "Category")) NA).
Proof.
  unfold clean_inventory_row, with_split.
  rewrite cell_at_delete_ne by done. rewrite cell_at_insert_ne by done.
  rewrite cell_at_insert. by rewrite category_with_stock.
Qed.

Lemma name_clean r :
  cell_at (clean_inventory_row r) "CategoryName"
  = strip_cell (nth 1 (pieces ":" (cell_at r "Category")) NA).
Proof.
  unfold clean_inventory_row, with_split.
  rewrite cell_at_delete_ne by done.
  rewrite cell_at_insert. by rewrite category_with_stock.
Qed.

Lemma trunc_nonneg q : 0 <= Qnum q → 0 <= trunc q.
Proof. intros Hq. unfold trunc. apply Z.quot_pos; lia. Qed.

Lemma trunc_div n d : 0 <= n → trunc (n # d) = n / Zpos d.
Proof. intros Hn. unfold trunc. cbn [Qnum Qden]. apply Z.quot_div_nonneg; lia. Qed.

Lemma in_int64_spec z :
  in_int64 z = true ↔ -9223372036854775808 <= z <= 9223372036854775807.
Proof. unfold in_int64, int64_min, int64_max. rewrite andb_true_iff, !Z.leb_le. done. Qed.

(** The cast of a float that is not negative: its integer part when that is
    an int64, the smallest int64 otherwise. *)
Lemma float_to_int64_nonneg q :
  0 <= Qnum q →
  (trunc q <= 9223372036854775807 ∧ float_to_int64 q = trunc q) ∨
  (9223372036854775807 < trunc q ∧ float_to_int64 q = -9223372036854775808).
Proof.
  intros Hq. pose proof (trunc_nonneg q Hq) as Ht. unfold float_to_int64.
  destruct (in_int64 (trunc q)) eqn:E.
  - apply in_int64_spec in E. left. split; [lia | done].
  - right. split; [|done].
    apply not_true_iff_false in E. rewrite in_int64_spec in E. lia.
Qed.

Lemma float_to_int64_int z : in_int64 z = true → float_to_int64 (inject_Z z) = z.
Proof.
  intros Hz. unfold float_to_int64, trunc, inject_Z. cbn [Qnum Qden].
  rewrite Z.quot_1_r. by rewrite Hz.
Qed.

Lemma stock_result_ok c y :
  stock_result c = Ok y →
  ∃ z, y = Int z ∧ (0 <= z ∨ z = -9223372036854775808) ∧
    (c = NA → z = 0) ∧
    (c = Num (Inf true) → z = 0) ∧
    (∀ n d, c = Num (Fin (n # d)) →
       (n < 0 → z = 0) ∧
       (0 <= n → n / Zpos d <= 9223372036854775807 → z = n / Zpos d) ∧
       (9223372036854775807 < n / Zpos d → z = -9223372036854775808)).
Proof.
  assert (astype_int_cell (Int 0) = Ok (Int 0)) as Hzero by reflexivity.
  unfold stock_result. destruct c as [|s|[[n d]|[]]|t]; cbn [clip_lower0_cell rbind];
    try discriminate.
  - change (fill0 NA) with (Int 0). rewrite Hzero. intros [= <-].
    exists 0. split; [done|]. split; [lia|]. by repeat split.
  - cbn [is_negative Qnum]. destruct (n <? 0) eqn:Hneg.
    + change (fill0 (Int 0)) with (Int 0). rewrite Hzero. intros [= <-].
      apply Z.ltb_lt in Hneg.
      exists 0. split; [done|]. split; [lia|]. split; [done|]. split; [done|].
      intros n' d' [= <- <-]. split; [done|]. split; [lia|].
      intros Hbig. pose proof (Z.div_lt_upper_bound n (Zpos d) 0). lia.
    + apply Z.ltb_ge in Hneg. change (fill0 (Num (Fin (n # d)))) with (Num (Fin (n # d))).
      cbn [astype_int_cell]. intros [= <-].
      exists (float_to_int64 (n # d)). split; [done|].
      pose proof (trunc_nonneg (n # d) Hneg) as Hpos.
      rewrite (trunc_div n d Hneg) in Hpos.
      destruct (float_to_int64_nonneg (n # d) Hneg) as [[Hle ->]|[Hgt ->]];
        rewrite (trunc_div n d Hneg) in *.
      * split; [by left|]. split; [done|]. split; [done|].
        intros n' d' [= <- <-]. split; [lia|]. split; [done | lia].
      * split; [by right|]. split; [done|]. split; [done|].
        intros n' d' [= <- <-]. split; [lia|]. split; [lia | done].
  - cbn [is_negative]. change (fill0 (Int 0)) with (Int 0). rewrite Hzero.
    intros [= <-]. exists 0. split; [done|]. split; [lia|]. by repeat split.
Qed.

End InventoryFields.

Section SplitLemmas.
Variable sep : ascii.

Lemma split_nonempty s : split sep s ≠ [].
Proof.
  destruct s as [|a s]; cbn; [done|].
  destruct (bool_decide (a = sep)); [done|]. by destruct (split sep s).
Qed.

Lemma split_head s : ∃ ps, split sep s = before_first sep s :: ps.
Proof.
  induction s as [|a s [ps IH]]; cbn; [by exists []|].
  destruct (bool_decide (a = sep)); [eauto|]. rewrite IH. eauto.
Qed.

Lemma split_at_first s l r :
  split_first sep s = Some (l, r) → split sep s = l :: split sep r.
Proof.
  revert l. induction s as [|a s IH]; intros l; cbn; [discriminate|].
  destruct (bool_decide (a = sep)); [by intros [= <- <-]|].
  destruct (split_first sep s) as [[l' r']|]; [|discriminate].
  intros [= <- <-]. by rewrite (IH l').
Qed.

Lemma split_no_sep s : contains_char sep s = false → split sep s = [s].
Proof.
  induction s as [|a s IH]; cbn; [done|].
  destruct (bool_decide (a = sep)); cbn; [discriminate|].
  intros Hs. by rewrite IH.
Qed.

Lemma before_first_no_sep s : contains_char sep s = false → before_first sep s = s.
Proof.
  induction s as [|a s IH]; cbn; [done|].
  destruct (bool_decide (a = sep)); cbn; [discriminate|].
  intros Hs. by rewrite IH.
Qed.

Lemma split_first_left s l r :
  split_first sep s = Some (l, r) → contains_char sep l = false.
Proof.
  revert l. induction s as [|a s IH]; intros l; cbn; [discriminate|].
  destruct (bool_decide (a = sep)) eqn:Ha; [by intros [= <- <-]|].
  destruct (split_first sep s) as [[l' r']|]; [|discriminate].
  intros [= <- <-]. cbn. rewrite Ha. by apply IH.
Qed.

Lemma split_first_append s l r :
  split_first sep s = Some (l, r) → s = l +:+ String sep r.
Proof.
  revert l. induction s as [|a s IH]; intros l; cbn; [discriminate|].
  destruct (bool_decide (a = sep)) eqn:Ha.
  - apply bool_decide_eq_true in Ha as ->. by intros [= <- <-].
  - destruct (split_first sep s) as [[l' r']|]; [|discriminate].
    intros [= <- <-].
    change (String a l' +:+ String sep r') with (String a (l' +:+ String sep r')).
    f_equal. by apply IH.
Qed.
End SplitLemmas.

Section StockNormalisation.
Import CleanInventory.

Lemma Forall2_map_same {A B} (P : A → B → Prop) (f : A → B) l :
  (∀ x, x ∈ l → P x (f x)) → Forall2 P l (map f l).
Proof.
  induction l as [|x l IH]; intros Hl; cbn; constructor.
  - apply Hl. by left.
  - apply IH. intros y Hy. apply Hl. by right.
Qed.

Lemma inventory_rowwise (P : gmap string cell → gmap string cell → Prop) df w out w' :
  clean_data df w = (Ok out, w') →
  (∀ r, r ∈ retained_inventory df → stock_ok r → P r (clean_inventory_row r)) →
  Forall2 P (retained_inventory df) (rows out).
Proof.
  intros (-> & Hall & _)%inventory_clean_data_run HP.
  apply Forall2_map_same. intros r Hr. apply HP; [done|].
  rewrite Forall_forall in Hall. by apply Hall.
Qed.

End StockNormalisation.

Section Duplicates.
Lemma cell_eqb_text c c' : text_or_na c → cell_eqb c c' = true ↔ c = c'.
Proof.
  destruct c as [|s| |]; cbn; try done; intros _.
  - destruct c'; by split.
  - destruct c' as [|t| |]; try by split.
    rewrite bool_decide_eq_true. split; congruence.
Qed.

Lemma normalize_sku_text c : text_or_na (normalize_sku c).
Proof. by destruct c. Qed.

Lemma filter_absent c col :
  text_or_na c → c ∉ col → List.filter (cell_eqb c) col = [].
Proof.
  intros Hc. induction col as [|a col IH]; cbn; [done|].
  intros [Ha Hcol]%not_elem_of_cons.
  destruct (cell_eqb c a) eqn:E; [|by apply IH].
  by apply cell_eqb_text in E.
Qed.

Lemma filter_present c col :
  text_or_na c → c ∈ col → (0 < length (List.filter (cell_eqb c) col))%nat.
Proof.
  intros Hc. induction col as [|a col IH]; [by intros ?%elem_of_nil|].
  intros [<-|Hin]%elem_of_cons; cbn.
  - assert (cell_eqb c c = true) as -> by by apply cell_eqb_text. cbn. lia.
  - destruct (cell_eqb c a); cbn; [lia | by apply IH].
Qed.

Lemma any_false (f : cell → bool) col :
  any (map f col) = false ↔ ∀ c, c ∈ col → f c = false.
Proof.
  unfold any. induction col as [|a col IH]; cbn.
  - split; [by intros _ c ?%elem_of_nil | done].
  - rewrite orb_false_iff, IH. unfold id. split.
    + intros [Ha Hcol] c [->|Hc]%elem_of_cons; auto.
    + intros Hall. split; [apply Hall; by left|].
      intros c Hc. apply Hall. by right.
Qed.

Lemma no_duplicates col :
  Forall text_or_na col → any (duplicated_all col) = false ↔ NoDup col.
Proof.
  intros Htext. unfold duplicated_all. rewrite any_false.
  induction Htext as [|a col Ha Htext IH]; [split; [constructor|by intros _ c ?%elem_of_nil]|].
  rewrite NoDup_cons, <- IH. clear IH.
  assert (cell_eqb a a = true) as Haa by by apply cell_eqb_text.
  split.
  - intros Hall. split.
    + intros Hin. specialize (Hall a (ltac:(by left))).
      cbn [List.filter] in Hall. rewrite Haa in Hall. cbn [length] in Hall.
      pose proof (filter_present a col Ha Hin). apply Nat.ltb_ge in Hall. lia.
    + intros c Hc. specialize (Hall c (ltac:(by right))).
      apply Nat.ltb_ge in Hall. apply Nat.ltb_ge. cbn [List.filter] in Hall.
      destruct (cell_eqb c a); cbn [length] in Hall; lia.
  - intros [Hnotin Hall] c [->|Hc]%elem_of_cons; cbn [List.filter].
    + rewrite Haa, filter_absent by done. done.
    + destruct (cell_eqb c a) eqn:E; [|by apply Hall].
      rewrite Forall_forall in Htext.
      apply cell_eqb_text in E; [|by apply Htext]. by subst.
Qed.
End Duplicates.

Section DuplicateSkus.
Import CleanInventory.

Lemma sku_column_clean l :
  sku_column (map clean_inventory_row l) = map normalize_sku (sku_column l).
Proof.
  unfold sku_column. rewrite !map_map. apply map_ext. intros r. apply sku_clean.
Qed.

Lemma empty_where df mask :
  columns df ≠ [] → empty (where_ df mask) = true ↔ select mask (rows df) = [].
Proof.
  intros Hc. unfold empty. cbn. destruct (select mask (rows df)); [done|].
  destruct (columns df); by split.
Qed.

Lemma select_nil {A} (f : A → bool) (l : list A) :
  select (map f l) l = [] ↔ any (map f l) = false.
Proof.
  unfold any. induction l as [|x l IH]; cbn; [done|].
  unfold id at 1. destruct (f x); cbn; [by split | done].
Qed.

Lemma select_map_col {A} (g : A → cell) (f : cell → bool) (l : list A) :
  select (map f (map g l)) l = [] ↔ any (map f (map g l)) = false.
Proof. rewrite map_map. apply (select_nil (λ x, f (g x))). Qed.

(** C2, amended.  [clean_data] keeps one clean row for every retained raw
    row, in order, so the SKU Code column of the clean table is the list of
    the normalised SKU codes of the retained rows, repeats included.  A code
    that occurs more than once is reported, not removed: when the codes are
    pairwise distinct nothing but the opening message is logged, and when
    they are not, the warning [Duplicate SKU detected:] and the rows that
    share a code are logged, and every row is still returned. *)
Theorem duplicate_skus_are_reported_not_removed df w out w' :
  clean_data df w = (Ok out, w') →
  sku_column (rows out) = map normalize_sku (sku_column (retained_inventory df)) ∧
  (NoDup (sku_column (rows out)) →
     logs w' = logs w ++ [(INFO, Text "Cleaning inventory data...")]) ∧
  (¬ NoDup (sku_column (rows out)) →
     logs w' = logs w ++
       [(INFO, Text "Cleaning inventory data...");
        (WARNING, Text "Duplicate SKU detected:");
        (WARNING, Frame (where_ out (duplicated_all (sku_column (rows out)))))]).
Proof.
  intros (Hrows & _ & _ & Hcol & Hlogs & _)%inventory_clean_data_run.
  assert (sku_column (rows out)
          = map normalize_sku (sku_column (retained_inventory df))) as Hsku
    by (rewrite Hrows; apply sku_column_clean).
  split; [done|].
  assert (Forall text_or_na (sku_column (rows out))) as Htext.
  { rewrite Hsku. generalize (sku_column (retained_inventory df)).
    intros l. induction l; cbn; constructor; auto using normalize_sku_text. }
  assert (columns out ≠ []) as Hne by (intros E; rewrite E in Hcol; by apply elem_of_nil in Hcol).
  pose proof (no_duplicates _ Htext) as Hdup.
  pose proof (empty_where out (duplicated_all (sku_column (rows out))) Hne) as Hempty.
  unfold duplicated_all at 2 in Hempty. unfold sku_column at 3 in Hempty.
  rewrite select_map_col in Hempty. fold (sku_column (rows out)) in Hempty.
  fold (duplicated_all (sku_column (rows out))) in Hempty.
  cbv zeta in Hlogs. fold (sku_column (rows out)) in Hlogs.
  destruct (empty _) eqn:E.
  - assert (NoDup (sku_column (rows out))) as Hnd by (apply Hdup, Hempty; done).
    split; [done | by intros []].
  - assert (¬ NoDup (sku_column (rows out))) as Hnd.
    { intros Hnd. apply Hdup, Hempty in Hnd. congruence. }
    split; [by intros ? | done].
Qed.
Lemma duplicate_skus_are_reported_not_removed_witness :
  clean_data duplicate_skus world0
    = (Ok duplicate_skus_clean, snd (clean_data duplicate_skus world0)) ∧
  sku_column (rows duplicate_skus_clean)
    = map normalize_sku (sku_column (retained_inventory duplicate_skus)).
Proof.
  assert (clean_data duplicate_skus world0
          = (Ok duplicate_skus_clean, snd (clean_data duplicate_skus world0))) as Hrun
    by (vm_compute; reflexivity).
  split; [exact Hrun|].
  exact (proj1 (duplicate_skus_are_reported_not_removed _ _ _ _ Hrun)).
Defined.

(** C2 as stated fails: two raw rows whose SKU codes normalise to [SKU001]
    are both in the clean table. *)
Lemma duplicate_skus_are_kept :
  fst (clean_data duplicate_skus world0) = Ok duplicate_skus_clean ∧
  sku_column (rows duplicate_skus_clean) = [Txt "SKU001"; Txt "SKU001"] ∧
  ¬ NoDup (sku_column (rows duplicate_skus_clean)).
Proof.
  split; [by vm_compute|]. split; [by vm_compute|].
  vm_compute. intros Hnd. apply NoDup_cons in Hnd as [Hnotin _].
  apply Hnotin. by left.
Qed.

End DuplicateSkus.

Section CategorySplit.
Import CleanInventory.

(** C3, amended.  For every retained raw inventory row whose Category
    holds a [:], BrandCode is the trimmed text on the left of the first [:]
    and CategoryName is the trimmed text between the first [:] and the next
    one, or up to the end when there is no other: what follows a second [:]
    is not kept.  With exactly one [:], CategoryName is the trimmed text on
    its right. *)
Theorem category_split_takes_two_pieces df w out w' :
  clean_data df w = (Ok out, w') →
  Forall2 category_split (retained_inventory df) (rows out).
Proof.
  intros Hrun. apply (inventory_rowwise _ _ _ _ _ Hrun).
  intros r _ _ s l rest Hs Hsplit.
  rewrite brand_clean, name_clean, Hs. cbn [pieces].
  rewrite (split_at_first _ _ _ _ Hsplit).
  destruct (split_head ":" rest) as [ps Hps]. rewrite Hps. cbn.
  repeat split. intros Hrest. by rewrite (before_first_no_sep _ _ Hrest).
Qed.

Lemma category_split_takes_two_pieces_witness :
  clean_data multi_colon world0
    = (Ok multi_colon_clean, snd (clean_data multi_colon world0)) ∧
  Forall2 category_split (retained_inventory multi_colon) (rows multi_colon_clean).
Proof.
  assert (clean_data multi_colon world0
          = (Ok multi_colon_clean, snd (clean_data multi_colon world0))) as Hrun
    by (vm_compute; reflexivity).
  split; [exact Hrun|]. exact (category_split_takes_two_pieces _ _ _ _ Hrun).
Defined.

(** C3 as stated fails: for the Category [A:B:C] the text on the right of
    the first [:] is [B:C], and the clean CategoryName is [B]. *)
Lemma category_name_drops_third_piece :
  fst (clean_data multi_colon world0) = Ok multi_colon_clean ∧
  map (λ r, cell_at r "Category") (retained_inventory multi_colon) = [Txt "A:B:C"] ∧
  spec_category_name "A:B:C" = Some "B:C" ∧
  map (λ r, cell_at r "CategoryName") (rows multi_colon_clean) = [Txt "B"].
Proof. repeat split; by vm_compute. Qed.

Lemma stock_result_sign c y :
  stock_result c = Ok y →
  ∃ z, y = Int z ∧ (0 <= z ∨ z = -9223372036854775808) ∧
    (z < 0 ↔ ∃ n d, c = Num (Fin (n # d)) ∧ 9223372036854775807 < n / Zpos d).
Proof.
  intros Hy. pose proof Hy as (z & -> & Hz & Hna & Hinf & Hfin)%stock_result_ok.
  exists z. split; [done|]. split; [done|]. split.
  - intros Hneg. destruct c as [|s|[[n d]|[]]|t]; try discriminate.
    + specialize (Hna eq_refl). lia.
    + destruct (Hfin n d eq_refl) as (H1 & H2 & H3). exists n, d. split; [done|].
      destruct (Z.lt_ge_cases n 0) as [Hn|Hn]; [specialize (H1 Hn); lia|].
      destruct (Z.le_gt_cases (n / Zpos d) 9223372036854775807) as [Hle|Hgt];
        [|lia].
      specialize (H2 Hn Hle). pose proof (Z.div_pos n (Zpos d)). lia.
    + specialize (Hinf eq_refl). lia.
  - intros (n & d & -> & Hgt). destruct (Hfin n d eq_refl) as (_ & _ & H3).
    rewrite (H3 Hgt). lia.
Qed.

(** Every Stock of a clean table is an integer that is not negative, or is
    the smallest int64; it is negative exactly for a raw Stock beyond
    int64. *)
Lemma inventory_stock_integer df w out w' :
  clean_data df w = (Ok out, w') →
  Forall2 (λ r r', ∃ z, cell_at r' "Stock" = Int z ∧
                        (0 <= z ∨ z = -9223372036854775808) ∧
                        (z < 0 ↔ stock_overflows r))
    (retained_inventory df) (rows out).
Proof.
  intros Hrun. apply (inventory_rowwise _ _ _ _ _ Hrun).
  intros r _ [y Hy]. rewrite stock_clean, Hy. cbn [unwrap].
  by apply stock_result_sign.
Qed.

Lemma width_no_separator (l : list (gmap string cell)) :
  l ≠ [] → Forall no_separator l →
  width (str_split_expand ":" (map (λ r, cell_at r "Category") l)) = 1%nat.
Proof.
  intros Hne Hall. unfold str_split_expand. cbn [width].
  rewrite !map_map.
  assert (map (λ r, length (pieces ":" (cell_at r "Category"))) l
          = map (λ _, 1%nat) l) as ->.
  { clear Hne. induction Hall as [|r l Hr _ IH]; cbn [map]; [done|].
    rewrite IH. f_equal. unfold pieces.
    destruct (cell_at r "Category") as [|s| |] eqn:E; try done.
    by rewrite (split_no_sep _ _ (Hr s E)). }
  destruct l as [|r l]; [done|]. clear. cbn.
  induction l; cbn; lia.
Qed.
End CategorySplit.

Section InventoryOutcome.
Import CleanInventory.
Context `{Parsers}.

Lemma bind_lift_Ok {A B} (a : A) (k : A → M B) w : bind (lift (Ok a)) k w = k a w.
Proof. reflexivity. Qed.

Lemma bind_lift_Raise {A B} e (k : A → M B) w :
  bind (lift (Raise e)) k w = (Raise e, w).
Proof. reflexivity. Qed.

Lemma dropna_subset_total cols df :
  has_columns cols df →
  dropna_subset cols df
  = Ok (mkDataFrame (columns df)
          (List.filter (λ r, forallb (λ c, negb (isna (cell_at r c))) cols) (rows df))).
Proof.
  intros Hc. unfold dropna_subset.
  by rewrite (proj2 (filter_missing_nil df cols) Hc).
Qed.

Lemma stock_column_total col :
  Forall (λ c, ∃ y, stock_result c = Ok y) col →
  ∃ clipped stock, clip_lower0 col = Ok clipped ∧
                   astype_int (fillna0 clipped) = Ok stock.
Proof.
  unfold clip_lower0, astype_int, fillna0.
  induction 1 as [|c col [y Hy] _ (clipped & stock & Hclip & Hast)]; cbn.
  - by exists [], [].
  - unfold stock_result in Hy.
    destruct (clip_lower0_cell c) as [c1|] eqn:Hc; [|discriminate]. cbn in Hy.
    exists (c1 :: clipped), (y :: stock). rewrite Hclip. cbn.
    unfold fill0 in Hy. rewrite Hy. cbn. by rewrite Hast.
Qed.

Lemma drop_columns_total cols df :
  has_columns cols df →
  drop_columns cols df
  = Ok (mkDataFrame
          (List.filter (λ c, negb (bool_decide (c ∈ cols))) (columns df))
          (map (λ r, foldr delete r cols) (rows df))).
Proof.
  intros Hc. unfold drop_columns.
  by rewrite (proj2 (filter_missing_nil df cols) Hc).
Qed.

(** How [clean_data] ends when the required columns are there and the Stock
    column converts: by the number of columns of the expanded split. *)
Lemma inventory_clean_data_outcome df w :
  has_columns ["SKU Code"; "Design No."; "Category"; "Stock"] df →
  Forall stock_ok (retained_inventory df) →
  match width (str_split_expand ":"
                 (map (λ r, cell_at r "Category") (retained_inventory df))) with
  | 0%nat => ∃ w', clean_data df w = (Raise (KeyError (Pos 0)), w')
  | 1%nat => ∃ w', clean_data df w = (Raise (KeyError (Pos 1)), w')
  | _ => ∃ out w', clean_data df w = (Ok out, w')
  end.
Proof.
  intros Hcols Hstock.
  unfold clean_data. rewrite bind_log.
  set (L := retained_inventory df) in *.
  assert (dropna_subset ["SKU Code"; "Design No."; "Category"] (dropna_all df)
          = Ok (mkDataFrame (columns df) L)) as ->.
  { rewrite dropna_subset_total.
    - cbn [columns rows dropna_all]. by rewrite filter_filter.
    - intros c Hc. apply Hcols. revert Hc. rewrite !elem_of_cons. tauto. }
  rewrite bind_lift_Ok.
  set (df1 := mkDataFrame (columns df) L).
  assert (rows df1 = map id L) as Hrows1 by by rewrite map_id.
  assert (has_columns ["SKU Code"; "Design No."; "Category"; "Stock"] df1) as Hcols1
    by done.
  clearbody df1.
  rewrite (getitem_total df1 "SKU Code") by (apply Hcols1; in_list).
  rewrite bind_lift_Ok.
  pose proof (step_sku L _ _ _ Hrows1 (getitem_total df1 "SKU Code"
    ltac:(apply Hcols1; in_list))) as Hrows2.
  set (df2 := setitem df1 "SKU Code" _) in *.
  assert (has_columns ["SKU Code"; "Design No."; "Category"; "Stock"] df2) as Hcols2
    by (intros c Hc; by apply columns_setitem, Hcols1).
  clearbody df2. clear Hrows1 Hcols1.
  assert (getitem df2 "Stock" = Ok (map (λ r, cell_at r "Stock") L)) as Hget.
  { rewrite getitem_total by (apply Hcols2; in_list).
    rewrite Hrows2, map_map. f_equal. apply map_ext. intros r.
    apply stock_with_sku. }
  rewrite Hget, bind_lift_Ok.
  destruct (stock_column_total (map (λ r, cell_at r "Stock") L))
    as (clipped & stock & Hclip & Hast).
  { clear -Hstock. induction Hstock; cbn; constructor; auto. }
  rewrite Hclip, bind_lift_Ok, Hast, bind_lift_Ok.
  destruct (step_stock L _ _ _ _ _ Hrows2 Hget Hclip Hast) as [Hrows3 _].
  set (df3 := setitem df2 "Stock" _) in *.
  assert (has_columns ["SKU Code"; "Design No."; "Category"; "Stock"] df3) as Hcols3
    by (intros c Hc; by apply columns_setitem, Hcols2).
  clearbody df3. clear Hrows2 Hcols2 Hget Hclip Hast.
  assert (getitem df3 "Category" = Ok (map (λ r, cell_at r "Category") L)) as ->.
  { rewrite getitem_total by (apply Hcols3; in_list).
    rewrite Hrows3, map_map. f_equal. apply map_ext. intros r.
    apply category_with_stock. }
  rewrite bind_lift_Ok.
  unfold expanded_col.
  destruct (width _) as [|[|n]]; cbn [Nat.ltb Nat.leb].
  - rewrite bind_lift_Raise. eauto.
  - rewrite bind_lift_Ok, bind_lift_Raise. eauto.
  - rewrite !bind_lift_Ok.
    set (df4 := setitem (setitem df3 "BrandCode" _) "CategoryName" _).
    assert (has_columns ["SKU Code"; "Design No."; "Category"; "Stock"] df4) as Hcols4
      by (intros c Hc; by apply columns_setitem, columns_setitem, Hcols3).
    clearbody df4.
    rewrite drop_columns_total
      by (intros c Hc%elem_of_cons; destruct Hc as [->|Hc%elem_of_nil];
          [apply Hcols4; in_list | done]).
    rewrite bind_lift_Ok.
    rewrite getitem_total; last first.
    { cbn [columns]. apply list_elem_of_In, filter_In. split.
      - apply list_elem_of_In, Hcols4. in_list.
      - reflexivity. }
    rewrite bind_lift_Ok.
    destruct (negb (empty _)); eexists _, _; reflexivity.
Qed.
Lemma split_with_sep sep s :
  contains_char sep s = true → (2 <= length (split sep s))%nat.
Proof.
  induction s as [|a s IH]; cbn; [discriminate|].
  destruct (bool_decide (a = sep)); cbn.
  - intros _. pose proof (split_nonempty sep s). destruct (split sep s); [done|cbn; lia].
  - intros Hs. specialize (IH Hs). destruct (split sep s); cbn in *; lia.
Qed.

Lemma foldr_max_ge (x : nat) l : x ∈ l → (x <= foldr Nat.max 0 l)%nat.
Proof.
  induction l as [|y l IH]; [by intros ?%elem_of_nil|].
  intros [->|Hx]%elem_of_cons; cbn; [lia|]. specialize (IH Hx). lia.
Qed.

Lemma width_with_separator (l : list (gmap string cell)) r s :
  r ∈ l → cell_at r "Category" = Txt s → contains_char ":" s = true →
  (1 < width (str_split_expand ":" (map (λ r, cell_at r "Category") l)))%nat.
Proof.
  intros Hr Hs Hsep. unfold str_split_expand. cbn [width]. rewrite !map_map.
  pose proof (split_with_sep _ _ Hsep) as Hlen.
  assert (length (pieces ":" (cell_at r "Category"))
          ∈ map (λ x, length (pieces ":" (cell_at x "Category"))) l) as Hin.
  { apply list_elem_of_In, in_map_iff. exists r. split; [done|].
    by apply list_elem_of_In. }
  apply foldr_max_ge in Hin. rewrite Hs in Hin. cbn [pieces] in Hin.
  rewrite length_map in Hin. lia.
Qed.

(** [clean_data] returns a table when the required columns are there, the
    Stock column converts and some retained Category holds a [:]. *)
Lemma inventory_clean_data_returns df w r s :
  has_columns ["SKU Code"; "Design No."; "Category"; "Stock"] df →
  Forall stock_ok (retained_inventory df) →
  r ∈ retained_inventory df → cell_at r "Category" = Txt s →
  contains_char ":" s = true →
  ∃ out w', clean_data df w = (Ok out, w').
Proof.
  intros Hcols Hstock Hr Hs Hsep.
  pose proof (width_with_separator _ _ _ Hr Hs Hsep) as Hw.
  pose proof (inventory_clean_data_outcome df w Hcols Hstock) as Hout.
  destruct (width _) as [|[|n]]; [lia | lia | exact Hout].
Qed.

(** C10. When the table that remains after the empty and the incomplete
    rows are dropped is not empty and none of its Category values holds a
    [:], [clean_data] raises and returns no table; when the required
    columns are there, SKU Code and Category are text columns and the Stock
    column converts, the exception is the KeyError of the lookup of the
    second split column. *)
Theorem missing_separator_raises df w :
  retained_inventory df ≠ [] →
  Forall no_separator (retained_inventory df) →
  ∃ e w', clean_data df w = (Raise e, w') ∧
    (has_columns ["SKU Code"; "Design No."; "Category"; "Stock"] df →
     Checks.text_columns ["SKU Code"; "Category"] df →
     Forall stock_ok (retained_inventory df) →
     e = KeyError (Pos 1)).
Proof.
  intros Hne Hsep.
  pose proof (width_no_separator _ Hne Hsep) as Hwidth.
  destruct (clean_data df w) as [[out|e] w'] eqn:Hrun.
  { apply inventory_clean_data_run in Hrun as (_ & _ & Hw & _). lia. }
  exists e, w'. split; [done|]. intros Hcols _ Hstock.
  pose proof (inventory_clean_data_outcome df w Hcols Hstock) as Hout.
  rewrite Hwidth in Hout. destruct Hout as [w'' Hout]. congruence.
Qed.

Lemma missing_separator_raises_witness :
  retained_inventory no_colon ≠ [] ∧
  Forall no_separator (retained_inventory no_colon) ∧
  has_columns ["SKU Code"; "Design No."; "Category"; "Stock"] no_colon ∧
  Checks.text_columns ["SKU Code"; "Category"] no_colon ∧
  Forall stock_ok (retained_inventory no_colon) ∧
  ∃ w', clean_data no_colon world0 = (Raise (KeyError (Pos 1)), w').
Proof.
  assert (retained_inventory no_colon = rows no_colon) as Hkept
    by (vm_compute; reflexivity).
  assert (retained_inventory no_colon ≠ []) as Hne
    by (rewrite Hkept; discriminate).
  assert (Forall no_separator (retained_inventory no_colon)) as Hsep.
  { rewrite Hkept. repeat constructor. intros s Hs. vm_compute in Hs.
    injection Hs as <-. reflexivity. }
  assert (has_columns ["SKU Code"; "Design No."; "Category"; "Stock"] no_colon) as Hcols.
  { intros c Hc. apply has_column_true. revert c Hc. apply Forall_forall.
    repeat constructor. }
  assert (Checks.text_columns ["SKU Code"; "Category"] no_colon) as Htext.
  { intros c Hc. split.
    - intros r Hr. unfold no_colon in Hr. cbn [rows] in Hr. log_cases; subst; exact I.
    - intros _. log_cases; subst; eexists _, _;
        (split; [apply elem_of_cons; by left | reflexivity]). }
  assert (Forall stock_ok (retained_inventory no_colon)) as Hstock.
  { rewrite Hkept. repeat constructor. by eexists. }
  split; [exact Hne|]. split; [exact Hsep|]. split; [exact Hcols|].
  split; [exact Htext|]. split; [exact Hstock|].
  destruct (missing_separator_raises no_colon world0 Hne Hsep) as (e & w' & Hrun & He).
  exists w'. by rewrite <- (He Hcols Htext Hstock).
Defined.

Lemma load_data_ok self w df :
  files w !! input_path self = Some df →
  load_data self w
  = (Ok df, mkWorld (logs w ++ [(INFO, TextPath "Loading raw inventory: "
                                         (input_path self))]) (files w)).
Proof.
  intros Hfile. unfold load_data. rewrite bind_log.
  unfold bind, read_csv, ret. cbn [files]. by rewrite Hfile.
Qed.

Lemma check_required_columns_missing df required_cols w :
  missing_columns df required_cols ≠ [] →
  check_required_columns df required_cols w
  = (Raise (ColonnesManquantes (missing_columns df required_cols)),
     mkWorld (logs w ++ [(ERROR, TextList "Colonnes manquantes dans Inventory_raw : "
                                   (missing_columns df required_cols))]) (files w)).
Proof.
  unfold check_required_columns.
  fold (missing_columns df required_cols).
  destruct (missing_columns df required_cols); [done|]. intros _.
  by rewrite bind_log.
Qed.

(** C4. When the raw inventory table that [run] loads lacks at least one
    of the columns SKU Code, Design No., Category and Stock, [run] raises the
    error [Colonnes manquantes] carrying exactly the required columns that
    are absent; the files are left as they were (nothing is saved) and the
    only log entries are the loading message and the error naming the
    missing columns (cleaning is not reached). *)
Theorem missing_required_columns_abort self df w :
  files w !! input_path self = Some df →
  (∃ c, c ∈ ["SKU Code"; "Design No."; "Category"; "Stock"] ∧ c ∉ columns df) →
  let missing := missing_columns df ["SKU Code"; "Design No."; "Category"; "Stock"] in
  missing ≠ [] ∧
  (∀ c, c ∈ missing ↔
        c ∈ ["SKU Code"; "Design No."; "Category"; "Stock"] ∧ c ∉ columns df) ∧
  ∃ w', run self w = (Raise (ColonnesManquantes missing), w') ∧
        files w' = files w ∧
        logs w' = logs w ++
          [(INFO, TextPath "Loading raw inventory: " (input_path self));
           (ERROR, TextList "Colonnes manquantes dans Inventory_raw : " missing)].
Proof.
  intros Hfile (c & Hc & Hnot) missing.
  assert (∀ c, c ∈ missing ↔
            c ∈ ["SKU Code"; "Design No."; "Category"; "Stock"] ∧ c ∉ columns df)
    as Hmissing.
  { intros c'. unfold missing, missing_columns.
    rewrite list_elem_of_In, filter_In, <- list_elem_of_In.
    rewrite negb_true_iff, <- not_true_iff_false, has_column_true. done. }
  assert (missing ≠ []) as Hne.
  { intros E. assert (c ∈ missing) as Hin by by apply Hmissing.
    rewrite E in Hin. by apply elem_of_nil in Hin. }
  split; [done|]. split; [done|].
  unfold run. unfold bind at 1. rewrite (load_data_ok _ _ _ Hfile).
  unfold bind at 1. rewrite (check_required_columns_missing _ _ _ Hne).
  eexists. split; [reflexivity|]. split; [done|]. cbn. by rewrite <- app_assoc.
Qed.
End InventoryOutcome.

Lemma missing_required_columns_abort_witness :
  files scenario_B_world !! CleanInventory.input_path inventory_cleaner
    = Some no_stock_column ∧
  (∃ c, c ∈ ["SKU Code"; "Design No."; "Category"; "Stock"] ∧
        c ∉ columns no_stock_column) ∧
  ∃ w', CleanInventory.run (H:=iso_parsers) inventory_cleaner scenario_B_world
          = (Raise (ColonnesManquantes ["Stock"]), w') ∧
        files w' = files scenario_B_world.
Proof.
  assert (files scenario_B_world !! CleanInventory.input_path inventory_cleaner
          = Some no_stock_column) as Hfile by (vm_compute; reflexivity).
  assert (∃ c, c ∈ ["SKU Code"; "Design No."; "Category"; "Stock"] ∧
               c ∉ columns no_stock_column) as Hmissing.
  { exists "Stock". split; [in_list|].
    intros Hin. apply has_column_true in Hin. vm_compute in Hin. discriminate. }
  split; [exact Hfile|]. split; [exact Hmissing|].
  destruct (missing_required_columns_abort (H:=iso_parsers) inventory_cleaner
              no_stock_column scenario_B_world Hfile Hmissing)
    as (_ & _ & w' & Hrun & Hfiles & _).
  exists w'. split; [exact Hrun | exact Hfiles].
Defined.

Section StockClaim.
Import CleanInventory.


End StockClaim.



Section SalesRun.
Import CleanSales.
Context `{Parsers}.

Lemma dropna_sales df df' :
  dropna_subset sales_required (dropna_all df) = Ok df' →
  rows df' = retained_sales df.
Proof.
  intros (_ & _ & Hrows)%dropna_subset_ok.
  rewrite Hrows. cbn [rows dropna_all columns]. apply filter_filter.
Qed.

Lemma lt_scalar_ok k col mask :
  lt_scalar k col = Ok mask →
  mask = map (λ c, match c with Num x => number_ltb x k | _ => false end) col.
Proof.
  intros Hm%mapM_ok. induction Hm as [|c b col mask Hc _ ->]; [done|].
  cbn. f_equal. destruct c; cbn in Hc; congruence.
Qed.

Lemma any_map {A} (f : A → bool) l : any (map f l) = existsb f l.
Proof. unfold any. induction l as [|x l IH]; cbn; [done|]. by rewrite IH. Qed.

Lemma existsb_ext {A} (f g : A → bool) l :
  (∀ x, f x = g x) → existsb f l = existsb g l.
Proof. intros Hfg. induction l as [|x l IH]; cbn; [done|]. by rewrite Hfg, IH. Qed.

Lemma bind_assoc {A B C} (m : M A) (k1 : A → M B) (k2 : B → M C) w :
  bind (bind m k1) k2 w = bind m (λ x, bind (k1 x) k2) w.
Proof. unfold bind. by destruct (m w) as [[a|e] w1]. Qed.

Lemma select_map_filter {A} (f : A → bool) l : select (map f l) l = List.filter f l.
Proof. induction l as [|x l IH]; cbn; [done|]. destruct (f x); congruence. Qed.

Lemma astype_int_cell_int c y : astype_int_cell c = Ok y → ∃ z, y = Int z.
Proof.
  destruct c as [|s|[q|b]|t]; cbn [astype_int_cell]; try discriminate.
  - destruct (int_of_str s) as [z|]; cbn [rbind]; [|discriminate].
    destruct (in_int64 z); [|discriminate]. intros [= <-]. eauto.
  - intros [= <-]. eauto.
Qed.

Lemma clip_int z : clip_lower0_cell (Int z) = Ok (Int (Z.max 0 z)).
Proof.
  cbn. destruct (z <? 0) eqn:E; f_equal; unfold Int; do 3 f_equal.
  - apply Z.ltb_lt in E. lia.
  - apply Z.ltb_ge in E. lia.
Qed.

Lemma quantity_with_sku r : cell_at (with_sku r) "Quantity" = cell_at r "Quantity".
Proof. by apply cell_at_insert_ne. Qed.

Lemma quantity_with_int r :
  cell_at (with_int (with_numeric r)) "Quantity"
  = unwrap (astype_int_cell (fill0 (numeric_cell (cell_at r "Quantity")))).
Proof. unfold with_int, with_numeric. by rewrite !cell_at_insert. Qed.

Lemma with_clamp_id r :
  (∃ y, astype_int_cell (fill0 (numeric_cell (cell_at r "Quantity"))) = Ok y) →
  negative_quantity r = false →
  with_clamp (with_sku (with_int (with_numeric r))) = with_sku (with_int (with_numeric r)).
Proof.
  intros [y Hy] Hneg. unfold with_clamp.
  rewrite quantity_with_sku. unfold negative_quantity in Hneg.
  rewrite quantity_with_int in *. rewrite Hy in *. cbn [unwrap] in *.
  destruct (astype_int_cell_int _ _ Hy) as [z ->].
  cbn in Hneg. rewrite Z.mul_1_r in Hneg.
  rewrite clip_int. cbn [unwrap].
  apply Z.ltb_ge in Hneg. rewrite Z.max_r by done.
  apply insert_id. unfold with_sku. rewrite lookup_insert_ne by done.
  unfold with_int. rewrite lookup_insert_eq.
  unfold with_numeric. by rewrite cell_at_insert, Hy.
Qed.

Section QuantitySteps.
Context {X : Type} (L : list X).
Implicit Types (F : X → gmap string cell) (df : DataFrame).

Lemma step_numeric df q F :
  rows df = map F L → getitem df "Quantity" = Ok q →
  rows (setitem df "Quantity" (to_numeric_coerce q))
  = map (λ x, with_numeric (F x)) L.
Proof.
  intros Hr Hq. rewrite (getitem_rows _ _ _ _ _ Hq Hr).
  unfold to_numeric_coerce. rewrite map_map.
  exact (setitem_rows _ _ _ F (λ x, numeric_cell (cell_at (F x) "Quantity")) Hr).
Qed.

Lemma step_int df q q' F :
  rows df = map F L → getitem df "Quantity" = Ok q →
  astype_int (fillna0 q) = Ok q' →
  rows (setitem df "Quantity" q') = map (λ x, with_int (F x)) L ∧
  Forall (λ x, ∃ y, astype_int_cell (fill0 (cell_at (F x) "Quantity")) = Ok y) L.
Proof.
  intros Hr Hq Hast. rewrite (getitem_rows _ _ _ _ _ Hq Hr) in Hast.
  unfold astype_int, fillna0 in Hast. rewrite map_map in Hast.
  apply mapM_unwrap in Hast as [-> Hall]. rewrite map_map. split.
  - exact (setitem_rows _ _ _ F
      (λ x, unwrap (astype_int_cell (fill0 (cell_at (F x) "Quantity")))) Hr).
  - clear -Hall. induction L; cbn in *; [constructor|].
    inversion Hall; subst. constructor; auto.
Qed.

Lemma step_clamp df q clipped F :
  rows df = map F L → getitem df "Quantity" = Ok q →
  clip_lower0 q = Ok clipped →
  rows (setitem df "Quantity" clipped) = map (λ x, with_clamp (F x)) L.
Proof.
  intros Hr Hq Hclip. rewrite (getitem_rows _ _ _ _ _ Hq Hr) in Hclip.
  unfold clip_lower0 in Hclip.
  apply mapM_unwrap in Hclip as [-> _]. rewrite map_map.
  exact (setitem_rows _ _ _ F
    (λ x, unwrap (clip_lower0_cell (cell_at (F x) "Quantity"))) Hr).
Qed.
End QuantitySteps.

(** What a run of [SalesCleaner.clean_data] that returns a table has done:
    the table holds the normalised sales rows whose SKU Code is in the
    inventory, in order; the Quantity of every dated row converted; the log
    and the files are as stated. *)
Lemma sales_clean_data_run df_sales df_inventory w out w' :
  clean_data df_sales df_inventory w = (Ok out, w') →
  rows out = List.filter (in_inventory df_inventory) (normalized_sales df_sales) ∧
  Forall quantity_ok (dated_sales df_sales) ∧
  logs w' = logs w ++
    [(INFO, Text "Nettoyage des données sales...")] ++
    (if existsb negative_quantity (dated_sales df_sales)
     then [(WARNING, Text "Certaines quantités sont négatives — elles seront forcées à 0.")]
     else []) ++
    (let dropped := (length (normalized_sales df_sales) - length (rows out))%nat in
     if (0 <? dropped)%nat
     then [(WARNING, CountText dropped
              " lignes supprimées car SKU non trouvés dans Inventory_clean.")]
     else []) ∧
  files w' = files w.
Proof.
  unfold clean_data. rewrite bind_log.
  intros (df1 & Hrows1%dropna_sales & Hrun)%bind_lift_inv.
  rewrite <- (map_id (retained_sales _)) in Hrows1.
  apply bind_lift_inv in Hrun as (date & Hdate & Hrun).
  pose proof (getitem_rows _ _ _ _ _ Hdate Hrows1) as ->.
  assert (rows (setitem df1 "Date"
                  (to_datetime_coerce
                     (map (λ x, cell_at (id x) "Date") (retained_sales df_sales))))
          = map (λ r, <["Date" := date_cell
                          (map (λ r, cell_at r "Date") (retained_sales df_sales))
                          (cell_at r "Date")]> r) (retained_sales df_sales)) as Hrows2.
  { unfold to_datetime_coerce. rewrite map_map.
    exact (setitem_rows _ _ _ _ (λ x, date_cell
             (map (λ r, cell_at r "Date") (retained_sales df_sales))
             (cell_at x "Date")) Hrows1). }
  set (df2 := setitem df1 "Date" _) in *. clearbody df2. clear Hdate Hrows1.
  apply bind_lift_inv in Hrun as (df3 & (_ & _ & Hrows3)%dropna_subset_ok & Hrun).
  unfold normalized_sales. set (L := dated_sales df_sales).
  assert (rows df3 = map id L) as Hrows3'.
  { rewrite map_id, Hrows3, Hrows2. unfold L, dated_sales.
    apply filter_ext. intros r. cbn. apply andb_true_r. }
  clear Hrows3 Hrows2. clearbody L.
  (* 4. Quantity *)
  apply bind_lift_inv in Hrun as (q & Hq & Hrun).
  pose proof (step_numeric L _ _ _ Hrows3' Hq) as Hrows4.
  set (df4 := setitem df3 "Quantity" _) in *. clearbody df4. clear q Hq Hrows3'.
  apply bind_lift_inv in Hrun as (q & Hq & Hrun).
  apply bind_lift_inv in Hrun as (q' & Hast & Hrun).
  destruct (step_int L _ _ _ _ Hrows4 Hq Hast) as [Hrows5 Hall].
  set (df5 := setitem df4 "Quantity" _) in *. clearbody df5. clear q q' Hq Hast Hrows4.
  (* SKU *)
  apply bind_lift_inv in Hrun as (sku & Hsku & Hrun).
  pose proof (step_sku L _ _ _ Hrows5 Hsku) as Hrows6.
  set (df6 := setitem df5 "SKU Code" _) in *. clearbody df6. clear sku Hsku Hrows5.
  (* clamp *)
  apply bind_lift_inv in Hrun as (q & Hq & Hrun).
  apply bind_lift_inv in Hrun as (negative & Hneg & Hrun).
  apply lt_scalar_ok in Hneg.
  rewrite (getitem_rows _ _ _ _ _ Hq Hrows6), map_map in Hneg.
  assert (any negative = existsb negative_quantity L) as Hany.
  { rewrite Hneg, any_map. apply existsb_ext. intros r. cbv beta. unfold id.
    unfold negative_quantity. by rewrite quantity_with_sku. }
  clear Hneg.
  assert (∃ df7 w7,
    rows df7 = map clean_sales_row L ∧
    w7 = mkWorld (logs w ++ [(INFO, Text "Nettoyage des données sales...")] ++
           (if existsb negative_quantity L
            then [(WARNING, Text "Certaines quantités sont négatives — elles seront forcées à 0.")]
            else [])) (files w) ∧
    (let* inventory_sku := lift (getitem df_inventory "SKU Code") in
     let* sku0 := lift (getitem df7 "SKU Code") in
     when (0 <? len df7 - len (where_ df7 (isin (dropna inventory_sku) sku0)))%nat
       (log WARNING
          (CountText (len df7 - len (where_ df7 (isin (dropna inventory_sku) sku0)))
             " lignes supprimées car SKU non trouvés dans Inventory_clean."));;
     ret (where_ df7 (isin (dropna inventory_sku) sku0))) w7 = (Ok out, w'))
    as (df7 & w7 & Hrows7 & -> & Hrun').
  { rewrite Hany in Hrun. destruct (existsb negative_quantity L) eqn:Hex.
    - rewrite bind_assoc, bind_log, bind_assoc in Hrun.
      apply bind_lift_inv in Hrun as (q3 & Hq3 & Hrun).
      rewrite bind_assoc in Hrun.
      apply bind_lift_inv in Hrun as (clipped & Hclip & Hrun).
      rewrite bind_ret in Hrun.
      eexists _, _. split; [exact (step_clamp L _ _ _ _ Hrows6 Hq3 Hclip)|].
      split; [|exact Hrun]. cbn. by rewrite <- app_assoc.
    - rewrite bind_ret in Hrun. exists df6. eexists. split; [|split; [|exact Hrun]].
      + rewrite Hrows6. apply map_ext_in. intros r Hr. symmetry.
        apply with_clamp_id.
        * rewrite Forall_forall in Hall. specialize (Hall r).
          unfold id, with_numeric in Hall. rewrite cell_at_insert in Hall.
          apply Hall. by apply list_elem_of_In.
        * apply not_true_iff_false. intros Hn.
          apply not_true_iff_false in Hex. apply Hex.
          apply existsb_exists. eauto.
      + by rewrite app_nil_r. }
  clear Hrun Hq Hany Hrows6.
  apply bind_lift_inv in Hrun' as (inv_sku & [_ ->]%getitem_ok & Hrun').
  apply bind_lift_inv in Hrun' as (sku0 & [_ ->]%getitem_ok & Hrun').
  assert (rows (where_ df7 (isin (dropna (map (λ r, cell_at r "SKU Code")
                                            (rows df_inventory)))
                              (map (λ r, cell_at r "SKU Code") (rows df7))))
          = List.filter (in_inventory df_inventory) (rows df7)) as Hfilter.
  { cbn [rows where_]. unfold isin. rewrite map_map.
    apply (select_map_filter (in_inventory df_inventory)). }
  rewrite bind_when in Hrun'. unfold ret in Hrun'.
  injection Hrun' as <- <-. cbn [logs files]. unfold len.
  rewrite Hfilter, Hrows7. split; [done|]. split.
  - eapply Forall_impl; [exact Hall|]. intros r [y Hy]. cbv beta in Hy.
    unfold id, with_numeric in Hy. rewrite cell_at_insert in Hy.
    unfold quantity_ok, quantity_result. rewrite Hy. cbn [rbind].
    destruct (astype_int_cell_int _ _ Hy) as [z ->]. rewrite clip_int. eauto.
  - split; [|done]. by rewrite <- !app_assoc.
Qed.
End SalesRun.

Section SalesForward.
Import CleanSales.
Context `{Parsers}.

Lemma bind_value {A B} (m : M A) (k : A → M B) w a w1 :
  m w = (Ok a, w1) → bind m k w = k a w1.
Proof. intros Hm. unfold bind. by rewrite Hm. Qed.

Lemma has_columns_setitem cols df c col :
  has_columns cols df → has_columns cols (setitem df c col).
Proof. intros Hc c' Hc'. by apply columns_setitem, Hc. Qed.

Lemma quantity_ok_int r :
  quantity_ok r →
  ∃ z, astype_int_cell (fill0 (numeric_cell (cell_at r "Quantity"))) = Ok (Int z).
Proof.
  intros [y Hy]. unfold quantity_result in Hy.
  destruct (astype_int_cell _) as [y1|] eqn:Hast; [|discriminate].
  destruct (astype_int_cell_int _ _ Hast) as [z ->]. eauto.
Qed.

Lemma step_date {X} (L : list X) df date (F : X → gmap string cell) :
  rows df = map F L → getitem df "Date" = Ok date →
  rows (setitem df "Date" (to_datetime_coerce date))
  = map (λ x, <["Date" := date_cell (map (λ x, cell_at (F x) "Date") L)
                            (cell_at (F x) "Date")]> (F x)) L.
Proof.
  intros Hr Hdate. rewrite (getitem_rows _ _ _ _ _ Hdate Hr).
  unfold to_datetime_coerce. rewrite map_map.
  exact (setitem_rows _ _ _ F
           (λ x, date_cell (map (λ x, cell_at (F x) "Date") L) (cell_at (F x) "Date"))
           Hr).
Qed.

Lemma lt_scalar_total k col :
  Forall (λ c, ∃ z, c = Int z) col → ∃ mask, lt_scalar k col = Ok mask.
Proof.
  intros Hall. apply mapM_total. eapply Forall_impl; [exact Hall|].
  intros c [z ->]. cbn. eauto.
Qed.

Lemma clip_lower0_total col :
  Forall (λ c, ∃ z, c = Int z) col → ∃ clipped, clip_lower0 col = Ok clipped.
Proof.
  intros Hall. apply mapM_total. eapply Forall_impl; [exact Hall|].
  intros c [z ->]. rewrite clip_int. eauto.
Qed.

Lemma referential_filter_returns df_sales df_inventory w :
  "SKU Code" ∈ columns df_inventory → "SKU Code" ∈ columns df_sales →
  ∃ out w',
    (let* inventory_sku := lift (getitem df_inventory "SKU Code") in
     let* sku := lift (getitem df_sales "SKU Code") in
     when (0 <? len df_sales -
                len (where_ df_sales (isin (dropna inventory_sku) sku)))%nat
       (log WARNING
          (CountText
             (len df_sales - len (where_ df_sales (isin (dropna inventory_sku) sku)))
             " lignes supprimées car SKU non trouvés dans Inventory_clean."));;
     ret (where_ df_sales (isin (dropna inventory_sku) sku))) w = (Ok out, w').
Proof.
  intros Hinv Hsku.
  rewrite (getitem_total df_inventory "SKU Code") by done. rewrite bind_lift_Ok.
  rewrite (getitem_total df_sales "SKU Code") by done.
  rewrite bind_lift_Ok, bind_when. eexists _, _. reflexivity.
Qed.

(** [clean_data] returns a table when the required columns are there, the
    inventory has its SKU Code column and every quantity of a dated row
    converts. *)
Lemma sales_clean_data_returns df_sales df_inventory w :
  has_columns ["SKU Code"; "Quantity"; "Date"] df_sales →
  "SKU Code" ∈ columns df_inventory →
  Forall quantity_ok (dated_sales df_sales) →
  ∃ out w', clean_data df_sales df_inventory w = (Ok out, w').
Proof.
  intros Hcols Hinv Hq. unfold clean_data. rewrite bind_log.
  rewrite dropna_subset_total by done. rewrite bind_lift_Ok.
  set (df1 := mkDataFrame _ _).
  assert (has_columns ["SKU Code"; "Quantity"; "Date"] df1) as Hcols1 by done.
  assert (rows df1 = map id (retained_sales df_sales)) as Hrows1.
  { rewrite map_id. unfold df1, retained_sales.
    cbn [rows dropna_all columns]. apply filter_filter. }
  clearbody df1.
  pose proof (getitem_total df1 "Date" ltac:(apply Hcols1; in_list)) as Hdate.
  rewrite Hdate, bind_lift_Ok.
  pose proof (step_date _ _ _ _ Hrows1 Hdate) as Hrows2.
  set (df2 := setitem df1 "Date" _) in *.
  assert (has_columns ["SKU Code"; "Quantity"; "Date"] df2) as Hcols2
    by by apply has_columns_setitem.
  clearbody df2. clear Hrows1 Hcols1 Hdate.
  rewrite dropna_subset_total
    by (intros c Hc%elem_of_cons; destruct Hc as [->|Hc%elem_of_nil];
        [apply Hcols2; in_list | done]).
  rewrite bind_lift_Ok.
  set (df3 := mkDataFrame _ _).
  assert (has_columns ["SKU Code"; "Quantity"; "Date"] df3) as Hcols3 by done.
  set (L := dated_sales df_sales) in *.
  assert (rows df3 = map id L) as Hrows3.
  { rewrite map_id. unfold df3. cbn [rows]. rewrite Hrows2. unfold L, dated_sales.
    apply filter_ext. intros r. cbn. apply andb_true_r. }
  clearbody df3. clear Hrows2 Hcols2.
  (* 4. Quantity *)
  pose proof (getitem_total df3 "Quantity" ltac:(apply Hcols3; in_list)) as Hq3.
  rewrite Hq3, bind_lift_Ok.
  pose proof (step_numeric L _ _ _ Hrows3 Hq3) as Hrows4.
  set (df4 := setitem df3 "Quantity" _) in *.
  assert (has_columns ["SKU Code"; "Quantity"; "Date"] df4) as Hcols4
    by by apply has_columns_setitem.
  clearbody df4. clear Hrows3 Hcols3 Hq3.
  pose proof (getitem_total df4 "Quantity" ltac:(apply Hcols4; in_list)) as Hq4.
  rewrite Hq4, bind_lift_Ok.
  assert (∃ q', astype_int (fillna0 (map (λ r, cell_at r "Quantity") (rows df4)))
                = Ok q') as [q' Hast].
  { unfold astype_int, fillna0. rewrite Hrows4, !map_map. apply mapM_total.
    clear -Hq. induction Hq as [|r l Hr _ IH]; cbn [map]; constructor; [|done].
    destruct (quantity_ok_int r Hr) as [z Hz].
    unfold id, with_numeric. rewrite cell_at_insert. eauto. }
  rewrite Hast, bind_lift_Ok.
  destruct (step_int L _ _ _ _ Hrows4 Hq4 Hast) as [Hrows5 Hall].
  set (df5 := setitem df4 "Quantity" _) in *.
  assert (has_columns ["SKU Code"; "Quantity"; "Date"] df5) as Hcols5
    by by apply has_columns_setitem.
  clearbody df5. clear Hrows4 Hcols4 Hq4 Hast.
  (* SKU *)
  pose proof (getitem_total df5 "SKU Code" ltac:(apply Hcols5; in_list)) as Hsku.
  rewrite Hsku, bind_lift_Ok.
  pose proof (step_sku L _ _ _ Hrows5 Hsku) as Hrows6.
  set (df6 := setitem df5 "SKU Code" _) in *.
  assert (has_columns ["SKU Code"; "Quantity"; "Date"] df6) as Hcols6
    by by apply has_columns_setitem.
  clearbody df6. clear Hrows5 Hcols5 Hsku.
  (* clamp *)
  pose proof (getitem_total df6 "Quantity" ltac:(apply Hcols6; in_list)) as Hq6.
  rewrite Hq6, bind_lift_Ok.
  assert (Forall (λ c, ∃ z, c = Int z) (map (λ r, cell_at r "Quantity") (rows df6)))
    as Hints.
  { rewrite Hrows6, map_map. clear -Hall.
    induction Hall as [|r l [y Hy] _ IH]; cbn [map]; constructor; [|done].
    rewrite quantity_with_sku. unfold with_int. rewrite cell_at_insert. cbv beta.
    rewrite Hy. cbn [unwrap]. by apply astype_int_cell_int in Hy. }
  destruct (lt_scalar_total 0 _ Hints) as [negative ->]. rewrite bind_lift_Ok.
  destruct (clip_lower0_total _ Hints) as [clipped Hclip].
  destruct (any negative).
  - rewrite bind_assoc, bind_log, bind_assoc, bind_lift_Ok, bind_assoc.
    rewrite Hclip, bind_lift_Ok, bind_ret.
    apply referential_filter_returns; [done|].
    apply has_columns_setitem with (cols := ["SKU Code"; "Quantity"; "Date"]);
      [done | in_list].
  - rewrite bind_ret. apply referential_filter_returns; [done|].
    apply Hcols6. in_list.
Qed.
End SalesForward.

Section SalesFields.
Context `{Parsers}.

Lemma sku_clean_sales r :
  cell_at (clean_sales_row r) "SKU Code" = normalize_sku (cell_at r "SKU Code").
Proof.
  unfold clean_sales_row, with_clamp. rewrite cell_at_insert_ne by done.
  unfold with_sku at 1. rewrite cell_at_insert.
  unfold with_int, with_numeric. by rewrite !cell_at_insert_ne.
Qed.

Lemma quantity_clean_sales r :
  quantity_ok r →
  cell_at (clean_sales_row r) "Quantity"
  = unwrap (quantity_result (cell_at r "Quantity")).
Proof.
  intros [y Hy]. unfold clean_sales_row, with_clamp. rewrite cell_at_insert.
  rewrite quantity_with_sku, quantity_with_int.
  unfold quantity_result in *.
  by destruct (astype_int_cell _).
Qed.

Lemma trunc_nonpos q : Qnum q <= 0 → trunc q <= 0.
Proof.
  intros Hq. unfold trunc.
  pose proof (Z.quot_pos (- Qnum q) (Zpos (Qden q))) as Hp.
  rewrite Z.quot_opp_l in Hp by done. lia.
Qed.

Lemma quantity_result_ok c y :
  quantity_result c = Ok y →
  ∃ z, y = Int z ∧ 0 <= z ∧
    (numeric_cell c = NA → z = 0) ∧
    (∀ n d, numeric_cell c = Num (Fin (n # d)) →
       (n < 0 → z = 0) ∧
       (0 <= n → n / Zpos d <= 9223372036854775807 → z = n / Zpos d) ∧
       (9223372036854775807 < n / Zpos d → z = 0)).
Proof.
  unfold quantity_result.
  destruct (astype_int_cell _) as [y1|] eqn:Hast; [|discriminate]. cbn [rbind].
  destruct (astype_int_cell_int _ _ Hast) as [z ->]. rewrite clip_int.
  intros [= <-]. exists (Z.max 0 z). split; [done|]. split; [lia|].
  destruct (numeric_cell c) as [|s|[[n d]|b]|t];
    try (split; [discriminate | by intros ? ? [=]]).
  - change (fill0 NA) with (Int 0) in Hast.
    change (astype_int_cell (Int 0)) with (Ok (Int 0)) in Hast.
    unfold Int, inject_Z in Hast. injection Hast as <-. by split.
  - change (fill0 (Num (Fin (n # d)))) with (Num (Fin (n # d))) in Hast.
    cbn [astype_int_cell] in Hast. unfold Int, inject_Z in Hast.
    injection Hast as <-.
    split; [done|]. intros n' d' [= <- <-].
    destruct (Z.lt_ge_cases n 0) as [Hn|Hn].
    + assert (float_to_int64 (n # d) <= 0) as Hle.
      { unfold float_to_int64. destruct (in_int64 _); [|done].
        apply trunc_nonpos. cbn. lia. }
      split; [lia|]. split; [lia|].
      intros Hbig. pose proof (Z.div_lt_upper_bound n (Zpos d) 0). lia.
    + pose proof (trunc_nonneg (n # d) Hn) as Hpos.
      destruct (float_to_int64_nonneg (n # d) Hn) as [[Hle ->]|[Hgt ->]];
        rewrite (trunc_div n d Hn) in *.
      * split; [lia|]. split; [lia | lia].
      * split; [lia|]. split; [lia | lia].
Qed.

Lemma filter_length_complement {A} (f : A → bool) l :
  (length l - length (List.filter f l))%nat
  = length (List.filter (λ x, negb (f x)) l).
Proof.
  induction l as [|x l IH]; cbn; [done|].
  pose proof (filter_length_le f l).
  destruct (f x); cbn; lia.
Qed.
End SalesFields.

Example scenario_C_run :
  CleanSales.clean_data (H:=iso_parsers) scenario_C scenario_A_clean world0
  = (Ok scenario_C_clean, scenario_C_world).
Proof. by vm_compute. Qed.

Section SalesClaims.
Context `{Parsers}.

Lemma in_valid_skus df_inventory c :
  c ∈ valid_skus df_inventory ↔
  c ≠ NA ∧ ∃ i, i ∈ rows df_inventory ∧ cell_at i "SKU Code" = c.
Proof.
  unfold valid_skus, dropna.
  rewrite list_elem_of_In, filter_In, in_map_iff. split.
  - intros [(i & <- & Hi) Hna]. split; [by destruct (cell_at i "SKU Code")|].
    exists i. by rewrite list_elem_of_In.
  - intros [Hna (i & Hi & <-)]. split; [|by destruct (cell_at i "SKU Code")].
    exists i. by rewrite <- list_elem_of_In.
Qed.

Lemma in_inventory_true df_inventory r :
  text_or_na (cell_at r "SKU Code") →
  in_inventory df_inventory r = true →
  cell_at r "SKU Code" ∈ valid_skus df_inventory.
Proof.
  intros Htext (v & Hv & Heq)%existsb_exists.
  apply cell_eqb_text in Heq; [|done]. subst v. by apply list_elem_of_In.
Qed.

Lemma clean_sales_row_quantity r :
  quantity_ok r →
  ∃ z, cell_at (clean_sales_row r) "Quantity" = Int z ∧ 0 <= z ∧
       quantity_normalized r (clean_sales_row r).
Proof.
  intros Hok. unfold quantity_normalized.
  rewrite (quantity_clean_sales r Hok). destruct Hok as [y Hy]. rewrite Hy.
  apply quantity_result_ok in Hy as (z & -> & Hz & Hna & Hfin).
  exists z. cbn [unwrap]. split; [done|]. split; [done|]. split.
  - intros s Hs Hparse. rewrite Hna; [done|]. rewrite Hs. cbn. by rewrite Hparse.
  - intros n d Hq. destruct (Hfin n d Hq) as (H1 & H2 & H3).
    split; [|split].
    + intros Hn. by rewrite H1.
    + intros Hn Hle. by rewrite H2.
    + intros Hgt. by rewrite H3.
Qed.

(** C1. Every row of the clean sales table that [clean_data] returns has
    a SKU Code that belongs to the set of the SKU Code values of the clean
    inventory table.  The table is the cleaned sales table without the rows
    whose SKU Code is not in that set, and when rows were removed for this
    reason their number is logged in a warning (no count is logged when none
    was removed). *)
Theorem sales_skus_are_in_inventory df_sales df_inventory w out w' :
  CleanSales.clean_data df_sales df_inventory w = (Ok out, w') →
  (∀ r, r ∈ rows out →
     cell_at r "SKU Code" ∈ valid_skus df_inventory ∧
     ∃ i, i ∈ rows df_inventory ∧ cell_at i "SKU Code" = cell_at r "SKU Code") ∧
  rows out = List.filter (in_inventory df_inventory) (normalized_sales df_sales) ∧
  let removed :=
    List.filter (λ r, negb (in_inventory df_inventory r)) (normalized_sales df_sales) in
  ∃ entries,
    Forall (λ e, ¬ is_dropped_report e) entries ∧
    logs w' = logs w ++ entries ++
      (if (0 <? length removed)%nat
       then [(WARNING, CountText (length removed) dropped_message)]
       else []).
Proof.
  intros (Hrows & _ & Hlogs & _)%sales_clean_data_run.
  split; [|split; [done|]].
  - intros r Hr. rewrite Hrows in Hr.
    apply list_elem_of_In, filter_In in Hr as [Hr Hin].
    unfold normalized_sales in Hr. apply in_map_iff in Hr as (x & <- & _).
    apply in_inventory_true in Hin;
      [|rewrite sku_clean_sales; apply normalize_sku_text].
    split; [done|].
    apply in_valid_skus in Hin as [_ Hi]. exact Hi.
  - cbv zeta in *. rewrite Hrows, filter_length_complement in Hlogs.
    exists ([(INFO, Text "Nettoyage des données sales...")] ++
            (if existsb negative_quantity (dated_sales df_sales)
             then [(WARNING, Text "Certaines quantités sont négatives — elles seront forcées à 0.")]
             else [])).
    split; [|by rewrite <- app_assoc].
    destruct (existsb _ _); repeat constructor; intros (n & s & [=]).
Qed.

(** C9. The Stock half of the claim fails on the code, which clamps
    before it casts: the raw row [SKU001, D1, "BR1:Shirts", 1e30, M, Red]
    passes the clamp unchanged, the cast to int64 gives the smallest int64,
    and [clean_data] returns a clean row with the Stock
    -9223372036854775808, which [verification_data] then reports as a
    negative stock.  In general every clean Stock is an integer that is not
    negative or is the smallest int64, and it is negative exactly for a raw
    Stock of 2^63 or more.  [SalesCleaner.clean_data] casts before it clamps:
    every clean Quantity is an integer that is not negative, a Quantity text
    that is not a number becomes 0 and a negative Quantity becomes 0. *)
Theorem stock_beyond_int64_goes_negative :
  (fst (CleanInventory.clean_data huge_stock world0) = Ok huge_stock_clean ∧
   map (λ r, cell_at r "Stock") (rows huge_stock_clean)
   = [Int (-9223372036854775808)] ∧
   logs (snd (CleanInventory.verification_data huge_stock_clean world0))
   = [(ERROR, Text "Stock négatif détecté après nettoyage !");
      (WARNING, Text "Certains SKU semblent avoir un format inhabituel (pas de '-').")]) ∧
  (∀ df w out w',
     CleanInventory.clean_data df w = (Ok out, w') →
     Forall2 (λ r r', ∃ z, cell_at r' "Stock" = Int z ∧
                           (0 <= z ∨ z = -9223372036854775808) ∧
                           (z < 0 ↔ stock_overflows r))
       (retained_inventory df) (rows out)) ∧
  (∀ df_sales df_inventory w out w',
     CleanSales.clean_data df_sales df_inventory w = (Ok out, w') →
     (∀ r, r ∈ rows out → ∃ z, cell_at r "Quantity" = Int z ∧ 0 <= z) ∧
     rows out = List.filter (in_inventory df_inventory)
                  (map clean_sales_row (dated_sales df_sales)) ∧
     ∀ r, r ∈ dated_sales df_sales → quantity_normalized r (clean_sales_row r)).
Proof.
  split; [|split; [exact inventory_stock_integer|]].
  { split; [vm_compute; reflexivity|]. split; vm_compute; reflexivity. }
  intros df_sales df_inventory w out w' (Hrows & Hall & _)%sales_clean_data_run.
  rewrite Forall_forall in Hall.
  split; [|split; [done|]].
  - intros r Hr. rewrite Hrows in Hr.
    apply list_elem_of_In, filter_In in Hr as [Hr _].
    unfold normalized_sales in Hr. apply in_map_iff in Hr as (x & <- & Hx).
    apply list_elem_of_In, Hall, clean_sales_row_quantity in Hx
      as (z & Hz & Hpos & _).
    eauto.
  - intros r Hr. by apply Hall, clean_sales_row_quantity in Hr as (z & _ & _ & Hn).
Qed.
End SalesClaims.

Lemma sales_skus_are_in_inventory_witness :
  CleanSales.clean_data (H:=iso_parsers) scenario_C scenario_A_clean world0
    = (Ok scenario_C_clean, scenario_C_world) ∧
  rows scenario_C_clean
    = List.filter (in_inventory scenario_A_clean)
        (normalized_sales (H:=iso_parsers) scenario_C).
Proof.
  assert (CleanSales.clean_data (H:=iso_parsers) scenario_C scenario_A_clean world0
          = (Ok scenario_C_clean, scenario_C_world)) as Hrun
    by (vm_compute; reflexivity).
  split; [exact Hrun|].
  exact (proj1 (proj2 (sales_skus_are_in_inventory (H:=iso_parsers) _ _ _ _ _ Hrun))).
Defined.

Section Projection.
Lemma project_row_lookup cols r c :
  c ∈ cols → cell_at (project_row cols r) c = cell_at r c.
Proof.
  unfold project_row, cell_at at 1.
  induction cols as [|c' cols IH]; [by intros ?%elem_of_nil|].
  intros Hc. cbn [map list_to_map foldr]. cbn.
  destruct (decide (c' = c)) as [->|Hne].
  - by rewrite lookup_insert_eq.
  - rewrite lookup_insert_ne by done. apply IH.
    apply elem_of_cons in Hc as [->|Hc]; done.
Qed.

Lemma getitems_ok df cols d :
  getitems df cols = Ok d →
  has_columns cols df ∧ columns d = cols ∧ rows d = map (project_row cols) (rows df).
Proof.
  unfold getitems. destruct (List.filter _ cols) eqn:Hm; [|discriminate].
  intros [= <-]. split; [exact (proj1 (filter_missing_nil df cols) Hm) | done].
Qed.

Lemma getitems_total df cols :
  has_columns cols df →
  getitems df cols = Ok (mkDataFrame cols (map (project_row cols) (rows df))).
Proof.
  intros Hc. unfold getitems. by rewrite (proj2 (filter_missing_nil df cols) Hc).
Qed.

Lemma zip_with_insert_column {X} (f : X → gmap string cell) c l vs :
  length vs = length l →
  map (λ r, cell_at r c) (zip_with (λ r v, <[c:=v]> r) (map f l) vs) = vs.
Proof.
  revert vs. induction l as [|x l IH]; intros [|v vs]; cbn; try done.
  intros [= Hlen]. by rewrite cell_at_insert, IH.
Qed.

Lemma zip_with_insert_others {X} (f : X → gmap string cell) c l vs :
  length vs = length l →
  Forall2 (λ x r', ∀ c', c' ≠ c → cell_at r' c' = cell_at (f x) c')
    l (zip_with (λ r v, <[c:=v]> r) (map f l) vs).
Proof.
  revert vs. induction l as [|x l IH]; intros [|v vs]; cbn; try done.
  intros [= Hlen]. constructor; [|by apply IH].
  intros c' Hc'. by apply cell_at_insert_ne.
Qed.

Lemma range1_length n : length (range1 n) = n.
Proof. unfold range1. by rewrite length_map, length_seq. Qed.

Lemma Int_inj z z' : Int z = Int z' → z = z'.
Proof. by intros [= ->]. Qed.

Lemma NoDup_map_inj {A B} (f : A → B) l :
  (∀ a b, f a = f b → a = b) → NoDup l → NoDup (map f l).
Proof.
  intros Hinj. induction 1 as [|x l Hx _ IH]; cbn; constructor; [|done].
  intros (y & Hy & Hin)%list_elem_of_In%in_map_iff.
  apply Hinj in Hy as ->. by apply list_elem_of_In in Hin.
Qed.

Lemma range1_NoDup n : NoDup (range1 n).
Proof.
  unfold range1. apply NoDup_map_inj; [|apply NoDup_seq].
  intros a b Hab%Int_inj. lia.
Qed.
End Projection.

Section DimProduct.
Import BuildStarSchema.

(** C6. For every clean inventory table of N rows that carries the six
    product columns, [build_dim_product] returns a table whose ProductKey
    column is exactly 1, 2, ..., N, without repeats, row i of the result
    carrying the product columns of row i of the input. *)
Theorem product_keys_are_dense self df_inventory w :
  has_columns dim_columns df_inventory →
  ∃ dim_product w',
    build_dim_product self df_inventory w = (Ok dim_product, w') ∧
    product_key_column dim_product
      = map (λ k, Int (Z.of_nat k)) (seq 1 (len df_inventory)) ∧
    NoDup (product_key_column dim_product) ∧
    columns dim_product = "ProductKey" :: dim_columns ∧
    Forall2 (same_on dim_columns) (rows df_inventory) (rows dim_product) ∧
    files w' = <[joinpath (model_output_dir self) "DimProduct.csv" := dim_product]>
                 (files w).
Proof.
  intros Hcols. unfold build_dim_product. rewrite bind_log.
  fold dim_columns. rewrite (getitems_total _ _ Hcols), bind_lift_Ok.
  unfold insert0. 
  change (has_column (mkDataFrame dim_columns _) "ProductKey") with false.
  cbv iota. rewrite bind_lift_Ok, bind_log.
  eexists _, _. split; [reflexivity|]. unfold len. cbn [rows columns files].
  rewrite length_map.
  assert (length (range1 (length (rows df_inventory))) = length (rows df_inventory))
    as Hlen by apply range1_length.
  unfold product_key_column. cbn [rows].
  rewrite (zip_with_insert_column _ _ _ _ Hlen).
  split; [done|]. split; [apply range1_NoDup|]. split; [done|]. split; [|done].
  eapply Forall2_impl; [exact (zip_with_insert_others _ _ _ _ Hlen)|].
  intros r r' Hr c Hc. cbv beta in Hr. rewrite Hr.
  - by apply project_row_lookup.
  - intros ->. revert Hc. unfold dim_columns. rewrite !elem_of_cons, elem_of_nil.
    intros Hc. repeat destruct Hc as [Hc|Hc]; done.
Qed.
End DimProduct.

Lemma product_keys_are_dense_witness :
  has_columns dim_columns scenario_A_clean ∧
  ∃ dim_product w',
    BuildStarSchema.build_dim_product builder scenario_A_clean world0
      = (Ok dim_product, w') ∧
    product_key_column dim_product = [Int 1].
Proof.
  assert (has_columns dim_columns scenario_A_clean) as Hcols.
  { intros c Hc. apply has_column_true. revert c Hc. apply Forall_forall.
    repeat constructor. }
  split; [exact Hcols|].
  destruct (product_keys_are_dense builder scenario_A_clean world0 Hcols)
    as (dim_product & w' & Hrun & Hkeys & _).
  exists dim_product, w'. split; [exact Hrun | exact Hkeys].
Defined.

Section DateKeys.
Lemma digit_val_char d : 0 <= d < 10 → digit_val (digit_char d) = Some d.
Proof.
  intros Hd.
  assert (d = 0 ∨ d = 1 ∨ d = 2 ∨ d = 3 ∨ d = 4 ∨ d = 5 ∨ d = 6 ∨ d = 7 ∨
          d = 8 ∨ d = 9) as Hcases by lia.
  repeat destruct Hcases as [->|Hcases]; try reflexivity. by subst.
Qed.

Lemma days_in_month_le y m : days_in_month y m <= 31.
Proof.
  unfold days_in_month.
  destruct (m =? 2); [destruct (is_leap y); lia|].
  destruct (_ || _); lia.
Qed.

Lemma valid_timestamp_bounds t :
  valid_timestamp t = true →
  1677 <= year t <= 2262 ∧ 1 <= month t <= 12 ∧ 1 <= day t <= 31.
Proof.
  unfold valid_timestamp. rewrite !andb_true_iff, !Z.leb_le.
  pose proof (days_in_month_le (year t) (month t)). lia.
Qed.

Lemma strftime_Ymd_value t :
  valid_timestamp t = true →
  int_of_str (strftime_Ymd t) = Ok (ymd t) ∧
  String.length (strftime_Ymd t) = 8%nat ∧
  10000000 <= ymd t <= 99999999.
Proof.
  intros (Hy & Hm & Hd)%valid_timestamp_bounds.
  split; [|split; [reflexivity | unfold ymd; lia]].
  unfold strftime_Ymd, pad4, pad2, int_of_str.
  cbv [String.append]. cbn [digits_val].
  rewrite !digit_val_char by (apply Z.mod_pos_bound; lia).
  f_equal. unfold ymd.
  Z.div_mod_to_equations. lia.
Qed.
End DateKeys.

Section Merge.
Implicit Types (sales keys : DataFrame) (l : gmap string cell).

Lemma lookup_labelled cols (f : string → cell) rest c :
  c ∈ cols →
  (list_to_map (map (λ c, (c, f c)) cols ++ rest) : gmap string cell) !! c
  = Some (f c).
Proof.
  induction cols as [|c' cols IH]; [by intros ?%elem_of_nil|].
  intros Hc. cbn. destruct (decide (c' = c)) as [->|Hne].
  - by rewrite lookup_insert_eq.
  - rewrite lookup_insert_ne by done. apply IH.
    apply elem_of_cons in Hc as [->|Hc]; done.
Qed.

Lemma lookup_labelled_rest cols (f : string → cell) rest c :
  c ∉ cols →
  (list_to_map (map (λ c, (c, f c)) cols ++ rest) : gmap string cell) !! c
  = (list_to_map rest : gmap string cell) !! c.
Proof.
  induction cols as [|c' cols IH]; [done|].
  intros [Hne Hc]%not_elem_of_cons. cbn.
  rewrite lookup_insert_ne by done. by apply IH.
Qed.

Lemma left_label_keys keys c :
  columns keys = ["ProductKey"; "SKU Code"] →
  left_label "SKU Code" keys c
  = if bool_decide (c = "ProductKey") then "ProductKey_x" else c.
Proof.
  intros Hk. unfold left_label, has_column. rewrite Hk.
  destruct (bool_decide (c = "ProductKey")) eqn:E.
  - apply bool_decide_eq_true in E as ->. reflexivity.
  - apply bool_decide_eq_false in E.
    destruct (decide (c = "SKU Code")) as [->|Hsku]; [reflexivity|].
    rewrite (bool_decide_eq_false_2 (c ∈ _)); [by rewrite andb_false_r|].
    rewrite !elem_of_cons, elem_of_nil. tauto.
Qed.

Lemma others_keys keys :
  columns keys = ["ProductKey"; "SKU Code"] → others "SKU Code" keys = ["ProductKey"].
Proof. intros Hk. unfold others. by rewrite Hk. Qed.

Lemma merged_row_plain sales keys l r :
  columns keys = ["ProductKey"; "SKU Code"] →
  "ProductKey" ∉ columns sales →
  merged_row "SKU Code" sales keys l r
  = list_to_map
      (map (λ c, (c, cell_at l c)) (columns sales) ++
       [("ProductKey", match r with Some d => cell_at d "ProductKey" | None => NA end)]).
Proof.
  intros Hk Hpk. unfold merged_row. rewrite (others_keys _ Hk). cbn [map].
  unfold right_label, has_column. rewrite (bool_decide_eq_false_2 _ Hpk).
  do 2 f_equal. apply map_ext_in. intros c Hc%list_elem_of_In.
  rewrite (left_label_keys _ _ Hk).
  rewrite bool_decide_eq_false_2; [done|]. by intros ->.
Qed.

Lemma merged_row_sales sales keys l r c :
  columns keys = ["ProductKey"; "SKU Code"] →
  "ProductKey" ∉ columns sales → c ∈ columns sales →
  cell_at (merged_row "SKU Code" sales keys l r) c = cell_at l c.
Proof.
  intros Hk Hpk Hc. rewrite (merged_row_plain _ _ _ _ Hk Hpk).
  unfold cell_at at 1. by rewrite lookup_labelled.
Qed.

Lemma merged_row_key sales keys l r :
  columns keys = ["ProductKey"; "SKU Code"] →
  "ProductKey" ∉ columns sales →
  cell_at (merged_row "SKU Code" sales keys l r) "ProductKey"
  = match r with Some d => cell_at d "ProductKey" | None => NA end.
Proof.
  intros Hk Hpk. rewrite (merged_row_plain _ _ _ _ Hk Hpk).
  unfold cell_at at 1. rewrite lookup_labelled_rest by done.
  cbn. by rewrite lookup_insert_eq.
Qed.

Lemma merge_left_ok key sales keys m :
  merge_left key sales keys = Ok m →
  columns m = map (left_label key keys) (columns sales) ++
              map (right_label key sales) (others key keys) ∧
  rows m = flat_map
             (λ l, match List.filter (λ d, cell_eqb (cell_at l key) (cell_at d key))
                           (rows keys) with
                   | [] => [merged_row key sales keys l None]
                   | ds => map (λ d, merged_row key sales keys l (Some d)) ds
                   end) (rows sales).
Proof.
  unfold merge_left. destruct (_ || _); [discriminate|].
  destruct (keys_clash _ _); [discriminate|]. by intros [= <-].
Qed.

Lemma merge_left_keys key sales keys m :
  merge_left key sales keys = Ok m →
  keys_clash (map (λ r, cell_at r key) (rows sales))
    (map (λ r, cell_at r key) (rows keys)) = false.
Proof.
  unfold merge_left. destruct (_ || _); [discriminate|].
  by destruct (keys_clash _ _).
Qed.

Lemma merged_columns sales keys c :
  columns keys = ["ProductKey"; "SKU Code"] →
  c ∈ map (left_label "SKU Code" keys) (columns sales) ++
      map (right_label "SKU Code" sales) (others "SKU Code" keys) →
  (c = "ProductKey" → "ProductKey" ∉ columns sales) ∧
  (c ≠ "ProductKey" → c ≠ "ProductKey_x" → c ≠ "ProductKey_y" → c ∈ columns sales).
Proof.
  intros Hk Hc. rewrite (others_keys _ Hk) in Hc. cbn [map] in Hc.
  apply elem_of_app in Hc as [Hc|Hc].
  - apply list_elem_of_In, in_map_iff in Hc as (c' & Hc' & Hin).
    rewrite (left_label_keys _ _ Hk) in Hc'.
    destruct (bool_decide (c' = "ProductKey")) eqn:E.
    + subst c. split; [discriminate | done].
    + subst c'. apply bool_decide_eq_false in E. split; [done|].
      intros _ _ _. by apply list_elem_of_In.
  - apply elem_of_cons in Hc as [Hc|Hc%elem_of_nil]; [|done]. unfold right_label in Hc.
    destruct (has_column sales "ProductKey") eqn:E.
    + subst c. split; [discriminate | done].
    + subst c. split; [|done]. intros _.
      by apply not_true_iff_false in E; rewrite has_column_true in E.
Qed.
End Merge.

Section FactSales.
Import BuildStarSchema.
Context `{Parsers}.

Lemma bind_read_csv_ok {B} path (k : DataFrame → M B) w b w' :
  bind (read_csv path) k w = (Ok b, w') →
  ∃ df, files w !! path = Some df ∧ k df w = (Ok b, w').
Proof.
  unfold bind, read_csv. destruct (files w !! path); [eauto | discriminate].
Qed.

Lemma bind_to_csv {B} df path (k : unit → M B) w :
  bind (to_csv df path) k w = k tt (mkWorld (logs w) (<[path:=df]> (files w))).
Proof. reflexivity. Qed.

Lemma columns_setitem_inv df c col c' :
  c' ∈ columns (setitem df c col) → c' ≠ c → c' ∈ columns df.
Proof.
  cbn. destruct (has_column df c); [done|].
  intros [Hc|Hc]%elem_of_app Hne; [done|].
  apply elem_of_cons in Hc as [->|Hc%elem_of_nil]; done.
Qed.

Lemma map_flat_map {A B C} (f : B → C) (g : A → list B) l :
  map f (flat_map g l) = flat_map (λ x, map f (g x)) l.
Proof. induction l as [|x l IH]; cbn; [done|]. by rewrite map_app, IH. Qed.

Lemma flat_map_ext_in {A B} (f g : A → list B) l :
  (∀ x, x ∈ l → f x = g x) → flat_map f l = flat_map g l.
Proof.
  induction l as [|x l IH]; intros Hfg; cbn; [done|].
  rewrite Hfg by by left. rewrite IH; [done|]. intros y Hy. apply Hfg. by right.
Qed.

Lemma filter_map {A B} (f : A → B) (p : B → bool) l :
  List.filter p (map f l) = map f (List.filter (λ x, p (f x)) l).
Proof. induction l as [|x l IH]; cbn; [done|]. destruct (p (f x)); cbn; congruence. Qed.

Lemma joined_map {B} sales dim keys l (T : gmap string cell → B) (φ : cell → B) :
  rows keys = map (project_row ["ProductKey"; "SKU Code"]) (rows dim) →
  (∀ r, T (merged_row "SKU Code" sales keys l r) = φ (key_of r)) →
  map T (joined sales keys l) = map φ (resolved_keys dim l).
Proof.
  intros Hrk HT. unfold joined, resolved_keys, matching_products.
  rewrite Hrk, filter_map.
  erewrite filter_ext; last first.
  { intros d. rewrite project_row_lookup; [reflexivity|].
    apply elem_of_cons. right. apply elem_of_cons. by left. }
  destruct (List.filter _ (rows dim)) as [|d ds]; cbn [map].
  - by rewrite (HT None).
  - rewrite (HT (Some _)). cbn [key_of].
    rewrite project_row_lookup by (apply elem_of_cons; by left).
    f_equal. rewrite !map_map. apply map_ext. intros d'.
    rewrite (HT (Some _)). cbn [key_of].
    rewrite project_row_lookup; [done|]. apply elem_of_cons. by left.
Qed.

Lemma keys_sku_column dim keys :
  rows keys = map (project_row ["ProductKey"; "SKU Code"]) (rows dim) →
  map (λ r, cell_at r "SKU Code") (rows keys) = sku_column (rows dim).
Proof.
  intros ->. rewrite map_map. apply map_ext. intros d.
  apply project_row_lookup. apply elem_of_cons. right. apply elem_of_cons. by left.
Qed.

(** A run of [build_fact_sales] that returns has passed the check of the key
    columns. *)
Lemma build_fact_sales_keys self path dim w fact w' sales :
  build_fact_sales self path dim w = (Ok fact, w') →
  files w !! path = Some sales →
  compatible_keys sales dim.
Proof.
  unfold build_fact_sales. rewrite bind_log.
  intros (sales' & Hfile & Hrun)%bind_read_csv_ok Hsales.
  assert (sales' = sales) as -> by (cbn [files] in Hfile; congruence).
  apply bind_lift_inv in Hrun as (keys & (_ & _ & Hrk)%getitems_ok & Hrun).
  apply bind_lift_inv in Hrun as (m & Hm%merge_left_keys & _).
  unfold compatible_keys. by rewrite (keys_sku_column _ _ Hrk) in Hm.
Qed.

Lemma unwrap_date_key col c :
  unwrap (astype_int_cell (strftime_Ymd_cell (unwrap (to_datetime_one col c))))
  = unwrap (date_key_result col c).
Proof. unfold date_key_result. by destruct (to_datetime_one col c). Qed.

(** What a run of [build_fact_sales] that returns a table has done: it read
    the sales file, the table holds the fact rows of every sale, in order,
    every date of the joined frame converted to a DateKey, and the table was
    saved. *)
Lemma build_fact_sales_run self path dim w fact w' :
  build_fact_sales self path dim w = (Ok fact, w') →
  ∃ sales,
    files w !! path = Some sales ∧
    rows fact = fact_rows sales dim ∧
    columns fact = ["DateKey"; "ProductKey"; "Quantity"] ∧
    Forall (λ c, ∃ y, date_key_result (merged_dates sales dim) c = Ok y)
      (merged_dates sales dim) ∧
    files w' = <[joinpath (model_output_dir self) "FactSales.csv" := fact]> (files w).
Proof.
  unfold build_fact_sales. rewrite bind_log.
  intros (sales & Hfile & Hrun)%bind_read_csv_ok. exists sales. split; [done|].
  apply bind_lift_inv in Hrun as (keys & (_ & Hk & Hrk)%getitems_ok & Hrun).
  apply bind_lift_inv in Hrun as (m & [Hcm Hrm]%merge_left_ok & Hrun).
  fold (joined sales keys) in Hrm.
  apply bind_lift_inv in Hrun as (date & Hdate & Hrun).
  pose proof (getitem_ok _ _ _ Hdate) as [Hdatecol Edate].
  apply bind_lift_inv in Hrun as (date' & Hto & Hrun).
  unfold to_datetime in Hto. apply mapM_unwrap in Hto as [-> Hall1].
  assert (rows m = map id (rows m)) as Hid by by rewrite map_id.
  rewrite Edate, map_map in Hrun.
  pose proof (setitem_rows (rows m) m "Date" id
    (λ x, unwrap (to_datetime_one date (cell_at x "Date"))) Hid) as Hrows2.
  rewrite <- Edate in Hrun.
  set (df2 := setitem m "Date" _) in *.
  assert (∀ c, c ∈ columns df2 → c ≠ "Date" → c ∈ columns m) as Hcols2
    by (intros c; apply columns_setitem_inv).
  clearbody df2.
  apply bind_lift_inv in Hrun as (date2 & Hdate2 & Hrun).
  pose proof (getitem_rows _ _ _ _ _ Hdate2 Hrows2) as ->.
  apply bind_lift_inv in Hrun as (datekey & Hast & Hrun).
  unfold astype_int, dt_strftime_Ymd in Hast. rewrite map_map in Hast.
  apply mapM_unwrap in Hast as [-> Hall2]. rewrite map_map in Hrun.
  pose proof (setitem_rows (rows m) df2 "DateKey" _
    (λ x, unwrap (astype_int_cell (strftime_Ymd_cell
            (cell_at (<["Date" := unwrap (to_datetime_one date (cell_at x "Date"))]>
                        (id x)) "Date")))) Hrows2) as Hrows3.
  set (df3 := setitem df2 "DateKey" _) in *.
  assert (∀ c, c ∈ columns df3 → c ≠ "DateKey" → c ≠ "Date" → c ∈ columns m) as Hcols3.
  { intros c Hc Hn1 Hn2. apply Hcols2; [|done]. by apply columns_setitem_inv in Hc. }
  clearbody df3. clear Hrows2 Hcols2 Hdate2.
  apply bind_lift_inv in Hrun as (fact0 & (Hfc & Hcf & Hrf)%getitems_ok & Hrun).
  rewrite bind_log, bind_to_csv in Hrun. injection Hrun as <- <-.
  cbn [files].
  assert (("ProductKey" ∉ columns sales) ∧ "Quantity" ∈ columns sales ∧
          "Date" ∈ columns sales) as (Hpk & Hq & Hd).
  { rewrite Hcm in Hcols3, Hdatecol.
    split; [|split].
    - apply (merged_columns sales keys "ProductKey" Hk); [|done].
      apply Hcols3; [|done..]. apply Hfc. in_list.
    - apply (merged_columns sales keys "Quantity" Hk); [|done..].
      apply Hcols3; [|done..]. apply Hfc. in_list.
    - by apply (merged_columns sales keys "Date" Hk). }
  assert (date = merged_dates sales dim) as Hdates.
  { rewrite Edate, Hrm, map_flat_map. unfold merged_dates.
    apply flat_map_ext_in. intros l _.
    apply (joined_map sales dim keys l (λ x, cell_at x "Date") (λ _, cell_at l "Date") Hrk).
    intros r. by apply merged_row_sales. }
  split; [|split; [done|split; [|done]]].
  - rewrite Hrf, Hrows3, map_map, Hrm, map_flat_map. unfold fact_rows.
    apply flat_map_ext_in. intros l _. unfold fact_rows_of.
    apply (joined_map sales dim keys l _ _ Hrk). intros r.
    unfold project_row, fact_row. cbn [map]. unfold id.
    rewrite cell_at_insert.
    rewrite !(cell_at_insert_ne _ "DateKey") by done.
    rewrite cell_at_insert.
    rewrite !(cell_at_insert_ne _ "Date") by done.
    rewrite (merged_row_sales _ _ _ _ "Date" Hk Hpk Hd).
    rewrite (merged_row_sales _ _ _ _ "Quantity" Hk Hpk Hq).
    rewrite (merged_row_key _ _ _ _ Hk Hpk).
    by rewrite unwrap_date_key, Hdates.
  - rewrite <- Hdates. rewrite Forall_forall in Hall1, Hall2.
    apply Forall_forall. intros c Hc.
    destruct (Hall1 c Hc) as [d Hd1].
    rewrite Edate in Hc.
    apply list_elem_of_In, in_map_iff in Hc as (x & Hx & Hin).
    destruct (Hall2 (strftime_Ymd_cell
                (cell_at (<["Date" := unwrap (to_datetime_one date (cell_at x "Date"))]>
                            (id x)) "Date"))) as [y Hy].
    { apply list_elem_of_In, in_map_iff. eauto. }
    rewrite cell_at_insert, Hx, Hd1 in Hy. cbn [unwrap] in Hy.
    exists y. unfold date_key_result. by rewrite Hd1.
Qed.
End FactSales.

Example scenario_D_run :
  fst (BuildStarSchema.build_fact_sales (H:=iso_parsers) builder sales_clean_path
         scenario_D_dim scenario_D_world) = Ok scenario_D_fact.
Proof. by vm_compute. Qed.

Example unmatched_run :
  fst (BuildStarSchema.build_fact_sales (H:=iso_parsers) builder sales_clean_path
         scenario_D_dim unmatched_world) = Ok unmatched_fact.
Proof. by vm_compute. Qed.

Section FactClaims.
Import BuildStarSchema.
Context `{Parsers}.

Lemma to_datetime_cell_valid col c t :
  to_datetime_cell col c = Some t → valid_timestamp t = true.
Proof.
  unfold to_datetime_cell.
  destruct (match c with NA => None | TS t0 => Some t0 | _ => parse_datetime col c end)
    as [t'|]; [|discriminate].
  destruct (valid_timestamp t') eqn:E; [|discriminate]. by intros [= <-].
Qed.

(** The cast of the eight digits of a valid date. *)
Lemma astype_date_key t :
  valid_timestamp t = true →
  astype_int_cell (strftime_Ymd_cell (TS t)) = Ok (Int (ymd t)).
Proof.
  intros Hv. destruct (strftime_Ymd_value t Hv) as (Hint & _ & Hrange).
  cbn [strftime_Ymd_cell astype_int_cell]. rewrite Hint. cbn [rbind].
  rewrite (proj2 (in_int64_spec (ymd t))); [done | lia].
Qed.

Lemma date_key_result_ok col c y :
  date_key_result col c = Ok y → is_date_key col c y.
Proof.
  unfold date_key_result, to_datetime_one.
  destruct (to_datetime_cell col c) as [t|] eqn:Ht.
  - pose proof (to_datetime_cell_valid _ _ _ Ht) as Hv.
    destruct (strftime_Ymd_value t Hv) as (Hint & Hlen & Hrange).
    destruct c; cbn [rbind]; try discriminate;
      rewrite (astype_date_key t Hv); intros [= <-]; by exists t.
  - destruct c; cbn; discriminate.
Qed.

Lemma fact_row_fields col l pk :
  cell_at (fact_row col l pk) "DateKey" = unwrap (date_key_result col (cell_at l "Date")) ∧
  cell_at (fact_row col l pk) "ProductKey" = pk ∧
  cell_at (fact_row col l pk) "Quantity" = cell_at l "Quantity".
Proof.
  unfold fact_row, cell_at at 1 3 5. cbn.
  by repeat split.
Qed.

Lemma resolved_keys_nonempty dim l : resolved_keys dim l ≠ [].
Proof. unfold resolved_keys. by destruct (matching_products dim l). Qed.

Lemma date_in_merged sales dim l :
  l ∈ rows sales → cell_at l "Date" ∈ merged_dates sales dim.
Proof.
  intros Hl. unfold merged_dates. apply list_elem_of_In, in_flat_map.
  exists l. split; [by apply list_elem_of_In|].
  pose proof (resolved_keys_nonempty dim l).
  destruct (resolved_keys dim l); [done | by left].
Qed.

Lemma fact_date_key sales dim l pk :
  Forall (λ c, ∃ y, date_key_result (merged_dates sales dim) c = Ok y)
    (merged_dates sales dim) →
  l ∈ rows sales →
  is_date_key (merged_dates sales dim) (cell_at l "Date")
    (cell_at (fact_row (merged_dates sales dim) l pk) "DateKey").
Proof.
  intros Hall Hl. rewrite Forall_forall in Hall.
  destruct (Hall _ (date_in_merged sales dim l Hl)) as [y Hy].
  destruct (fact_row_fields (merged_dates sales dim) l pk) as (-> & _).
  rewrite Hy. by apply date_key_result_ok.
Qed.

Lemma date_key_result_parses col c t :
  to_datetime_cell col c = Some t → ∃ y, date_key_result col c = Ok y.
Proof.
  intros Ht. pose proof (to_datetime_cell_valid _ _ _ Ht) as Hv.
  unfold date_key_result, to_datetime_one. rewrite Ht.
  destruct c; cbn [rbind]; try (rewrite (astype_date_key t Hv); eauto).
  unfold to_datetime_cell in Ht. discriminate.
Qed.

Lemma Forall_map_intro {A B} (P : B → Prop) (f : A → B) l :
  (∀ x, x ∈ l → P (f x)) → Forall P (map f l).
Proof.
  induction l as [|x l IH]; intros Hl; cbn; constructor.
  - apply Hl. by left.
  - apply IH. intros y Hy. apply Hl. by right.
Qed.

Lemma merged_dates_of_rows sales dim keys m :
  columns keys = ["ProductKey"; "SKU Code"] →
  rows keys = map (project_row ["ProductKey"; "SKU Code"]) (rows dim) →
  ("ProductKey" ∉ columns sales) → "Date" ∈ columns sales →
  rows m = flat_map (joined sales keys) (rows sales) →
  map (λ r, cell_at r "Date") (rows m) = merged_dates sales dim.
Proof.
  intros Hk Hrk Hpk Hd Hrm. rewrite Hrm, map_flat_map. unfold merged_dates.
  apply flat_map_ext_in. intros l _.
  apply (joined_map sales dim keys l (λ x, cell_at x "Date") (λ _, cell_at l "Date") Hrk).
  intros r. by apply merged_row_sales.
Qed.

(** [build_fact_sales] returns a table when the sales file exists, the
    frames carry the columns that are read, the sales have no ProductKey
    column of their own, the key columns are of the same kind and every date
    of the sales parses. *)
Lemma build_fact_sales_returns self path dim w sales :
  files w !! path = Some sales →
  has_columns ["ProductKey"; "SKU Code"] dim →
  has_columns ["SKU Code"; "Quantity"; "Date"] sales →
  ("ProductKey" ∉ columns sales) →
  compatible_keys sales dim →
  (∀ l, l ∈ rows sales →
        ∃ t, to_datetime_cell (merged_dates sales dim) (cell_at l "Date") = Some t) →
  ∃ fact w', build_fact_sales self path dim w = (Ok fact, w').
Proof.
  intros Hfile Hdim Hsales Hpk Hkeys Hparse.
  unfold build_fact_sales. rewrite bind_log.
  unfold bind at 1, read_csv at 1. cbn [files]. rewrite Hfile.
  rewrite (getitems_total _ _ Hdim), bind_lift_Ok.
  set (keys := mkDataFrame ["ProductKey"; "SKU Code"] _).
  assert (columns keys = ["ProductKey"; "SKU Code"]) as Hk by done.
  assert (rows keys = map (project_row ["ProductKey"; "SKU Code"]) (rows dim)) as Hrk
    by done.
  clearbody keys.
  unfold merge_left.
  assert (has_column sales "SKU Code" = true) as ->
    by (apply has_column_true, Hsales; in_list).
  assert (has_column keys "SKU Code" = true) as ->
    by (apply has_column_true; rewrite Hk; in_list).
  cbn [negb orb]. rewrite (keys_sku_column _ _ Hrk).
  unfold compatible_keys, sku_column in Hkeys. unfold sku_column. rewrite Hkeys.
  rewrite bind_lift_Ok.
  fold (joined sales keys).
  set (m := mkDataFrame _ (flat_map (joined sales keys) (rows sales))).
  assert (rows m = flat_map (joined sales keys) (rows sales)) as Hrm by done.
  assert (∀ c, c ∈ columns sales → c ∈ columns m) as Hcm.
  { intros c Hc. unfold m. cbn [columns]. apply elem_of_app. left.
    apply list_elem_of_In, in_map_iff. exists c. split; [|by apply list_elem_of_In].
    rewrite (left_label_keys _ _ Hk). rewrite bool_decide_eq_false_2; [done|].
    by intros ->. }
  assert ("ProductKey" ∈ columns m) as Hpkm.
  { unfold m. cbn [columns]. apply elem_of_app. right.
    rewrite (others_keys _ Hk). cbn [map]. unfold right_label, has_column.
    rewrite (bool_decide_eq_false_2 _ Hpk). in_list. }
  clearbody m.
  pose proof (merged_dates_of_rows sales dim keys m Hk Hrk Hpk
                ltac:(apply Hsales; in_list) Hrm) as Hdates.
  pose proof (getitem_total m "Date" ltac:(apply Hcm, Hsales; in_list)) as Hdate.
  rewrite Hdate, bind_lift_Ok. rewrite Hdates in *.
  assert (Forall (λ c, ∃ y, date_key_result (merged_dates sales dim) c = Ok y)
            (merged_dates sales dim)) as Hall.
  { apply Forall_forall. intros c Hc. unfold merged_dates in Hc.
    apply list_elem_of_In, in_flat_map in Hc as (l & Hl & Hc).
    apply in_map_iff in Hc as (pk & <- & _).
    destruct (Hparse l) as [t Ht]; [by apply list_elem_of_In|].
    by apply (date_key_result_parses _ _ t). }
  set (col := merged_dates sales dim) in *.
  destruct (mapM_total (to_datetime_one col) col) as [date' Hto].
  { eapply Forall_impl; [exact Hall|]. intros c [y Hy]. cbv beta.
    unfold date_key_result in Hy. destruct (to_datetime_one col c); [eauto | done]. }
  unfold to_datetime. rewrite Hto, bind_lift_Ok.
  apply mapM_unwrap in Hto as [-> _].
  assert (getitem (setitem m "Date" (map (λ c, unwrap (to_datetime_one col c)) col))
            "Date" = Ok (map (λ c, unwrap (to_datetime_one col c)) col)) as ->.
  { rewrite getitem_total by (apply columns_setitem, Hcm, Hsales; in_list).
    f_equal. cbn [rows setitem]. rewrite <- (map_id (rows m)) at 1.
    apply zip_with_insert_column. by rewrite length_map, <- Hdates, length_map. }
  rewrite bind_lift_Ok.
  destruct (mapM_total astype_int_cell
              (dt_strftime_Ymd (map (λ c, unwrap (to_datetime_one col c)) col)))
    as [datekey Hast].
  { unfold dt_strftime_Ymd. rewrite map_map. apply Forall_map_intro.
    rewrite Forall_forall in Hall. intros c [y Hy]%Hall.
    unfold date_key_result in Hy. destruct (to_datetime_one col c); [eauto | done]. }
  unfold astype_int. rewrite Hast, bind_lift_Ok.
  rewrite getitems_total; last first.
  { intros c Hc. rewrite !elem_of_cons, elem_of_nil in Hc.
    destruct Hc as [->|[->|[->|[]]]].
    - cbn [columns setitem]. destruct (has_column _ "DateKey") eqn:E.
      + by apply has_column_true in E.
      + apply elem_of_app. right. in_list.
    - by apply columns_setitem, columns_setitem.
    - apply columns_setitem, columns_setitem, Hcm, Hsales. in_list. }
  rewrite bind_lift_Ok, bind_log, bind_to_csv. eexists _, _. reflexivity.
Qed.
Lemma length_resolved_keys dim l :
  length (resolved_keys dim l) = Checks.fan_out dim l.
Proof.
  unfold resolved_keys, Checks.fan_out.
  destruct (matching_products dim l) as [|d ds]; [done|].
  rewrite length_map. cbn [length]. lia.
Qed.

(** C7. The fact table that [build_fact_sales] returns is made of the fact
    rows of each sale of the file, sale after sale: as many rows as products
    have the SKU Code of the sale, one row when none has.  Every fact row of
    a sale carries the Quantity of that sale, and its DateKey is the integer
    that the eight digits of the date of that sale, formatted as YYYYMMDD,
    spell, between 10000000 and 99999999.  The clean sales row
    [SKU001, 10, 2024-03-05] of scenario D, joined with a DimProduct that
    maps [SKU001] to the key 7, yields the fact row with DateKey 20240305,
    ProductKey 7 and Quantity 10. *)
Theorem date_key_is_yyyymmdd :
  (∀ self path dim_product w fact w',
     build_fact_sales self path dim_product w = (Ok fact, w') →
     ∃ sales groups,
       files w !! path = Some sales ∧
       rows fact = concat groups ∧
       Forall2
         (λ l fs,
            length fs = Checks.fan_out dim_product l ∧
            ∀ f, f ∈ fs →
              cell_at f "Quantity" = cell_at l "Quantity" ∧
              is_date_key (merged_dates sales dim_product) (cell_at l "Date")
                (cell_at f "DateKey"))
         (rows sales) groups) ∧
  fst (build_fact_sales (H:=iso_parsers) builder sales_clean_path scenario_D_dim
         scenario_D_world) = Ok scenario_D_fact.
Proof.
  split; [|by vm_compute].
  intros self path dim w fact w' (sales & Hfile & Hrows & _ & Hall & _)%build_fact_sales_run.
  exists sales, (map (fact_rows_of sales dim) (rows sales)).
  split; [done|]. split.
  { rewrite Hrows. unfold fact_rows. apply flat_map_concat_map. }
  apply Forall2_map_same. intros l Hl. split.
  - unfold fact_rows_of. by rewrite length_map, length_resolved_keys.
  - intros f Hf. unfold fact_rows_of in Hf.
    apply list_elem_of_In, in_map_iff in Hf as (pk & <- & _). split.
    + apply fact_row_fields.
    + by apply fact_date_key.
Qed.

End FactClaims.

Lemma date_key_is_yyyymmdd_witness :
  BuildStarSchema.build_fact_sales (H:=iso_parsers) builder sales_clean_path
      scenario_D_dim unmatched_world
    = (Ok unmatched_fact,
       snd (BuildStarSchema.build_fact_sales (H:=iso_parsers) builder
              sales_clean_path scenario_D_dim unmatched_world)) ∧
  ∃ sales groups,
    files unmatched_world !! sales_clean_path = Some sales ∧
    rows unmatched_fact = concat groups ∧
    Forall2
      (λ l fs,
         length fs = Checks.fan_out scenario_D_dim l ∧
         ∀ f, f ∈ fs →
           cell_at f "Quantity" = cell_at l "Quantity" ∧
           is_date_key (H:=iso_parsers) (merged_dates sales scenario_D_dim)
             (cell_at l "Date") (cell_at f "DateKey"))
      (rows sales) groups.
Proof.
  assert (BuildStarSchema.build_fact_sales (H:=iso_parsers) builder sales_clean_path
              scenario_D_dim unmatched_world
          = (Ok unmatched_fact,
             snd (BuildStarSchema.build_fact_sales (H:=iso_parsers) builder
                    sales_clean_path scenario_D_dim unmatched_world))) as Hrun
    by (vm_compute; reflexivity).
  split; [exact Hrun|].
  exact (proj1 (date_key_is_yyyymmdd (H:=iso_parsers)) _ _ _ _ _ _ Hrun).
Defined.


(** *** Methods that write no file *)
Import Checks.

Section ReadOnly.

Lemma read_only_ret {A} (a : A) : read_only (ret a).
Proof. intros w. split; [done|]. exists []. by rewrite app_nil_r. Qed.

Lemma read_only_lift {A} (r : result A) : read_only (lift r).
Proof. intros w. split; [done|]. exists []. by rewrite app_nil_r. Qed.

Lemma read_only_log lvl msg : read_only (log lvl msg).
Proof. intros w. split; [done|]. by eexists. Qed.

Lemma read_only_read_csv path : read_only (read_csv path).
Proof.
  intros w. unfold read_csv. destruct (files w !! path); cbn;
    (split; [done|]); exists []; by rewrite app_nil_r.
Qed.

Lemma read_only_bind {A B} (m : M A) (k : A → M B) :
  read_only m → (∀ a, read_only (k a)) → read_only (bind m k).
Proof.
  intros Hm Hk w. unfold bind. destruct (Hm w) as [Hf [l Hl]].
  destruct (m w) as [[a|e] w1]; cbn in *.
  - destruct (Hk a w1) as [Hf' [l' Hl']]. split; [congruence|].
    exists (l ++ l'). by rewrite Hl', Hl, app_assoc.
  - split; [done|]. eauto.
Qed.

Lemma read_only_when c (m : M unit) : read_only m → read_only (when c m).
Proof. destruct c; [done|]. intros _. apply read_only_ret. Qed.

Lemma read_only_files {A} (m : M A) w r w1 :
  read_only m → m w = (r, w1) → files w1 = files w.
Proof. intros Hm Hw. destruct (Hm w) as [Hf _]. by rewrite Hw in Hf. Qed.

Lemma bind_inv {A B} (m : M A) (k : A → M B) w b w' :
  bind m k w = (Ok b, w') → ∃ a w1, m w = (Ok a, w1) ∧ k a w1 = (Ok b, w').
Proof.
  unfold bind. destruct (m w) as [[a|e] w1]; [eauto | discriminate].
Qed.

End ReadOnly.

Ltac read_only_step :=
  first
    [ apply read_only_ret | apply read_only_lift | apply read_only_log
    | apply read_only_read_csv
    | apply read_only_when
    | apply read_only_bind; [|intros ?]
    | match goal with
      | |- read_only (if ?c then _ else _) => destruct c
      | |- read_only (match ?l with [] => _ | _ :: _ => _ end) => destruct l
      | |- read_only (let '(_, _) := ?p in _) => destruct p
      end ].

Ltac read_only := cbv zeta; repeat read_only_step.

Section ReadOnlyMethods.
Context `{Parsers}.

Lemma inventory_load_read_only self : read_only (CleanInventory.load_data self).
Proof. unfold CleanInventory.load_data. read_only. Qed.

Lemma inventory_check_read_only df cols :
  read_only (CleanInventory.check_required_columns df cols).
Proof. unfold CleanInventory.check_required_columns. read_only. Qed.

Lemma inventory_validate_read_only df : read_only (CleanInventory.validate_types df).
Proof. unfold CleanInventory.validate_types. read_only. Qed.

Lemma inventory_clean_read_only df : read_only (CleanInventory.clean_data df).
Proof. unfold CleanInventory.clean_data. read_only. Qed.

Lemma inventory_verification_read_only df :
  read_only (CleanInventory.verification_data df).
Proof. unfold CleanInventory.verification_data. read_only. Qed.

Lemma sales_load_read_only self : read_only (CleanSales.load_data self).
Proof. unfold CleanSales.load_data. read_only. Qed.

Lemma sales_check_read_only df cols :
  read_only (CleanSales.check_required_columns df cols).
Proof. unfold CleanSales.check_required_columns. read_only. Qed.

Lemma sales_validate_read_only df : read_only (CleanSales.validate_types df).
Proof. unfold CleanSales.validate_types. read_only. Qed.

Lemma sales_clean_read_only df inv : read_only (CleanSales.clean_data df inv).
Proof. unfold CleanSales.clean_data. read_only. Qed.

Lemma sales_post_read_only today df : read_only (CleanSales.post_validation today df).
Proof. unfold CleanSales.post_validation. read_only. Qed.

End ReadOnlyMethods.

Section InventoryValidate.
Import CleanInventory.
Context `{Parsers}.

Lemma when_log (c : bool) lvl msg w :
  when c (log lvl msg) w
  = (Ok tt, mkWorld (logs w ++ (if c then [(lvl, msg)] else [])) (files w)).
Proof. destruct c; cbn; [reflexivity|]. rewrite app_nil_r. by destruct w. Qed.

Lemma lt_scalar_str_len k col :
  lt_scalar k (str_len col)
  = Ok (map (λ c, match c with
                  | Txt s => Z.of_nat (String.length s) <? k
                  | _ => false
                  end) col).
Proof.
  unfold lt_scalar, str_len. induction col as [|c col IH]; [done|].
  cbn [map mapM]. rewrite IH. destruct c; cbn [rbind]; try done.
  unfold Int, number_ltb, inject_Z. cbn [Qnum Qden]. by rewrite Z.mul_1_r.
Qed.

Lemma in_optional {A} (c : bool) (x y : A) :
  y ∈ (if c then [x] else []) ↔ c = true ∧ y = x.
Proof.
  destruct c.
  - rewrite elem_of_cons, elem_of_nil. split; [intros [->|[]]; done | intros [_ ->]; by left].
  - rewrite elem_of_nil. split; [done | by intros [? _]].
Qed.

Lemma count_true_contains sep (l : list (gmap string cell)) c :
  (count_true (str_contains sep (map (λ r, cell_at r c) l)) =? length l)%nat
  = forallb (λ r, match cell_at r c with
                  | Txt s => contains_char sep s
                  | _ => false
                  end) l.
Proof.
  unfold count_true, str_contains. rewrite map_map.
  induction l as [|a l IH]; cbn [map List.filter length forallb]; [done|].
  pose proof (filter_length_le (λ b, bool_decide (b = Some true))
                (map (λ r, match cell_at r c with
                           | Txt s => Some (contains_char sep s)
                           | _ => None
                           end) l)) as Hle.
  rewrite length_map in Hle.
  destruct (cell_at a c) as [|s| |].
  2: destruct (contains_char sep s).
  2: exact IH.
  all: apply Nat.eqb_neq; rewrite bool_decide_eq_false_2 by done; lia.
Qed.

Lemma negb_forallb {X} (p : X → bool) l :
  negb (forallb p l) = true ↔ ∃ x, x ∈ l ∧ p x = false.
Proof.
  induction l as [|a l IH]; cbn [forallb].
  - split; [done | by intros (x & ?%elem_of_nil & _)].
  - rewrite negb_andb, orb_true_iff, IH, negb_true_iff. split.
    + intros [Ha|(x & Hx & Hp)]; [exists a; split; [by left | done]|].
      exists x. split; [by right | done].
    + intros (x & [->|Hx]%elem_of_cons & Hp); [by left | right; eauto].
Qed.

Lemma Forall_optional {A} (P : A → Prop) (c : bool) x :
  P x → Forall P (if c then [x] else []).
Proof. destruct c; repeat constructor; done. Qed.

Lemma new_entries_app w entries fs :
  new_entries w (mkWorld (logs w ++ entries) fs) = entries.
Proof. unfold new_entries. cbn [logs]. by rewrite drop_app_length. Qed.

Lemma inventory_validate_types_returns df w :
  has_columns ["SKU Code"; "Design No."; "Category"; "Stock"] df →
  validate_types df w
  = (Ok tt, mkWorld (logs w ++ inventory_type_warnings df) (files w)).
Proof.
  intros Hcols. unfold validate_types.
  rewrite (getitem_total df "Stock") by (apply Hcols; in_list).
  rewrite (getitem_total df "SKU Code") by (apply Hcols; in_list).
  rewrite (getitem_total df "Design No.") by (apply Hcols; in_list).
  rewrite (getitem_total df "Category") by (apply Hcols; in_list).
  repeat (rewrite bind_lift_Ok || rewrite bind_when || rewrite lt_scalar_str_len).
  rewrite when_log. cbn [logs files]. rewrite <- !app_assoc.
  unfold inventory_type_warnings, column, len.
  by rewrite !map_map, any_map, count_true_contains.
Qed.

Lemma inventory_validate_types_run df w w' :
  validate_types df w = (Ok tt, w') →
  has_columns ["SKU Code"; "Design No."; "Category"; "Stock"] df ∧
  w' = mkWorld (logs w ++ inventory_type_warnings df) (files w).
Proof.
  intros Hrun.
  assert (has_columns ["SKU Code"; "Design No."; "Category"; "Stock"] df) as Hcols.
  { unfold validate_types in Hrun.
    apply bind_lift_inv in Hrun as (stock & [Hstock _]%getitem_ok & Hrun).
    rewrite bind_when in Hrun.
    apply bind_lift_inv in Hrun as (sku & [Hsku _]%getitem_ok & Hrun).
    rewrite bind_when in Hrun.
    apply bind_lift_inv in Hrun as (design & [Hdesign _]%getitem_ok & Hrun).
    rewrite bind_when in Hrun.
    apply bind_lift_inv in Hrun as (category & [Hcategory _]%getitem_ok & _).
    intros c. rewrite !elem_of_cons, elem_of_nil.
    intros [->|[->|[->|[->|[]]]]]; done. }
  split; [done|]. rewrite (inventory_validate_types_returns df w Hcols) in Hrun.
  by injection Hrun as <-.
Qed.

Lemma has_separator_false r : has_separator r = false ↔ no_separator r.
Proof.
  unfold has_separator, no_separator.
  destruct (cell_at r "Category") as [|s| |];
    try (split; [intros _ s' Hs'; discriminate Hs' | done]).
  split; [by intros Hs s' [= <-] | intros Hs; by apply Hs].
Qed.

(** X1.  On a raw table that has the four required columns, with text in
    SKU Code and Category, [validate_types] never raises and never touches a
    file: it only appends WARNING entries.  The warning about short codes is
    among them exactly when some SKU Code has fewer than 3 characters, and
    the warning about [:] exactly when some row has a Category that is not a
    text holding a [:]. *)
Theorem inventory_validate_types_only_warns df w :
  has_columns ["SKU Code"; "Design No."; "Category"; "Stock"] df →
  text_columns ["SKU Code"; "Category"] df →
  ∃ entries,
    validate_types df w = (Ok tt, mkWorld (logs w ++ entries) (files w)) ∧
    Forall (λ e, e.1 = WARNING) entries ∧
    ((WARNING, Text "Certains SKU Code ont une longueur anormale (<3).") ∈ entries ↔
     ∃ r s, r ∈ rows df ∧ cell_at r "SKU Code" = Txt s ∧ (String.length s < 3)%nat) ∧
    ((WARNING, Text "Certaines valeurs de 'Category' ne contiennent pas ':'.") ∈ entries ↔
     ∃ r, r ∈ rows df ∧ no_separator r).
Proof.
  intros Hcols _. exists (inventory_type_warnings df).
  split; [by apply inventory_validate_types_returns|].
  unfold inventory_type_warnings. split; [|split].
  - repeat (apply Forall_app; split); by apply Forall_optional.
  - rewrite !elem_of_app, !in_optional. split.
    + intros [[_ [=]]|[[_ [=]]|[[_ [=]]|[[_ [=]]|[[Hex _]|[_ [=]]]]]]].
      apply existsb_exists in Hex as (r & Hr & Hlen). unfold short_sku in Hlen.
      destruct (cell_at r "SKU Code") as [|s| |] eqn:E; try done.
      exists r, s. apply Z.ltb_lt in Hlen. split; [by apply list_elem_of_In|].
      split; [done | lia].
    + intros (r & s & Hr & Hs & Hlen). do 4 right. left. split; [|done].
      apply existsb_exists. exists r. split; [by apply list_elem_of_In|].
      unfold short_sku. rewrite Hs. apply Z.ltb_lt. lia.
  - rewrite !elem_of_app, !in_optional, negb_forallb. split.
    + intros [[_ [=]]|[[_ [=]]|[[_ [=]]|[[_ [=]]|[[_ [=]]|[(r & Hr & Hc) _]]]]]].
      exists r. split; [done|]. by apply has_separator_false.
    + intros (r & Hr & Hno). do 5 right. split; [|done].
      exists r. split; [done|]. by apply has_separator_false.
Qed.

(** X2.  When [validate_types] has returned without its warning about [:]
    on a table whose SKU Code holds text, the split of [clean_data] finds its
    two columns: as soon as one row is retained and the Stock of the retained
    rows converts, [clean_data] returns a table. *)
Theorem separator_warning_predicts_split df w w1 :
  text_column df "SKU Code" →
  validate_types df w = (Ok tt, w1) →
  (WARNING, Text "Certaines valeurs de 'Category' ne contiennent pas ':'.")
    ∉ new_entries w w1 →
  retained_inventory df ≠ [] →
  Forall stock_ok (retained_inventory df) →
  ∃ out w', clean_data df w1 = (Ok out, w').
Proof.
  intros _ [Hcols ->]%inventory_validate_types_run Hquiet Hne Hstock.
  rewrite new_entries_app in Hquiet.
  assert (forallb has_separator (rows df) = true) as Hall.
  { destruct (forallb has_separator (rows df)) eqn:E; [done|]. exfalso.
    apply Hquiet. unfold inventory_type_warnings. rewrite E.
    rewrite !elem_of_app. do 5 right. by left. }
  destruct (retained_inventory df) as [|r l] eqn:Hl; [done|].
  assert (r ∈ retained_inventory df) as Hr by (rewrite Hl; by left).
  assert (has_separator r = true) as Hsep.
  { rewrite forallb_forall in Hall. apply Hall.
    unfold retained_inventory in Hr. by apply list_elem_of_In, filter_In in Hr as [Hr _]. }
  unfold has_separator in Hsep.
  destruct (cell_at r "Category") as [|s| |] eqn:Hs; try done.
  rewrite <- Hl in Hstock.
  exact (inventory_clean_data_returns df _ r s Hcols Hstock Hr Hs Hsep).
Qed.

End InventoryValidate.

Section InventoryShape.
Import CleanInventory.

Lemma columns_setitem_eq df c col :
  columns (setitem df c col) = with_column c (columns df).
Proof. reflexivity. Qed.

Lemma with_column_present c cols : c ∈ cols → with_column c cols = cols.
Proof. intros Hc. unfold with_column. by rewrite bool_decide_eq_true_2. Qed.

Lemma elem_of_with_column c c' cols :
  c' ∈ with_column c cols ↔ c' ∈ cols ∨ c' = c.
Proof.
  unfold with_column. destruct (bool_decide (c ∈ cols)) eqn:E.
  - apply bool_decide_eq_true in E. split; [by left | by intros [?| ->]].
  - rewrite elem_of_app, elem_of_cons, elem_of_nil. tauto.
Qed.

(** The labels of the table that [clean_data] returns. *)
Lemma inventory_clean_data_columns df w out w' :
  clean_data df w = (Ok out, w') →
  has_columns ["SKU Code"; "Design No."; "Category"; "Stock"] df ∧
  columns out
  = List.filter (λ c, negb (bool_decide (c ∈ ["Category"])))
      (with_column "CategoryName" (with_column "BrandCode" (columns df))).
Proof.
  unfold clean_data. rewrite bind_log.
  intros (df1 & (Hreq & Hc1 & _)%dropna_subset_ok & Hrun)%bind_lift_inv.
  cbn [columns dropna_all] in Hreq, Hc1.
  apply bind_lift_inv in Hrun as (sku & [Hsku _]%getitem_ok & Hrun).
  set (df2 := setitem df1 "SKU Code" _) in *.
  assert (columns df2 = columns df) as Hc2
    by (unfold df2; by rewrite columns_setitem_eq, with_column_present, Hc1).
  clearbody df2. clear Hc1 Hsku.
  apply bind_lift_inv in Hrun as (stock & [Hstock _]%getitem_ok & Hrun).
  apply bind_lift_inv in Hrun as (clipped & _ & Hrun).
  apply bind_lift_inv in Hrun as (stock' & _ & Hrun).
  set (df3 := setitem df2 "Stock" _) in *.
  assert (columns df3 = columns df) as Hc3
    by (unfold df3; by rewrite columns_setitem_eq, with_column_present, Hc2).
  clearbody df3.
  apply bind_lift_inv in Hrun as (category & _ & Hrun).
  apply bind_lift_inv in Hrun as (brand & _ & Hrun).
  apply bind_lift_inv in Hrun as (name & _ & Hrun).
  set (df4 := setitem (setitem df3 "BrandCode" _) "CategoryName" _) in *.
  assert (columns df4 = with_column "CategoryName" (with_column "BrandCode" (columns df)))
    as Hc4 by (unfold df4; by rewrite !columns_setitem_eq, Hc3).
  clearbody df4.
  apply bind_lift_inv in Hrun as (df5 & [_ Hc5]%drop_columns_ok & Hrun).
  apply bind_lift_inv in Hrun as (sku5 & _ & Hrun).
  assert (out = df5) as ->.
  { cbv beta zeta in Hrun. destruct (empty _); cbn in Hrun; by injection Hrun as <- _. }
  split; [|by rewrite Hc5, Hc4].
  rewrite Hc2 in Hstock. intros c. rewrite !elem_of_cons, elem_of_nil.
  intros [->|[->|[->|[->|[]]]]]; try done; apply Hreq; in_list.
Qed.

Lemma clean_inventory_row_other r c :
  c ∉ inventory_rewritten → cell_at (clean_inventory_row r) c = cell_at r c.
Proof.
  unfold inventory_rewritten. rewrite !elem_of_cons, elem_of_nil. intros Hc.
  unfold clean_inventory_row, with_split, with_stock, with_sku.
  rewrite cell_at_delete_ne by (intros <-; apply Hc; repeat (first [by left | right])).
  rewrite !cell_at_insert_ne
    by (intros <-; apply Hc; repeat (first [by left | right])).
  done.
Qed.

(** X3.  The table that [clean_data] returns has no Category column, has
    the columns SKU Code, Design No., Stock, BrandCode and CategoryName, and
    keeps every other column of the raw table; each retained row gives, in
    order, a clean row whose cells outside SKU Code, Stock, Category,
    BrandCode and CategoryName are those of the raw row. *)
Theorem inventory_clean_table_shape df w out w' :
  clean_data df w = (Ok out, w') →
  ("Category" ∉ columns out) ∧
  has_columns ["SKU Code"; "Design No."; "Stock"; "BrandCode"; "CategoryName"] out ∧
  (∀ c, c ∈ columns df → c ≠ "Category" → c ∈ columns out) ∧
  Forall2 (λ r r', ∀ c, c ∉ inventory_rewritten → cell_at r' c = cell_at r c)
    (retained_inventory df) (rows out).
Proof.
  intros Hrun.
  pose proof (inventory_clean_data_columns _ _ _ _ Hrun) as [Hreq Hcols].
  assert (∀ c, c ∈ columns out ↔
               c ≠ "Category" ∧ (c ∈ columns df ∨ c = "BrandCode" ∨ c = "CategoryName"))
    as Hin.
  { intros c. rewrite Hcols, list_elem_of_In, filter_In, <- list_elem_of_In.
    rewrite !elem_of_with_column, negb_true_iff, bool_decide_eq_false.
    rewrite elem_of_cons, elem_of_nil. tauto. }
  split; [|split; [|split]].
  - rewrite Hin. tauto.
  - intros c. rewrite !elem_of_cons, elem_of_nil, Hin.
    intros [->|[->|[->|[->|[->|[]]]]]]; (split; [done|]); try tauto;
      left; apply Hreq; in_list.
  - intros c Hc Hne. apply Hin. tauto.
  - apply inventory_clean_data_run in Hrun as (-> & _).
    apply Forall2_map_same. intros r _ c Hc. by apply clean_inventory_row_other.
Qed.

End InventoryShape.

Section InventoryVerification.
Import CleanInventory.

Lemma existsb_orb {A} (f g : A → bool) l :
  existsb f l || existsb g l = existsb (λ x, f x || g x) l.
Proof.
  induction l as [|x l IH]; cbn; [done|]. rewrite <- IH.
  destruct (f x), (g x), (existsb f l); cbn; try done.
Qed.

Lemma any_blank col :
  any (map isna col) || any (eq_str "" (str_strip col)) = existsb blank col.
Proof.
  unfold eq_str, str_strip. rewrite map_map, !any_map, existsb_orb.
  apply existsb_ext. intros c. unfold blank. by destruct c.
Qed.

Lemma lt_scalar_negative col mask :
  lt_scalar 0 col = Ok mask → any mask = existsb negative_number col.
Proof. intros ->%lt_scalar_ok. by rewrite any_map. Qed.

Lemma bind_branch {B} (c b : bool) lvl msg (k : bool → M B) w :
  bind (if c then bind (log lvl msg) (λ _, ret true) else ret b) k w
  = k (c || b) (mkWorld (logs w ++ (if c then [(lvl, msg)] else [])) (files w)).
Proof.
  destruct c; [reflexivity|]. rewrite bind_ret, app_nil_r. by destruct w.
Qed.

Lemma verification_data_returns df w mask :
  has_columns ["Stock"; "BrandCode"; "CategoryName"; "SKU Code"] df →
  lt_scalar 0 (column df "Stock") = Ok mask →
  verification_data df w
  = (Ok tt, mkWorld (logs w ++ verification_report df) (files w)).
Proof.
  intros Hcols Hmask. unfold verification_data. cbv zeta.
  rewrite (getitem_total df "Stock") by (apply Hcols; in_list).
  rewrite (getitem_total df "BrandCode") by (apply Hcols; in_list).
  rewrite (getitem_total df "CategoryName") by (apply Hcols; in_list).
  rewrite (getitem_total df "SKU Code") by (apply Hcols; in_list).
  fold (column df "Stock") (column df "BrandCode") (column df "CategoryName")
    (column df "SKU Code").
  rewrite bind_lift_Ok, Hmask.
  repeat (rewrite bind_lift_Ok || rewrite bind_branch || rewrite bind_when).
  rewrite when_log. cbn [logs files]. rewrite <- !app_assoc.
  rewrite (lt_scalar_negative _ _ Hmask), !any_blank.
  unfold column at 5, len. rewrite count_true_contains.
  unfold verification_report.
  change (λ r : gmap string cell,
            match cell_at r "SKU Code" with
            | Txt s => contains_char "-" s
            | _ => false
            end) with has_dash.
  do 6 f_equal.
  destruct (existsb negative_number _), (existsb blank (column df "BrandCode")),
    (existsb blank (column df "CategoryName")), (any (duplicated _)); reflexivity.
Qed.

Lemma verification_data_run df w w' :
  verification_data df w = (Ok tt, w') →
  has_columns ["Stock"; "BrandCode"; "CategoryName"; "SKU Code"] df ∧
  w' = mkWorld (logs w ++ verification_report df) (files w).
Proof.
  intros Hrun.
  assert (has_columns ["Stock"; "BrandCode"; "CategoryName"; "SKU Code"] df ∧
          ∃ mask, lt_scalar 0 (column df "Stock") = Ok mask) as [Hcols [mask Hmask]].
  { unfold verification_data in Hrun. cbv zeta in Hrun.
    apply bind_lift_inv in Hrun as (stock & [Hstock ->]%getitem_ok & Hrun).
    apply bind_lift_inv in Hrun as (mask & Hmask & Hrun).
    rewrite bind_branch in Hrun.
    apply bind_lift_inv in Hrun as (brand & [Hbrand _]%getitem_ok & Hrun).
    rewrite bind_branch in Hrun.
    apply bind_lift_inv in Hrun as (name & [Hname _]%getitem_ok & Hrun).
    rewrite bind_branch in Hrun.
    apply bind_lift_inv in Hrun as (sku & [Hsku _]%getitem_ok & _).
    split; [|by exists mask].
    intros c. rewrite !elem_of_cons, elem_of_nil.
    intros [->|[->|[->|[->|[]]]]]; done. }
  split; [done|]. rewrite (verification_data_returns df w mask Hcols Hmask) in Hrun.
  by injection Hrun as <-.
Qed.

Lemma duplicated_from_false seen col :
  Forall text_or_na col →
  any (duplicated_from seen col) = false ↔ NoDup col ∧ ∀ c, c ∈ col → c ∉ seen.
Proof.
  intros Htext. revert seen.
  induction Htext as [|a col Ha _ IH]; intros seen; cbn [duplicated_from].
  - split; [intros _; split; [constructor | by intros c ?%elem_of_nil] | done].
  - unfold any in *. cbn [existsb]. unfold id at 1.
    rewrite orb_false_iff, IH, NoDup_cons.
    assert (existsb (cell_eqb a) seen = false ↔ a ∉ seen) as ->.
    { rewrite <- not_true_iff_false, existsb_exists. split.
      - intros Hno Hin. apply Hno. exists a. split; [by apply list_elem_of_In|].
        by apply cell_eqb_text.
      - intros Hno (x & Hx & Heq). apply cell_eqb_text in Heq as <-; [|done].
        by apply Hno, list_elem_of_In. }
    split.
    + intros (Ha' & Hnd & Hall). split; [split; [|done]|].
      * intros Hin. apply (Hall a Hin). by left.
      * intros c [->|Hc]%elem_of_cons; [done|].
        intros Hin. apply (Hall c Hc). by right.
    + intros ([Ha' Hnd] & Hall). split; [apply Hall; by left|]. split; [done|].
      intros c Hc [->|Hin]%elem_of_cons; [done|].
      apply (Hall c); [by right | done].
Qed.

Lemma duplicated_false col :
  Forall text_or_na col → any (duplicated col) = false ↔ NoDup col.
Proof.
  intros Htext. unfold duplicated. rewrite duplicated_from_false by done.
  split; [by intros [? _] | intros Hnd; split; [done|]].
  intros c _ ?%elem_of_nil. done.
Qed.

Lemma clean_sku_text df w out w1 :
  clean_data df w = (Ok out, w1) → Forall text_or_na (sku_column (rows out)).
Proof.
  intros (-> & _)%inventory_clean_data_run. rewrite sku_column_clean.
  apply Forall_map_intro. intros c _. apply normalize_sku_text.
Qed.

Lemma duplicates_empty df w out w1 :
  clean_data df w = (Ok out, w1) →
  empty (where_ out (duplicated_all (sku_column (rows out)))) = true
  ↔ NoDup (sku_column (rows out)).
Proof.
  intros Hrun. pose proof (clean_sku_text _ _ _ _ Hrun) as Htext.
  apply inventory_clean_data_run in Hrun as (_ & _ & _ & Hcol & _).
  rewrite empty_where
    by (intros E; rewrite E in Hcol; by apply elem_of_nil in Hcol).
  unfold duplicated_all at 1, sku_column at 2.
  rewrite select_map_col. fold (sku_column (rows out)).
  fold (duplicated_all (sku_column (rows out))). by apply no_duplicates.
Qed.

(** [verification_data] on the table that [clean_data] returns: it returns,
    and its check of the Stock fires exactly when a retained raw Stock is
    beyond int64. *)
Lemma verification_after_clean df w out w1 :
  clean_data df w = (Ok out, w1) →
  verification_data out w1
  = (Ok tt, mkWorld (logs w1 ++ verification_report out) (files w1)) ∧
  (existsb negative_number (column out "Stock") = true ↔
   ∃ r, r ∈ retained_inventory df ∧ stock_overflows r).
Proof.
  intros Hrun.
  pose proof (inventory_clean_data_columns _ _ _ _ Hrun) as [_ Hcols].
  assert (has_columns ["Stock"; "BrandCode"; "CategoryName"; "SKU Code"] out) as Hhas.
  { intros c Hc. rewrite Hcols, list_elem_of_In, filter_In, <- list_elem_of_In.
    rewrite !elem_of_with_column, negb_true_iff, bool_decide_eq_false.
    pose proof (inventory_clean_data_columns _ _ _ _ Hrun) as [Hreq _].
    revert Hc. rewrite !elem_of_cons, !elem_of_nil.
    intros [->|[->|[->|[->|[]]]]]; (split; [|by intros [[=]|[]]]); try tauto;
      left; left; apply Hreq; in_list. }
  pose proof (inventory_clean_data_run _ _ _ _ Hrun) as (Hrows & Hok & _).
  rewrite Forall_forall in Hok.
  assert (∀ r, r ∈ retained_inventory df →
            ∃ z, cell_at (clean_inventory_row r) "Stock" = Int z ∧
                 (z < 0 ↔ stock_overflows r)) as Hsign.
  { intros r Hr. destruct (Hok r Hr) as [y Hy]. rewrite stock_clean, Hy. cbn [unwrap].
    apply stock_result_sign in Hy as (z & -> & _ & Hz). by exists z. }
  assert (column out "Stock"
          = map (λ r, cell_at (clean_inventory_row r) "Stock") (retained_inventory df))
    as Hcol by (unfold column; by rewrite Hrows, map_map).
  destruct (lt_scalar_total 0 (column out "Stock")) as [mask Hmask].
  { rewrite Hcol. apply Forall_map_intro. intros r Hr.
    destruct (Hsign r Hr) as (z & -> & _). eauto. }
  split; [exact (verification_data_returns out w1 mask Hhas Hmask)|].
  rewrite Hcol, existsb_exists. split.
  - intros (c & (r & <- & Hr%list_elem_of_In)%in_map_iff & Hneg).
    exists r. split; [done|]. destruct (Hsign r Hr) as (z & Hz & Hiff).
    rewrite Hz in Hneg. cbn in Hneg. apply Z.ltb_lt in Hneg. apply Hiff. lia.
  - intros (r & Hr & Hover). destruct (Hsign r Hr) as (z & Hz & Hiff).
    exists (Int z). split.
    + apply in_map_iff. exists r. split; [done | by apply list_elem_of_In].
    + cbn. apply Z.ltb_lt. apply Hiff in Hover. lia.
Qed.

(** X4.  Whenever [verification_data] returns, it has written no file and
    has only appended to the log, and it has logged its closing message
    [Post-cleaning validation passed] exactly when it has logged no ERROR
    entry. *)
Theorem verification_passes_iff_no_error df w w' :
  verification_data df w = (Ok tt, w') →
  files w' = files w ∧
  logs w' = logs w ++ new_entries w w' ∧
  ((INFO, Text "Post-cleaning validation passed: données cohérentes et propres.")
     ∈ new_entries w w' ↔
   ∀ e, e ∈ new_entries w w' → e.1 ≠ ERROR).
Proof.
  intros [_ ->]%verification_data_run. rewrite new_entries_app.
  split; [done|]. split; [done|]. unfold verification_report. cbv zeta.
  destruct (existsb negative_number _), (existsb blank (column df "BrandCode")),
    (existsb blank (column df "CategoryName")), (any (duplicated _)),
    (negb (forallb has_dash (rows df))); cbn [app orb];
    (split;
     [ intros Hin; first [ by log_cases | intros e He; log_cases; done ]
     | intros Hall;
       first [ in_list
             | exfalso; eapply Hall; [apply elem_of_cons; by left | reflexivity] ] ]).
Qed.

(** X5.  On the table that [clean_data] returns, [verification_data]
    returns normally and writes no file, and it logs the error about a
    negative stock exactly when some retained raw Stock is a number of 2^63
    or more, which the cast that follows the clamp turns into the smallest
    int64: no other Stock is reported. *)
Theorem negative_stock_error_means_overflow df w out w1 :
  clean_data df w = (Ok out, w1) →
  ∃ entries,
    verification_data out w1 = (Ok tt, mkWorld (logs w1 ++ entries) (files w1)) ∧
    ((ERROR, Text "Stock négatif détecté après nettoyage !") ∈ entries ↔
     ∃ r, r ∈ retained_inventory df ∧ stock_overflows r).
Proof.
  intros [Hver Hneg]%verification_after_clean.
  exists (verification_report out). split; [done|]. rewrite <- Hneg.
  unfold verification_report. cbv zeta.
  rewrite !elem_of_app, !in_optional. split.
  - intros [[Hn _]|[[_ [=]]|[[_ [=]]|[[_ [=]]|[[_ [=]]|Hin]]]]]; [done|].
    destruct (_ || _); log_cases.
  - intros Hn. left. by split.
Qed.

(** X6.  On the table that [clean_data] returns, [verification_data] logs
    the error about duplicate SKU codes exactly when the SKU codes of the
    table are not pairwise distinct, which is also exactly when [clean_data]
    has logged its warning [Duplicate SKU detected:]. *)
Theorem duplicate_error_matches_warning df w out w1 :
  clean_data df w = (Ok out, w1) →
  ∃ entries,
    verification_data out w1 = (Ok tt, mkWorld (logs w1 ++ entries) (files w1)) ∧
    ((ERROR, Text "Des SKU en doublon existent après nettoyage, ce qui est interdit dans un inventaire.")
       ∈ entries ↔ ¬ NoDup (sku_column (rows out))) ∧
    ((WARNING, Text "Duplicate SKU detected:") ∈ new_entries w w1 ↔
     ¬ NoDup (sku_column (rows out))).
Proof.
  intros Hrun.
  pose proof (verification_after_clean _ _ _ _ Hrun) as [Hver _].
  pose proof (clean_sku_text _ _ _ _ Hrun) as Htext.
  pose proof (duplicates_empty _ _ _ _ Hrun) as Hempty.
  pose proof (duplicated_false _ Htext) as Hdup.
  exists (verification_report out). split; [done|]. split.
  - unfold verification_report. cbv zeta.
    change (column out "SKU Code") with (sku_column (rows out)).
    rewrite !elem_of_app, !in_optional. split.
    + intros [[_ [=]]|[[_ [=]]|[[_ [=]]|[[Hany _]|[[_ [=]]|Hin]]]]].
      * intros Hnd. apply Hdup in Hnd. congruence.
      * destruct (_ || _); log_cases.
    + intros Hnd. do 3 right. left. split; [|done].
      apply not_false_iff_true. intros Hany. by apply Hnd, Hdup.
  - apply inventory_clean_data_run in Hrun as (_ & _ & _ & _ & Hlogs & _).
    cbv zeta in Hlogs. fold (sku_column (rows out)) in Hlogs.
    unfold new_entries. rewrite Hlogs, drop_app_length.
    destruct (empty _) eqn:E; cbn [app].
    + split; [intros Hin; log_cases | intros Hnd; exfalso; by apply Hnd, Hempty].
    + split; [|intros _; in_list].
      intros _ Hnd. apply Hempty in Hnd. congruence.
Qed.

(** X7.  When [clean_data] returns, a retained row whose Category is a text
    without [:] is in the clean table, with the trimmed Category as its
    BrandCode and without CategoryName (NaN), and [verification_data] logs
    the error about an empty CategoryName. *)
Theorem missing_category_name_is_reported df w out w1 r s :
  clean_data df w = (Ok out, w1) →
  r ∈ retained_inventory df →
  cell_at r "Category" = Txt s → contains_char ":" s = false →
  clean_inventory_row r ∈ rows out ∧
  cell_at (clean_inventory_row r) "BrandCode" = Txt (strip s) ∧
  cell_at (clean_inventory_row r) "CategoryName" = NA ∧
  ∃ entries,
    verification_data out w1 = (Ok tt, mkWorld (logs w1 ++ entries) (files w1)) ∧
    (ERROR, Text "Certaines lignes ont un CategoryName vide après nettoyage.")
      ∈ entries.
Proof.
  intros Hrun Hr Hs Hsep.
  pose proof (verification_after_clean _ _ _ _ Hrun) as [Hver _].
  apply inventory_clean_data_run in Hrun as (Hrows & _).
  assert (clean_inventory_row r ∈ rows out) as Hin.
  { rewrite Hrows. apply list_elem_of_In, in_map. by apply list_elem_of_In. }
  assert (cell_at (clean_inventory_row r) "CategoryName" = NA) as Hname.
  { rewrite name_clean, Hs. cbn [pieces]. by rewrite (split_no_sep _ _ Hsep). }
  split; [done|]. split; [|split; [done|]].
  { rewrite brand_clean, Hs. cbn [pieces]. by rewrite (split_no_sep _ _ Hsep). }
  exists (verification_report out). split; [done|].
  unfold verification_report. cbv zeta.
  rewrite !elem_of_app, !in_optional. do 2 right. left. split; [|done].
  apply existsb_exists. exists NA. split; [|done].
  unfold column. apply in_map_iff. exists (clean_inventory_row r).
  split; [done | by apply list_elem_of_In].
Qed.

End InventoryVerification.

Section InventoryPipeline.
Import CleanInventory.
Context `{Parsers}.

Lemma saves_to_bind {A B} path (m : M A) (k : A → M B) :
  read_only m → (∀ a, saves_to path (k a)) → saves_to path (bind m k).
Proof.
  intros Hm Hk w. unfold bind. destruct (Hm w) as [Hf [l Hl]].
  destruct (m w) as [[a|e] w1]; cbn in *.
  - destruct (Hk a w1) as [[l' Hl'] Hfiles]. split.
    + exists (l ++ l'). by rewrite Hl', Hl, app_assoc.
    + destruct ((k a w1).1); by rewrite <- Hf.
  - split; [eauto | done].
Qed.

Lemma saves_to_to_csv path lvl msg df :
  saves_to path (bind (log lvl msg) (λ _, to_csv df path)).
Proof. intros w. cbn. split; eauto. Qed.

Lemma inventory_run_saves_to self : saves_to (output_path self) (run self).
Proof.
  unfold run. cbv zeta.
  apply saves_to_bind; [apply inventory_load_read_only|]. intros df.
  apply saves_to_bind; [apply inventory_check_read_only|]. intros _.
  apply saves_to_bind; [apply inventory_validate_read_only|]. intros _.
  apply saves_to_bind; [apply inventory_clean_read_only|]. intros out.
  apply saves_to_bind; [apply inventory_verification_read_only|]. intros _.
  apply saves_to_to_csv.
Qed.

Lemma saves_to_outcome {A} path (m : M A) w :
  saves_to path m →
  (∃ entries, logs (m w).2 = logs w ++ entries) ∧
  (∀ e, (m w).1 = Raise e → files (m w).2 = files w) ∧
  (∀ a, (m w).1 = Ok a →
        ∃ df, files (m w).2 !! path = Some df ∧
              ∀ p, p ≠ path → files (m w).2 !! p = files w !! p).
Proof.
  intros Hm. destruct (Hm w) as [Hlogs Hfiles]. split; [done|]. split.
  - intros e He. by rewrite He in Hfiles.
  - intros a Ha. rewrite Ha in Hfiles. destruct Hfiles as [df ->].
    exists df. split; [by rewrite lookup_insert_eq|].
    intros p Hp. by rewrite lookup_insert_ne.
Qed.

(** X8.  Whatever the files are, [run] only appends to the log; when it
    raises, the files are as they were; when it returns, the output file
    exists and every other path holds what it held. *)
Theorem inventory_run_writes_only_output self w :
  (∃ entries, logs (run self w).2 = logs w ++ entries) ∧
  (∀ e, (run self w).1 = Raise e → files (run self w).2 = files w) ∧
  (∀ a, (run self w).1 = Ok a →
        ∃ out, files (run self w).2 !! output_path self = Some out ∧
               ∀ p, p ≠ output_path self → files (run self w).2 !! p = files w !! p).
Proof. apply saves_to_outcome, inventory_run_saves_to. Qed.

Lemma check_required_columns_ok df required_cols w :
  has_columns required_cols df →
  check_required_columns df required_cols w
  = (Ok tt, mkWorld (logs w ++ [(INFO, Text "Toutes les colonnes requises sont présentes.")])
              (files w)).
Proof.
  intros Hcols. unfold check_required_columns.
  by rewrite (proj2 (filter_missing_nil df required_cols) Hcols).
Qed.

(** What a [run] of the inventory cleaner that returns has done. *)
Lemma inventory_run_run self w w' :
  CleanInventory.run self w = (Ok tt, w') →
  ∃ df out w3 w4,
    files w !! CleanInventory.input_path self = Some df ∧
    CleanInventory.clean_data df w3 = (Ok out, w4) ∧
    files w' = <[CleanInventory.output_path self := out]> (files w).
Proof.
  unfold CleanInventory.run. cbv zeta.
  intros (df & w1 & Hload & Hrun)%bind_inv.
  assert (files w !! CleanInventory.input_path self = Some df ∧ files w1 = files w)
    as [Hfile Hf1].
  { unfold CleanInventory.load_data in Hload. rewrite bind_log in Hload.
    unfold bind, read_csv, ret in Hload. cbn [files] in Hload.
    destruct (files w !! CleanInventory.input_path self); [|discriminate].
    by injection Hload as <- <-. }
  apply bind_inv in Hrun as ([] & w2 & Hcheck & Hrun).
  apply (read_only_files _ _ _ _ (inventory_check_read_only _ _)) in Hcheck as Hf2.
  apply bind_inv in Hrun as ([] & w3 & Hval & Hrun).
  apply (read_only_files _ _ _ _ (inventory_validate_read_only _)) in Hval as Hf3.
  apply bind_inv in Hrun as (out & w4 & Hclean & Hrun).
  apply (read_only_files _ _ _ _ (inventory_clean_read_only _)) in Hclean as Hf4.
  apply bind_inv in Hrun as ([] & w5 & Hver & Hrun).
  apply (read_only_files _ _ _ _ (inventory_verification_read_only _)) in Hver as Hf5.
  unfold CleanInventory.save_data in Hrun. rewrite bind_log in Hrun.
  unfold to_csv in Hrun. injection Hrun as <-. cbn [files].
  exists df, out, w3, w4. split; [done|]. split; [done|]. congruence.
Qed.

(** X9.  Cleaning is not repeatable: the table that [clean_data] returns
    has no Category column, so a [run] whose raw file holds this table raises
    [Colonnes manquantes] with exactly [Category], and writes no file. *)
Theorem inventory_rerun_aborts self df w0 out w1 w :
  clean_data df w0 = (Ok out, w1) →
  files w !! input_path self = Some out →
  ∃ w', run self w = (Raise (ColonnesManquantes ["Category"]), w') ∧
        files w' = files w.
Proof.
  intros Hclean Hfile.
  pose proof (inventory_clean_data_columns _ _ _ _ Hclean) as [Hreq Hcols].
  assert (∀ c, c ∈ columns out ↔
               c ≠ "Category" ∧ (c ∈ columns df ∨ c = "BrandCode" ∨ c = "CategoryName"))
    as Hin.
  { intros c. rewrite Hcols, list_elem_of_In, filter_In, <- list_elem_of_In.
    rewrite !elem_of_with_column, negb_true_iff, bool_decide_eq_false.
    rewrite elem_of_cons, elem_of_nil. tauto. }
  assert (missing_columns out ["SKU Code"; "Design No."; "Category"; "Stock"]
          = ["Category"]) as Hmissing.
  { unfold missing_columns. cbn [List.filter].
    assert (has_column out "SKU Code" = true) as ->
      by (apply has_column_true, Hin; split; [done|]; left; apply Hreq; in_list).
    assert (has_column out "Design No." = true) as ->
      by (apply has_column_true, Hin; split; [done|]; left; apply Hreq; in_list).
    assert (has_column out "Stock" = true) as ->
      by (apply has_column_true, Hin; split; [done|]; left; apply Hreq; in_list).
    assert (has_column out "Category" = false) as ->; [|done].
    apply not_true_iff_false. rewrite has_column_true, Hin. tauto. }
  unfold run. unfold bind at 1. rewrite (load_data_ok _ _ _ Hfile).
  unfold bind at 1. rewrite check_required_columns_missing by by rewrite Hmissing.
  rewrite Hmissing. eexists. split; [reflexivity | done].
Qed.

(** X10.  When the raw file exists and holds the four required columns, with
    text in SKU Code and Category, the Stock of the retained rows converts
    and some retained Category holds a [:], [run] returns and has saved under
    the output path a table whose rows are the clean rows of the retained
    rows, in order, whatever [verification_data] reports; no other file
    changes. *)
Theorem inventory_run_saves_clean_table self df w r s :
  files w !! input_path self = Some df →
  has_columns ["SKU Code"; "Design No."; "Category"; "Stock"] df →
  text_columns ["SKU Code"; "Category"] df →
  Forall stock_ok (retained_inventory df) →
  r ∈ retained_inventory df → cell_at r "Category" = Txt s →
  contains_char ":" s = true →
  ∃ out w',
    run self w = (Ok tt, w') ∧
    files w' = <[output_path self := out]> (files w) ∧
    rows out = map clean_inventory_row (retained_inventory df).
Proof.
  intros Hfile Hcols _ Hstock Hr Hs Hsep. unfold run. cbv zeta.
  rewrite (bind_value _ _ _ _ _ (load_data_ok _ _ _ Hfile)).
  rewrite (bind_value _ _ _ _ _ (check_required_columns_ok _ _ _ Hcols)).
  rewrite (bind_value _ _ _ _ _ (inventory_validate_types_returns _ _ Hcols)).
  match goal with |- context [bind (clean_data df) _ ?w1] =>
    destruct (inventory_clean_data_returns df w1 r s Hcols Hstock Hr Hs Hsep)
      as (out & w2 & Hclean)
  end.
  rewrite (bind_value _ _ _ _ _ Hclean).
  pose proof (verification_after_clean _ _ _ _ Hclean) as [Hver _].
  rewrite (bind_value _ _ _ _ _ Hver).
  unfold save_data. rewrite bind_log. unfold to_csv. cbn [files logs].
  exists out. eexists. split; [reflexivity|].
  pose proof (inventory_clean_data_run _ _ _ _ Hclean) as (Hrows & _ & _ & _ & _ & Hfiles).
  split; [|done]. cbn [files]. by rewrite Hfiles.
Qed.

(** X11.  [clean_data] never returns an empty table: a table that it
    returns has at least one row, and on a raw table without any row (a
    file that holds its header only) the expanded split has no column, so
    that [clean_data] raises the KeyError of the lookup of its first column
    and writes no file. *)
Theorem empty_inventory_raises df w :
  (∀ out w', clean_data df w = (Ok out, w') → rows out ≠ []) ∧
  (has_columns ["SKU Code"; "Design No."; "Category"; "Stock"] df →
   rows df = [] →
   ∃ w', clean_data df w = (Raise (KeyError (Pos 0)), w') ∧ files w' = files w).
Proof.
  split.
  - intros out w' (Hrows & _ & Hw & _)%inventory_clean_data_run.
    rewrite Hrows. destruct (retained_inventory df); [cbn in Hw; lia | done].
  - intros Hcols Hrows.
    assert (retained_inventory df = []) as Hnone
      by (unfold retained_inventory; by rewrite Hrows).
    pose proof (inventory_clean_data_outcome df w Hcols) as Hout.
    rewrite Hnone in Hout. destruct (Hout ltac:(constructor)) as [w' Hrun].
    exists w'. split; [done|].
    exact (read_only_files _ _ _ _ (inventory_clean_read_only df) Hrun).
Qed.

End InventoryPipeline.

Section SalesValidate.
Import CleanSales.
Context `{Parsers}.

Lemma existsb_map_comp {A B} (f : B → bool) (g : A → B) l :
  existsb f (map g l) = existsb (λ x, f (g x)) l.
Proof. induction l as [|x l IH]; cbn; [done|]. by rewrite IH. Qed.

Lemma sales_validate_types_returns df w :
  has_columns ["SKU Code"; "Quantity"; "Date"] df →
  validate_types df w = (Ok tt, mkWorld (logs w ++ sales_type_warnings df) (files w)).
Proof.
  intros Hcols. unfold validate_types. cbv zeta.
  rewrite (getitem_total df "Quantity") by (apply Hcols; in_list).
  rewrite (getitem_total df "SKU Code") by (apply Hcols; in_list).
  rewrite (getitem_total df "Date") by (apply Hcols; in_list).
  repeat (rewrite bind_lift_Ok || rewrite bind_when || rewrite lt_scalar_str_len).
  rewrite when_log. cbn [logs files]. rewrite <- !app_assoc.
  unfold sales_type_warnings, column, to_datetime_coerce.
  by rewrite !any_map, !existsb_map_comp.
Qed.

Lemma sales_validate_types_run df w w' :
  validate_types df w = (Ok tt, w') →
  has_columns ["SKU Code"; "Quantity"; "Date"] df ∧
  w' = mkWorld (logs w ++ sales_type_warnings df) (files w).
Proof.
  intros Hrun.
  assert (has_columns ["SKU Code"; "Quantity"; "Date"] df) as Hcols.
  { unfold validate_types in Hrun.
    apply bind_lift_inv in Hrun as (quantity & [Hquantity _]%getitem_ok & Hrun).
    rewrite bind_when in Hrun.
    apply bind_lift_inv in Hrun as (sku & [Hsku _]%getitem_ok & Hrun).
    rewrite bind_when in Hrun.
    apply bind_lift_inv in Hrun as (date & [Hdate _]%getitem_ok & _).
    intros c. rewrite !elem_of_cons, elem_of_nil.
    intros [->|[->|[->|[]]]]; done. }
  split; [done|]. rewrite (sales_validate_types_returns df w Hcols) in Hrun.
  by injection Hrun as <-.
Qed.

(** X12.  On a raw sales table that has the three required columns, with
    text in SKU Code, [validate_types] never raises and never touches a file:
    it only appends WARNING entries, and the warning about invalid dates is
    among them exactly when the Date of some row does not parse (a missing
    Date included). *)
Theorem sales_validate_types_only_warns df w :
  has_columns ["SKU Code"; "Quantity"; "Date"] df →
  text_columns ["SKU Code"] df →
  ∃ entries,
    validate_types df w = (Ok tt, mkWorld (logs w ++ entries) (files w)) ∧
    Forall (λ e, e.1 = WARNING) entries ∧
    ((WARNING, Text "Certaines valeurs de 'Date' sont invalides ou mal formatées.")
       ∈ entries ↔
     ∃ r, r ∈ rows df ∧ to_datetime_cell (column df "Date") (cell_at r "Date") = None).
Proof.
  intros Hcols _. exists (sales_type_warnings df).
  split; [by apply sales_validate_types_returns|].
  unfold sales_type_warnings. split.
  - repeat (apply Forall_app; split); by apply Forall_optional.
  - rewrite !elem_of_app, !in_optional. split.
    + intros [[_ [=]]|[[_ [=]]|[[Hex _]|[_ [=]]]]].
      apply existsb_exists in Hex as (c & Hc & Hna).
      unfold column in Hc at 1. apply in_map_iff in Hc as (r & <- & Hr).
      exists r. split; [by apply list_elem_of_In|].
      unfold date_cell in Hna. by destruct (to_datetime_cell _ _).
    + intros (r & Hr & Hnone). do 2 right. left. split; [|done].
      apply existsb_exists. exists (cell_at r "Date"). split.
      * unfold column at 1. apply (in_map (λ r, cell_at r "Date")).
        by apply list_elem_of_In.
      * unfold date_cell. by rewrite Hnone.
Qed.

End SalesValidate.

Section SalesShape.
Import CleanSales.
Context `{Parsers}.

Lemma columns_setitem_same df c col x :
  getitem df c = Ok x → columns (setitem df c col) = columns df.
Proof. intros [Hc _]%getitem_ok. by rewrite columns_setitem_eq, with_column_present. Qed.

(** The labels of the table that [clean_data] returns. *)
Lemma sales_clean_data_columns df_sales df_inventory w out w' :
  clean_data df_sales df_inventory w = (Ok out, w') →
  has_columns ["SKU Code"; "Quantity"; "Date"] df_sales ∧
  columns out = columns df_sales ∧
  "SKU Code" ∈ columns df_inventory.
Proof.
  unfold clean_data. rewrite bind_log.
  intros (df1 & (Hreq & Hc1 & _)%dropna_subset_ok & Hrun)%bind_lift_inv.
  cbn [columns dropna_all] in Hreq, Hc1.
  apply bind_lift_inv in Hrun as (date & Hdate & Hrun).
  pose proof (columns_setitem_same df1 "Date" (to_datetime_coerce date) _ Hdate) as Hc2.
  set (df2 := setitem df1 "Date" _) in *. rewrite Hc1 in Hc2. clearbody df2.
  clear Hdate Hc1.
  apply bind_lift_inv in Hrun as (df3 & (_ & Hc3 & _)%dropna_subset_ok & Hrun).
  rewrite Hc2 in Hc3. clear Hc2.
  apply bind_lift_inv in Hrun as (q & Hq & Hrun).
  pose proof (columns_setitem_same df3 "Quantity" (to_numeric_coerce q) _ Hq) as Hc4.
  set (df4 := setitem df3 "Quantity" _) in *. rewrite Hc3 in Hc4. clearbody df4.
  clear Hq Hc3.
  apply bind_lift_inv in Hrun as (q4 & Hq4 & Hrun).
  apply bind_lift_inv in Hrun as (q' & _ & Hrun).
  pose proof (columns_setitem_same df4 "Quantity" q' _ Hq4) as Hc5.
  set (df5 := setitem df4 "Quantity" _) in *. rewrite Hc4 in Hc5. clearbody df5.
  clear Hq4 Hc4.
  apply bind_lift_inv in Hrun as (sku & Hsku & Hrun).
  pose proof (columns_setitem_same df5 "SKU Code" (str_upper (str_strip sku)) _ Hsku)
    as Hc6.
  set (df6 := setitem df5 "SKU Code" _) in *. rewrite Hc5 in Hc6. clearbody df6.
  clear Hsku Hc5.
  apply bind_lift_inv in Hrun as (q6 & Hq6 & Hrun).
  apply bind_lift_inv in Hrun as (negative & _ & Hrun).
  assert (∃ df7 w7,
    columns df7 = columns df_sales ∧
    (let* inventory_sku := lift (getitem df_inventory "SKU Code") in
     let* sku0 := lift (getitem df7 "SKU Code") in
     when (0 <? len df7 - len (where_ df7 (isin (dropna inventory_sku) sku0)))%nat
       (log WARNING
          (CountText (len df7 - len (where_ df7 (isin (dropna inventory_sku) sku0)))
             " lignes supprimées car SKU non trouvés dans Inventory_clean."));;
     ret (where_ df7 (isin (dropna inventory_sku) sku0))) w7 = (Ok out, w'))
    as (df7 & w7 & Hc7 & Hrun').
  { destruct (any negative).
    - rewrite bind_assoc, bind_log, bind_assoc in Hrun.
      apply bind_lift_inv in Hrun as (q7 & Hq7 & Hrun).
      rewrite bind_assoc in Hrun.
      apply bind_lift_inv in Hrun as (clipped & _ & Hrun).
      rewrite bind_ret in Hrun.
      eexists _, _. split; [|exact Hrun].
      by rewrite (columns_setitem_same _ _ _ _ Hq7).
    - rewrite bind_ret in Hrun. exists df6. eexists. split; [done | exact Hrun]. }
  apply bind_lift_inv in Hrun' as (inv_sku & [Hinv _]%getitem_ok & Hrun').
  apply bind_lift_inv in Hrun' as (sku0 & _ & Hrun').
  rewrite bind_when in Hrun'. unfold ret in Hrun'. injection Hrun' as <- _.
  split; [|by split].
  intros c Hc. apply Hreq. done.
Qed.

Lemma dated_sales_date r df :
  r ∈ dated_sales df →
  ∃ r0 t, r0 ∈ retained_sales df ∧
    to_datetime_cell (map (λ r, cell_at r "Date") (retained_sales df))
      (cell_at r0 "Date") = Some t ∧
    r = <["Date" := TS t]> r0.
Proof.
  unfold dated_sales. cbv zeta.
  intros [(r0 & <- & Hr0)%in_map_iff Hna]%list_elem_of_In%filter_In.
  rewrite cell_at_insert in Hna. unfold date_cell in *.
  destruct (to_datetime_cell _ _) as [t|] eqn:Ht; [|done].
  exists r0, t. by rewrite list_elem_of_In.
Qed.

Lemma clean_sales_row_other r c :
  c ≠ "Quantity" → c ≠ "SKU Code" → cell_at (clean_sales_row r) c = cell_at r c.
Proof.
  intros Hq Hs. unfold clean_sales_row, with_clamp, with_sku, with_int, with_numeric.
  by rewrite !cell_at_insert_ne.
Qed.

(** Where a row of the clean sales table comes from. *)
Lemma clean_sales_row_origin df_sales df_inventory w out w' r' :
  clean_data df_sales df_inventory w = (Ok out, w') → r' ∈ rows out →
  ∃ d, d ∈ dated_sales df_sales ∧ r' = clean_sales_row d ∧ quantity_ok d ∧
       in_inventory df_inventory r' = true.
Proof.
  intros (Hrows & Hall & _)%sales_clean_data_run Hr'. rewrite Hrows in Hr'.
  apply list_elem_of_In, filter_In in Hr' as [Hr' Hin]. unfold normalized_sales in Hr'.
  apply in_map_iff in Hr' as (d & <- & Hd%list_elem_of_In).
  exists d. rewrite Forall_forall in Hall. auto.
Qed.

(** X13.  Every row of the table that [clean_data] returns comes from a
    retained raw row whose Date parses: its Date is the valid timestamp
    parsed, and its cells outside Date, Quantity and SKU Code are those of
    the raw row. *)
Theorem clean_sales_are_dated df_sales df_inventory w out w' :
  clean_data df_sales df_inventory w = (Ok out, w') →
  ∀ r', r' ∈ rows out →
    ∃ r t, r ∈ retained_sales df_sales ∧
      to_datetime_cell (map (λ r, cell_at r "Date") (retained_sales df_sales))
        (cell_at r "Date") = Some t ∧
      valid_timestamp t = true ∧
      cell_at r' "Date" = TS t ∧
      ∀ c, c ∉ sales_rewritten → cell_at r' c = cell_at r c.
Proof.
  intros Hrun r' Hr'.
  destruct (clean_sales_row_origin _ _ _ _ _ _ Hrun Hr') as (d & Hd & -> & _).
  apply dated_sales_date in Hd as (r & t & Hr & Ht & ->).
  exists r, t. split; [done|]. split; [done|].
  split; [exact (to_datetime_cell_valid _ _ _ Ht)|]. split.
  - rewrite clean_sales_row_other by done. apply cell_at_insert.
  - intros c. unfold sales_rewritten. rewrite !elem_of_cons, elem_of_nil. intros Hc.
    rewrite clean_sales_row_other by (intros ->; tauto).
    apply cell_at_insert_ne. intros <-. tauto.
Qed.

End SalesShape.

Section SalesPostValidation.
Import CleanSales.
Context `{Parsers}.

Lemma gt_scalar_ok k col mask :
  gt_scalar k col = Ok mask →
  mask = map (λ c, match c with Num x => number_gtb x k | _ => false end) col.
Proof.
  intros Hm%mapM_ok. induction Hm as [|c b col mask Hc _ ->]; [done|].
  cbn. f_equal. destruct c; cbn in Hc; congruence.
Qed.

Lemma gt_timestamp_ok t col mask :
  gt_timestamp t col = Ok mask →
  mask = map (λ c, match c with TS d => timestamp_ltb t d | _ => false end) col.
Proof.
  intros Hm%mapM_ok. induction Hm as [|c b col mask Hc _ ->]; [done|].
  cbn. f_equal. destruct c; cbn in Hc; congruence.
Qed.

Lemma post_validation_returns today df w negative future high :
  has_columns ["Quantity"; "Date"; "SKU Code"] df →
  lt_scalar 0 (column df "Quantity") = Ok negative →
  gt_timestamp today (column df "Date") = Ok future →
  gt_scalar 5000 (column df "Quantity") = Ok high →
  post_validation today df w
  = (Ok tt, mkWorld (logs w ++ post_validation_report today df) (files w)).
Proof.
  intros Hcols Hneg Hfut Hhigh. unfold post_validation. cbv zeta.
  rewrite (getitem_total df "Quantity") by (apply Hcols; in_list).
  rewrite (getitem_total df "Date") by (apply Hcols; in_list).
  rewrite (getitem_total df "SKU Code") by (apply Hcols; in_list).
  fold (column df "Quantity") (column df "Date") (column df "SKU Code").
  rewrite bind_lift_Ok, Hneg.
  repeat (rewrite bind_lift_Ok || rewrite bind_branch || rewrite bind_when
          || rewrite Hfut || rewrite Hhigh).
  rewrite when_log. cbn [logs files]. rewrite <- !app_assoc.
  rewrite (lt_scalar_negative _ _ Hneg), !any_blank, !any_map.
  rewrite (gt_scalar_ok _ _ _ Hhigh), any_map.
  rewrite (gt_timestamp_ok _ _ _ Hfut).
  unfold post_validation_report. cbv zeta.
  assert (where_ df (map (λ c, match c with
                               | TS d => timestamp_ltb today d
                               | _ => false
                               end) (column df "Date"))
          = mkDataFrame (columns df) (List.filter (in_future today) (rows df))) as ->.
  { unfold where_, column. rewrite map_map. f_equal.
    apply (select_map_filter (in_future today)). }
  fold high_number.
  do 6 f_equal.
  destruct (existsb negative_number _), (existsb isna _), (existsb blank _); reflexivity.
Qed.

Lemma post_validation_run today df w w' :
  post_validation today df w = (Ok tt, w') →
  has_columns ["Quantity"; "Date"; "SKU Code"] df ∧
  w' = mkWorld (logs w ++ post_validation_report today df) (files w).
Proof.
  intros Hrun.
  assert (has_columns ["Quantity"; "Date"; "SKU Code"] df ∧
          ∃ negative future high,
            lt_scalar 0 (column df "Quantity") = Ok negative ∧
            gt_timestamp today (column df "Date") = Ok future ∧
            gt_scalar 5000 (column df "Quantity") = Ok high)
    as (Hcols & negative & future & high & Hneg & Hfut & Hhigh).
  { unfold post_validation in Hrun. cbv zeta in Hrun.
    apply bind_lift_inv in Hrun as (quantity & [Hq ->]%getitem_ok & Hrun).
    apply bind_lift_inv in Hrun as (negative & Hneg & Hrun).
    rewrite bind_branch in Hrun.
    apply bind_lift_inv in Hrun as (date & [Hd ->]%getitem_ok & Hrun).
    rewrite bind_branch in Hrun.
    apply bind_lift_inv in Hrun as (date' & [_ ->]%getitem_ok & Hrun).
    apply bind_lift_inv in Hrun as (future & Hfut & Hrun).
    rewrite bind_when in Hrun.
    apply bind_lift_inv in Hrun as (sku & [Hs _]%getitem_ok & Hrun).
    rewrite bind_branch in Hrun.
    apply bind_lift_inv in Hrun as (quantity' & [_ ->]%getitem_ok & Hrun).
    apply bind_lift_inv in Hrun as (high & Hhigh & _).
    split; [|by exists negative, future, high].
    intros c. rewrite !elem_of_cons, elem_of_nil.
    intros [->|[->|[->|[]]]]; done. }
  split; [done|].
  rewrite (post_validation_returns today df w _ _ _ Hcols Hneg Hfut Hhigh) in Hrun.
  by injection Hrun as <-.
Qed.

(** X14.  Whenever [post_validation] returns, it has written no file and
    has only appended to the log, and it has logged its closing message
    [Post-cleaning validation passed] exactly when it has logged no ERROR
    entry. *)
Theorem post_validation_passes_iff_no_error today df w w' :
  post_validation today df w = (Ok tt, w') →
  files w' = files w ∧
  logs w' = logs w ++ new_entries w w' ∧
  ((INFO, Text "Post-cleaning validation passed: données cohérentes et exploitables.")
     ∈ new_entries w w' ↔
   ∀ e, e ∈ new_entries w w' → e.1 ≠ ERROR).
Proof.
  intros [_ ->]%post_validation_run. rewrite new_entries_app.
  split; [done|]. split; [done|]. unfold post_validation_report. cbv zeta.
  destruct (existsb negative_number _), (existsb isna _), (existsb blank _),
    (negb (empty _)), (existsb high_number _); cbn [app orb];
    (split;
     [ intros Hin; first [ by log_cases | intros e He; log_cases; done ]
     | intros Hall;
       first [ in_list
             | exfalso; eapply Hall; [apply elem_of_cons; by left | reflexivity]
             | exfalso; eapply Hall;
               [apply elem_of_cons; right; apply elem_of_cons; by left | reflexivity] ] ]).
Qed.

Lemma gt_scalar_total k col :
  Forall (λ c, ∃ z, c = Int z) col → ∃ mask, gt_scalar k col = Ok mask.
Proof.
  intros Hall. apply mapM_total. eapply Forall_impl; [exact Hall|].
  intros c [z ->]. cbn. eauto.
Qed.

Lemma gt_timestamp_total t col :
  Forall (λ c, ∃ d, c = TS d) col → ∃ mask, gt_timestamp t col = Ok mask.
Proof.
  intros Hall. apply mapM_total. eapply Forall_impl; [exact Hall|].
  intros c [d ->]. cbn. eauto.
Qed.

(** [post_validation] on the table that [clean_data] returns. *)
Lemma post_validation_after_clean today df_sales df_inventory w out w1 :
  clean_data df_sales df_inventory w = (Ok out, w1) →
  post_validation today out w1
  = (Ok tt, mkWorld (logs w1 ++ post_validation_report today out) (files w1)) ∧
  existsb negative_number (column out "Quantity") = false ∧
  existsb isna (column out "Date") = false.
Proof.
  intros Hrun.
  pose proof (sales_clean_data_columns _ _ _ _ _ Hrun) as (Hreq & Hcols & _).
  assert (has_columns ["Quantity"; "Date"; "SKU Code"] out) as Hhas.
  { intros c Hc. rewrite Hcols. apply Hreq. revert Hc.
    rewrite !elem_of_cons, !elem_of_nil. tauto. }
  assert (Forall (λ c, ∃ z, c = Int z ∧ 0 <= z) (column out "Quantity")) as Hq.
  { apply Forall_map_intro. intros r Hr.
    destruct (clean_sales_row_origin _ _ _ _ _ _ Hrun Hr) as (d & _ & -> & Hok & _).
    destruct (clean_sales_row_quantity d Hok) as (z & Hz & Hpos & _). eauto. }
  assert (Forall (λ c, ∃ d, c = TS d) (column out "Date")) as Hd.
  { apply Forall_map_intro. intros r Hr.
    destruct (clean_sales_row_origin _ _ _ _ _ _ Hrun Hr) as (d & Hd & -> & _).
    apply dated_sales_date in Hd as (r0 & t & _ & _ & ->).
    exists t. rewrite clean_sales_row_other by done. apply cell_at_insert. }
  assert (Forall (λ c, ∃ z, c = Int z) (column out "Quantity")) as Hq'.
  { eapply Forall_impl; [exact Hq|]. intros c (z & -> & _). eauto. }
  destruct (lt_scalar_total 0 _ Hq') as [negative Hneg].
  destruct (gt_scalar_total 5000 _ Hq') as [high Hhigh].
  destruct (gt_timestamp_total today _ Hd) as [future Hfut].
  split; [exact (post_validation_returns today out w1 _ _ _ Hhas Hneg Hfut Hhigh)|].
  split; apply not_true_iff_false; intros (c & Hc%list_elem_of_In & Hbad)%existsb_exists.
  - rewrite Forall_forall in Hq. destruct (Hq c Hc) as (z & -> & Hz).
    cbn in Hbad. apply Z.ltb_lt in Hbad. lia.
  - rewrite Forall_forall in Hd. by destruct (Hd c Hc) as (d & ->).
Qed.


End SalesPostValidation.

Section SalesPipeline.
Import CleanSales.
Context `{Parsers}.

Lemma saves_to_save_data self df : saves_to (output_path self) (save_data self df).
Proof. apply saves_to_to_csv. Qed.

Lemma sales_run_saves_to self today : saves_to (output_path self) (run self today).
Proof.
  unfold run. cbv zeta.
  apply saves_to_bind; [apply sales_load_read_only|]. intros [df_sales df_inventory].
  apply saves_to_bind; [apply sales_check_read_only|]. intros _.
  apply saves_to_bind; [apply sales_validate_read_only|]. intros _.
  apply saves_to_bind; [apply sales_clean_read_only|]. intros out.
  apply saves_to_bind; [apply sales_post_read_only|]. intros _.
  apply saves_to_save_data.
Qed.

(** X16.  Whatever the files are, [run] only appends to the log; when it
    raises, the files are as they were; when it returns, the output file
    exists and every other path holds what it held. *)
Theorem sales_run_writes_only_output self today w :
  (∃ entries, logs (run self today w).2 = logs w ++ entries) ∧
  (∀ e, (run self today w).1 = Raise e → files (run self today w).2 = files w) ∧
  (∀ a, (run self today w).1 = Ok a →
        ∃ out, files (run self today w).2 !! output_path self = Some out ∧
               ∀ p, p ≠ output_path self →
                    files (run self today w).2 !! p = files w !! p).
Proof. apply saves_to_outcome, sales_run_saves_to. Qed.

Lemma sales_load_data_ok self w df_sales df_inventory :
  files w !! sales_path self = Some df_sales →
  files w !! inventory_path self = Some df_inventory →
  load_data self w
  = (Ok (df_sales, df_inventory),
     mkWorld (logs w ++ [(INFO, Text "Chargement des fichiers Sales_raw et Inventory_clean...")])
       (files w)).
Proof.
  intros Hs Hi. unfold load_data. rewrite bind_log.
  unfold bind, read_csv, ret. cbn [files]. rewrite Hs. cbn [files]. by rewrite Hi.
Qed.

Lemma sales_load_data_run self w loaded w1 :
  load_data self w = (Ok loaded, w1) →
  files w !! sales_path self = Some loaded.1 ∧
  files w !! inventory_path self = Some loaded.2 ∧
  files w1 = files w.
Proof.
  unfold load_data. rewrite bind_log. unfold bind, read_csv, ret. cbn [files].
  destruct (files w !! sales_path self) as [s|]; [|discriminate]. cbn [files].
  destruct (files w !! inventory_path self) as [i|]; [|discriminate].
  by intros [= <- <-].
Qed.

Lemma sales_check_required_columns_ok df required_cols w :
  has_columns required_cols df →
  check_required_columns df required_cols w
  = (Ok tt, mkWorld (logs w ++ [(INFO, Text "Toutes les colonnes requises sont présentes.")])
              (files w)).
Proof.
  intros Hcols. unfold check_required_columns.
  by rewrite (proj2 (filter_missing_nil df required_cols) Hcols).
Qed.

Lemma sales_check_required_columns_missing df required_cols w :
  missing_columns df required_cols ≠ [] →
  check_required_columns df required_cols w
  = (Raise (ColonnesManquantes (missing_columns df required_cols)),
     mkWorld (logs w ++ [(ERROR, TextList "Colonnes manquantes : "
                                   (missing_columns df required_cols))]) (files w)).
Proof.
  unfold check_required_columns.
  fold (missing_columns df required_cols).
  destruct (missing_columns df required_cols); [done|]. intros _.
  by rewrite bind_log.
Qed.

(** What a [run] of the sales cleaner that returns has done. *)
Lemma sales_run_run self today w w' :
  CleanSales.run self today w = (Ok tt, w') →
  ∃ df_sales df_inventory out w3 w4,
    files w !! CleanSales.sales_path self = Some df_sales ∧
    files w !! CleanSales.inventory_path self = Some df_inventory ∧
    CleanSales.clean_data df_sales df_inventory w3 = (Ok out, w4) ∧
    files w' = <[CleanSales.output_path self := out]> (files w).
Proof.
  unfold CleanSales.run. cbv zeta.
  intros ([df_sales df_inventory] & w1 & Hload & Hrun)%bind_inv.
  apply sales_load_data_run in Hload as (Hs & Hi & Hf1). cbn [fst snd] in Hs, Hi.
  apply bind_inv in Hrun as ([] & w2 & Hcheck & Hrun).
  apply (read_only_files _ _ _ _ (sales_check_read_only _ _)) in Hcheck as Hf2.
  apply bind_inv in Hrun as ([] & w3 & Hval & Hrun).
  apply (read_only_files _ _ _ _ (sales_validate_read_only _)) in Hval as Hf3.
  apply bind_inv in Hrun as (out & w4 & Hclean & Hrun).
  apply (read_only_files _ _ _ _ (sales_clean_read_only _ _)) in Hclean as Hf4.
  apply bind_inv in Hrun as ([] & w5 & Hpost & Hrun).
  apply (read_only_files _ _ _ _ (sales_post_read_only _ _)) in Hpost as Hf5.
  unfold CleanSales.save_data in Hrun. rewrite bind_log in Hrun.
  unfold to_csv in Hrun. injection Hrun as <-. cbn [files].
  exists df_sales, df_inventory, out, w3, w4.
  split; [done|]. split; [done|]. split; [done|]. congruence.
Qed.

(** X17.  When [run] returns, both input files existed, the only file
    written is the output file, and the table saved holds the normalised
    sales whose SKU Code is in the inventory file: each of its rows has a SKU
    Code of the inventory, a non-negative integer Quantity and a valid
    timestamp as Date. *)
Theorem sales_run_saves_referenced_sales self today w w' :
  run self today w = (Ok tt, w') →
  ∃ df_sales df_inventory out,
    files w !! sales_path self = Some df_sales ∧
    files w !! inventory_path self = Some df_inventory ∧
    files w' = <[output_path self := out]> (files w) ∧
    rows out = List.filter (in_inventory df_inventory) (normalized_sales df_sales) ∧
    ∀ r, r ∈ rows out →
      cell_at r "SKU Code" ∈ valid_skus df_inventory ∧
      (∃ z, cell_at r "Quantity" = Int z ∧ 0 <= z) ∧
      (∃ t, cell_at r "Date" = TS t ∧ valid_timestamp t = true).
Proof.
  intros (df_sales & df_inventory & out & w3 & w4 & Hs & Hi & Hclean & Hfiles)%sales_run_run.
  exists df_sales, df_inventory, out. split; [done|]. split; [done|]. split; [done|].
  pose proof (sales_clean_data_run _ _ _ _ _ Hclean) as (Hrows & _).
  split; [done|]. intros r Hr.
  destruct (clean_sales_row_origin _ _ _ _ _ _ Hclean Hr) as (d & Hd & -> & Hok & Hin).
  split; [|split].
  - apply in_inventory_true; [|done]. rewrite sku_clean_sales. apply normalize_sku_text.
  - destruct (clean_sales_row_quantity d Hok) as (z & Hz & Hpos & _). eauto.
  - apply dated_sales_date in Hd as (r0 & t & _ & Ht & ->).
    exists t. split; [|exact (to_datetime_cell_valid _ _ _ Ht)].
    rewrite clean_sales_row_other by done. apply cell_at_insert.
Qed.

(** [run] returns when both files are there, the sales table has its
    columns, the inventory has its SKU Code column and the quantities
    convert. *)
Lemma sales_run_returns self today w df_sales df_inventory :
  files w !! sales_path self = Some df_sales →
  files w !! inventory_path self = Some df_inventory →
  has_columns ["SKU Code"; "Quantity"; "Date"] df_sales →
  "SKU Code" ∈ columns df_inventory →
  Forall quantity_ok (dated_sales df_sales) →
  ∃ w', run self today w = (Ok tt, w').
Proof.
  intros Hs Hi Hcols Hinv Hq. unfold run. cbv zeta.
  rewrite (bind_value _ _ _ _ _ (sales_load_data_ok _ _ _ _ Hs Hi)).
  rewrite (bind_value _ _ _ _ _ (sales_check_required_columns_ok _ _ _ Hcols)).
  rewrite (bind_value _ _ _ _ _ (sales_validate_types_returns _ _ Hcols)).
  match goal with |- context [bind (clean_data df_sales df_inventory) _ ?w1] =>
    destruct (sales_clean_data_returns df_sales df_inventory w1 Hcols Hinv Hq)
      as (out & w2 & Hclean)
  end.
  rewrite (bind_value _ _ _ _ _ Hclean).
  pose proof (post_validation_after_clean today _ _ _ _ _ Hclean) as (Hpost & _).
  rewrite (bind_value _ _ _ _ _ Hpost).
  unfold save_data. rewrite bind_log. unfold to_csv. eexists. reflexivity.
Qed.

(** X18.  When both files exist and the raw sales table lacks one of SKU
    Code, Quantity and Date, [run] raises [Colonnes manquantes] with exactly
    the absent required columns; no file is written and the log holds only
    the loading message and the error. *)
Theorem sales_missing_required_columns_abort self today w df_sales df_inventory :
  files w !! sales_path self = Some df_sales →
  files w !! inventory_path self = Some df_inventory →
  (∃ c, c ∈ ["SKU Code"; "Quantity"; "Date"] ∧ c ∉ columns df_sales) →
  let missing := missing_columns df_sales ["SKU Code"; "Quantity"; "Date"] in
  (∀ c, c ∈ missing ↔ c ∈ ["SKU Code"; "Quantity"; "Date"] ∧ c ∉ columns df_sales) ∧
  ∃ w', run self today w = (Raise (ColonnesManquantes missing), w') ∧
        files w' = files w ∧
        logs w' = logs w ++
          [(INFO, Text "Chargement des fichiers Sales_raw et Inventory_clean...");
           (ERROR, TextList "Colonnes manquantes : " missing)].
Proof.
  intros Hs Hi (c & Hc & Hnot) missing.
  assert (∀ c, c ∈ missing ↔ c ∈ ["SKU Code"; "Quantity"; "Date"] ∧ c ∉ columns df_sales)
    as Hmissing.
  { intros c'. unfold missing, missing_columns.
    rewrite list_elem_of_In, filter_In, <- list_elem_of_In.
    rewrite negb_true_iff, <- not_true_iff_false, has_column_true. done. }
  assert (missing ≠ []) as Hne.
  { intros E. assert (c ∈ missing) as Hin by by apply Hmissing.
    rewrite E in Hin. by apply elem_of_nil in Hin. }
  split; [done|].
  unfold run. cbv zeta.
  rewrite (bind_value _ _ _ _ _ (sales_load_data_ok _ _ _ _ Hs Hi)).
  unfold bind at 1. rewrite (sales_check_required_columns_missing _ _ _ Hne).
  eexists. split; [reflexivity|]. split; [done|]. cbn. by rewrite <- app_assoc.
Qed.

Lemma sales_load_data_missing self w :
  files w !! sales_path self = None ∨ files w !! inventory_path self = None →
  ∃ path,
    load_data self w
    = (Raise (FileNotFoundError path),
       mkWorld (logs w ++ [(INFO, Text "Chargement des fichiers Sales_raw et Inventory_clean...")])
         (files w)) ∧
    (path = sales_path self ∨ path = inventory_path self) ∧
    files w !! path = None.
Proof.
  intros Hmiss. unfold load_data. rewrite bind_log.
  unfold bind, read_csv, ret. cbn [files].
  destruct (files w !! sales_path self) as [s|] eqn:Hs; cbn [files].
  - destruct Hmiss as [[=]|Hi]. rewrite Hi. exists (inventory_path self). auto.
  - exists (sales_path self). auto.
Qed.

(** X19.  When the sales file or the inventory file is missing, [run]
    raises FileNotFoundError for one of the two that is missing, right after
    the loading message; no file is written. *)
Theorem sales_run_needs_both_files self today w :
  files w !! sales_path self = None ∨ files w !! inventory_path self = None →
  ∃ path w',
    run self today w = (Raise (FileNotFoundError path), w') ∧
    (path = sales_path self ∨ path = inventory_path self) ∧
    files w !! path = None ∧
    files w' = files w ∧
    logs w' = logs w ++
      [(INFO, Text "Chargement des fichiers Sales_raw et Inventory_clean...")].
Proof.
  intros (path & Hload & Hpath & Hnone)%sales_load_data_missing.
  exists path. unfold run. cbv zeta. unfold bind at 1. rewrite Hload.
  eexists. split; [reflexivity|]. auto.
Qed.

(** X20.  [clean_data] reads the SKU Code column of the inventory at its
    last step only, and nothing checks that column beforehand: on sales that
    have their columns, with text in SKU Code, and whose quantities convert,
    an inventory table without SKU Code makes [clean_data] raise
    KeyError('SKU Code'); no file is written. *)
Theorem sales_clean_data_needs_inventory_sku df_sales df_inventory w :
  has_columns ["SKU Code"; "Quantity"; "Date"] df_sales →
  text_columns ["SKU Code"] df_sales →
  ("SKU Code" ∉ columns df_inventory) →
  Forall quantity_ok (dated_sales df_sales) →
  (clean_data df_sales df_inventory w).1 = Raise (KeyError (Name "SKU Code")) ∧
  files (clean_data df_sales df_inventory w).2 = files w.
Proof.
  intros Hcols _ Hinv Hq.
  assert (getitem df_inventory "SKU Code" = Raise (KeyError (Name "SKU Code"))) as Hget.
  { unfold getitem. rewrite (bool_decide_eq_false_2 _ Hinv : has_column _ _ = false). done. }
  split; [|exact (proj1 (sales_clean_read_only df_sales df_inventory w))]. unfold clean_data. rewrite bind_log.
  rewrite dropna_subset_total by done. rewrite bind_lift_Ok.
  set (df1 := mkDataFrame _ _).
  assert (has_columns ["SKU Code"; "Quantity"; "Date"] df1) as Hcols1 by done.
  assert (rows df1 = map id (retained_sales df_sales)) as Hrows1.
  { rewrite map_id. unfold df1, retained_sales.
    cbn [rows dropna_all columns]. apply filter_filter. }
  clearbody df1.
  pose proof (getitem_total df1 "Date" ltac:(apply Hcols1; in_list)) as Hdate.
  rewrite Hdate, bind_lift_Ok.
  pose proof (step_date _ _ _ _ Hrows1 Hdate) as Hrows2.
  set (df2 := setitem df1 "Date" _) in *.
  assert (has_columns ["SKU Code"; "Quantity"; "Date"] df2) as Hcols2
    by by apply has_columns_setitem.
  clearbody df2. clear Hrows1 Hcols1 Hdate.
  rewrite dropna_subset_total
    by (intros c Hc%elem_of_cons; destruct Hc as [->|Hc%elem_of_nil];
        [apply Hcols2; in_list | done]).
  rewrite bind_lift_Ok.
  set (df3 := mkDataFrame _ _).
  assert (has_columns ["SKU Code"; "Quantity"; "Date"] df3) as Hcols3 by done.
  set (L := dated_sales df_sales) in *.
  assert (rows df3 = map id L) as Hrows3.
  { rewrite map_id. unfold df3. cbn [rows]. rewrite Hrows2. unfold L, dated_sales.
    apply filter_ext. intros r. cbn. apply andb_true_r. }
  clearbody df3. clear Hrows2 Hcols2.
  (* 4. Quantity *)
  pose proof (getitem_total df3 "Quantity" ltac:(apply Hcols3; in_list)) as Hq3.
  rewrite Hq3, bind_lift_Ok.
  pose proof (step_numeric L _ _ _ Hrows3 Hq3) as Hrows4.
  set (df4 := setitem df3 "Quantity" _) in *.
  assert (has_columns ["SKU Code"; "Quantity"; "Date"] df4) as Hcols4
    by by apply has_columns_setitem.
  clearbody df4. clear Hrows3 Hcols3 Hq3.
  pose proof (getitem_total df4 "Quantity" ltac:(apply Hcols4; in_list)) as Hq4.
  rewrite Hq4, bind_lift_Ok.
  assert (∃ q', astype_int (fillna0 (map (λ r, cell_at r "Quantity") (rows df4)))
                = Ok q') as [q' Hast].
  { unfold astype_int, fillna0. rewrite Hrows4, !map_map. apply mapM_total.
    clear -Hq. induction Hq as [|r l Hr _ IH]; cbn [map]; constructor; [|done].
    destruct (quantity_ok_int r Hr) as [z Hz].
    unfold id, with_numeric. rewrite cell_at_insert. eauto. }
  rewrite Hast, bind_lift_Ok.
  destruct (step_int L _ _ _ _ Hrows4 Hq4 Hast) as [Hrows5 Hall].
  set (df5 := setitem df4 "Quantity" _) in *.
  assert (has_columns ["SKU Code"; "Quantity"; "Date"] df5) as Hcols5
    by by apply has_columns_setitem.
  clearbody df5. clear Hrows4 Hcols4 Hq4 Hast.
  (* SKU *)
  pose proof (getitem_total df5 "SKU Code" ltac:(apply Hcols5; in_list)) as Hsku.
  rewrite Hsku, bind_lift_Ok.
  pose proof (step_sku L _ _ _ Hrows5 Hsku) as Hrows6.
  set (df6 := setitem df5 "SKU Code" _) in *.
  assert (has_columns ["SKU Code"; "Quantity"; "Date"] df6) as Hcols6
    by by apply has_columns_setitem.
  clearbody df6. clear Hrows5 Hcols5 Hsku.
  (* clamp *)
  pose proof (getitem_total df6 "Quantity" ltac:(apply Hcols6; in_list)) as Hq6.
  rewrite Hq6, bind_lift_Ok.
  assert (Forall (λ c, ∃ z, c = Int z) (map (λ r, cell_at r "Quantity") (rows df6)))
    as Hints.
  { rewrite Hrows6, map_map. clear -Hall.
    induction Hall as [|r l [y Hy] _ IH]; cbn [map]; constructor; [|done].
    rewrite quantity_with_sku. unfold with_int. rewrite cell_at_insert. cbv beta.
    rewrite Hy. cbn [unwrap]. by apply astype_int_cell_int in Hy. }
  destruct (lt_scalar_total 0 _ Hints) as [negative ->]. rewrite bind_lift_Ok.
  destruct (clip_lower0_total _ Hints) as [clipped Hclip].
  destruct (any negative).
  - rewrite bind_assoc, bind_log, bind_assoc, bind_lift_Ok, bind_assoc.
    rewrite Hclip, bind_lift_Ok, bind_ret.
    by rewrite Hget, bind_lift_Raise.
  - by rewrite bind_ret, Hget, bind_lift_Raise.
Qed.

End SalesPipeline.

Section SkuMatching.
Context `{Parsers}.

Lemma in_inventory_text df_inventory r s :
  cell_at r "SKU Code" = Txt s →
  in_inventory df_inventory r = true ↔
  ∃ i, i ∈ rows df_inventory ∧ cell_at i "SKU Code" = Txt s.
Proof.
  intros Hs. unfold in_inventory. rewrite Hs, existsb_exists. split.
  - intros (v & Hv%list_elem_of_In & Heq).
    apply (cell_eqb_text (Txt s)) in Heq as <-; [|done].
    by apply in_valid_skus in Hv as [_ Hi].
  - intros (i & Hi & Hsku). exists (Txt s). split.
    + apply list_elem_of_In, in_valid_skus. split; [done | eauto].
    + by apply (cell_eqb_text (Txt s)).
Qed.

(** X21.  When the sales are cleaned against the table that
    [InventoryCleaner.clean_data] returns, a dated sale with a text SKU Code
    is kept exactly when some retained inventory row has a text SKU Code that
    is equal to it once both are trimmed and put in upper case. *)
Theorem sku_matching_ignores_case_and_blanks raw w0 inventory w1 df_sales w out w' d s :
  CleanInventory.clean_data raw w0 = (Ok inventory, w1) →
  CleanSales.clean_data df_sales inventory w = (Ok out, w') →
  d ∈ dated_sales df_sales → cell_at d "SKU Code" = Txt s →
  clean_sales_row d ∈ rows out ↔
  ∃ i s', i ∈ retained_inventory raw ∧ cell_at i "SKU Code" = Txt s' ∧
          upper (strip s') = upper (strip s).
Proof.
  intros (Hinv & _)%inventory_clean_data_run (Hrows & _)%sales_clean_data_run Hd Hs.
  assert (cell_at (clean_sales_row d) "SKU Code" = Txt (upper (strip s))) as Hsku
    by (by rewrite sku_clean_sales, Hs).
  rewrite Hrows, list_elem_of_In, filter_In, (in_inventory_text _ _ _ Hsku), Hinv.
  split.
  - intros [_ (i' & (i & <- & Hi)%list_elem_of_In%in_map_iff & Hi')].
    rewrite sku_clean in Hi'.
    destruct (cell_at i "SKU Code") as [|s'| |] eqn:E; try done.
    injection Hi' as Hi'. exists i, s'. by rewrite list_elem_of_In.
  - intros (i & s' & Hi & Hs' & Heq). split.
    + unfold normalized_sales. apply in_map. by apply list_elem_of_In.
    + exists (clean_inventory_row i). split.
      * apply list_elem_of_In, in_map. by apply list_elem_of_In.
      * rewrite sku_clean, Hs'. cbn. by rewrite Heq.
Qed.

End SkuMatching.

Section Builder.
Import BuildStarSchema.
Context `{Parsers}.

(** X22.  [build_dim_product] needs the six product columns, of which the
    inventory cleaner checks neither Size nor Color: when the inventory table
    lacks some of them, it raises the KeyError that lists exactly the absent
    ones, after its opening message and before any file is written. *)
Theorem dim_product_needs_all_columns self df_inventory w :
  (∃ c, c ∈ dim_columns ∧ c ∉ columns df_inventory) →
  let missing := missing_columns df_inventory dim_columns in
  (∀ c, c ∈ missing ↔ c ∈ dim_columns ∧ c ∉ columns df_inventory) ∧
  build_dim_product self df_inventory w
  = (Raise (KeyError (Names missing)),
     mkWorld (logs w ++ [(INFO, Text "Construction de DimProduct...")]) (files w)).
Proof.
  intros (c & Hc & Hnot) missing.
  assert (∀ c, c ∈ missing ↔ c ∈ dim_columns ∧ c ∉ columns df_inventory) as Hmissing.
  { intros c'. unfold missing, missing_columns.
    rewrite list_elem_of_In, filter_In, <- list_elem_of_In.
    rewrite negb_true_iff, <- not_true_iff_false, has_column_true. done. }
  split; [done|].
  unfold build_dim_product. rewrite bind_log. cbv zeta. fold dim_columns.
  unfold getitems. fold (missing_columns df_inventory dim_columns). fold missing.
  destruct missing as [|m ms] eqn:E; [|by rewrite bind_lift_Raise].
  assert (c ∈ []) as Hin by by apply Hmissing. by apply elem_of_nil in Hin.
Qed.

Lemma fact_row_resolved dim l pk :
  pk ∈ resolved_keys dim l →
  (pk = NA ∧ matching_products dim l = []) ∨
  (∃ d, d ∈ matching_products dim l ∧ pk = cell_at d "ProductKey").
Proof.
  unfold resolved_keys. destruct (matching_products dim l) as [|d ds] eqn:E.
  - intros [->|[]%elem_of_nil]%elem_of_cons. by left.
  - intros (d' & <- & Hd')%list_elem_of_In%in_map_iff. right.
    exists d'. by rewrite list_elem_of_In.
Qed.

(** X23.  Every fact row carries the Quantity of a sale of the sales file,
    and its ProductKey is that of a product whose SKU Code equals the SKU
    Code of the sale, or NaN when no product has that SKU Code. *)
Theorem fact_product_keys_resolve self path dim_product w fact w' :
  build_fact_sales self path dim_product w = (Ok fact, w') →
  ∃ sales, files w !! path = Some sales ∧
    ∀ f, f ∈ rows fact →
      ∃ l, l ∈ rows sales ∧
        cell_at f "Quantity" = cell_at l "Quantity" ∧
        ((cell_at f "ProductKey" = NA ∧
          ∀ d, d ∈ rows dim_product →
               cell_eqb (cell_at l "SKU Code") (cell_at d "SKU Code") = false) ∨
         (∃ d, d ∈ rows dim_product ∧
               cell_eqb (cell_at l "SKU Code") (cell_at d "SKU Code") = true ∧
               cell_at f "ProductKey" = cell_at d "ProductKey")).
Proof.
  intros (sales & Hfile & Hrows & _)%build_fact_sales_run.
  exists sales. split; [done|]. intros f Hf. rewrite Hrows in Hf.
  apply list_elem_of_In, in_flat_map in Hf as (l & Hl%list_elem_of_In & Hf).
  unfold fact_rows_of in Hf. apply in_map_iff in Hf as (pk & <- & Hpk%list_elem_of_In).
  exists l. split; [done|].
  destruct (fact_row_fields (merged_dates sales dim_product) l pk) as (_ & -> & ->).
  split; [done|].
  apply fact_row_resolved in Hpk as [[-> Hnone]|(d & Hd & ->)].
  - left. split; [done|]. intros d Hd.
    apply not_true_iff_false. intros Heq.
    assert (d ∈ matching_products dim_product l) as Hin
      by (apply list_elem_of_In, filter_In; split; [by apply list_elem_of_In | done]).
    rewrite Hnone in Hin. by apply elem_of_nil in Hin.
  - right. exists d. apply list_elem_of_In, filter_In in Hd as [Hd Heq].
    by rewrite list_elem_of_In.
Qed.

Lemma length_flat_map {A B} (f : A → list B) l :
  length (flat_map f l) = sum_list (map (λ x, length (f x)) l).
Proof. induction l as [|x l IH]; cbn; [done|]. by rewrite length_app, IH. Qed.

Lemma sum_list_ge_length {A} (g : A → nat) l :
  (∀ x, 1 <= g x)%nat → (length l <= sum_list (map g l))%nat.
Proof.
  intros Hg. induction l as [|x l IH]; cbn; [done|]. specialize (Hg x). lia.
Qed.

(** X24.  The left join keeps every sale and repeats a sale that matches
    several products: the fact table has, for each sale, as many rows as
    there are products with its SKU Code, and one row when there is none; it
    has at least as many rows as the sales table, and when no sale matches
    two products its rows line up with the sales, Quantity for Quantity. *)
Theorem fact_rows_per_sale self path dim_product w fact w' :
  build_fact_sales self path dim_product w = (Ok fact, w') →
  ∃ sales, files w !! path = Some sales ∧
    length (rows fact) = sum_list (map (fan_out dim_product) (rows sales)) ∧
    (length (rows sales) <= length (rows fact))%nat ∧
    ((∀ l, l ∈ rows sales → (length (matching_products dim_product l) <= 1)%nat) →
     Forall2 (λ l f, cell_at f "Quantity" = cell_at l "Quantity")
       (rows sales) (rows fact)).
Proof.
  intros (sales & Hfile & Hrows & _)%build_fact_sales_run.
  exists sales. split; [done|]. rewrite Hrows. unfold fact_rows.
  assert (length (flat_map (fact_rows_of sales dim_product) (rows sales))
          = sum_list (map (fan_out dim_product) (rows sales))) as Hlen.
  { rewrite length_flat_map. f_equal. apply map_ext. intros l.
    unfold fact_rows_of. by rewrite length_map, length_resolved_keys. }
  split; [done|]. split.
  - rewrite Hlen. apply sum_list_ge_length. intros l. unfold fan_out. lia.
  - clear Hlen Hrows. generalize (rows sales). intros ls.
    induction ls as [|l ls IH]; intros Hone; [constructor|].
    cbn [flat_map]. unfold fact_rows_of at 1.
    assert (∃ pk, resolved_keys dim_product l = [pk]) as [pk ->].
    { pose proof (Hone l ltac:(by left)) as Hl. unfold resolved_keys.
      destruct (matching_products dim_product l) as [|d [|d' ds]];
        cbn in Hl; [eauto | eauto | lia]. }
    cbn [map app]. constructor.
    + apply fact_row_fields.
    + apply IH. intros l' Hl'. apply Hone. by right.
Qed.

Lemma saves_to_to_csv_ret {A} path lvl msg df (a : A) :
  saves_to path (bind (log lvl msg) (λ _, bind (to_csv df path) (λ _, ret a))).
Proof. intros w. cbn. split; eauto. Qed.

Lemma saves_to_raise {A B} path (r : result A) (k : A → M B) :
  (∀ a, saves_to path (k a)) → saves_to path (bind (lift r) k).
Proof. intros Hk. apply saves_to_bind; [apply read_only_lift | done]. Qed.

Lemma build_fact_sales_saves_to self path dim :
  saves_to (joinpath (model_output_dir self) "FactSales.csv")
    (build_fact_sales self path dim).
Proof.
  unfold build_fact_sales. cbv zeta.
  apply saves_to_bind; [apply read_only_log|]. intros _.
  apply saves_to_bind; [apply read_only_read_csv|]. intros sales.
  do 7 (apply saves_to_raise; intros ?).
  apply saves_to_to_csv_ret.
Qed.

(** With the columns it reads, [build_fact_sales] stops at the join when
    the key columns clash. *)
Lemma build_fact_sales_clash self path dim w sales :
  files w !! path = Some sales →
  has_columns ["ProductKey"; "SKU Code"] dim →
  has_columns ["SKU Code"; "Quantity"; "Date"] sales →
  ¬ compatible_keys sales dim →
  build_fact_sales self path dim w
  = (Raise MergeDtypeError,
     mkWorld (logs w ++ [(INFO, Text "Construction de FactSales...")]) (files w)).
Proof.
  intros Hfile Hdim Hsales Hclash.
  unfold build_fact_sales. rewrite bind_log.
  unfold bind at 1, read_csv at 1. cbn [files]. rewrite Hfile.
  rewrite (getitems_total _ _ Hdim), bind_lift_Ok.
  set (keys := mkDataFrame ["ProductKey"; "SKU Code"] _).
  assert (columns keys = ["ProductKey"; "SKU Code"]) as Hk by done.
  assert (rows keys = map (project_row ["ProductKey"; "SKU Code"]) (rows dim)) as Hrk
    by done.
  clearbody keys.
  unfold merge_left.
  assert (has_column sales "SKU Code" = true) as ->
    by (apply has_column_true, Hsales; in_list).
  assert (has_column keys "SKU Code" = true) as ->
    by (apply has_column_true; rewrite Hk; in_list).
  cbn [negb orb]. rewrite (keys_sku_column _ _ Hrk).
  unfold compatible_keys, sku_column in Hclash. unfold sku_column.
  apply not_false_iff_true in Hclash. by rewrite Hclash.
Qed.

(** X25.  Given an existing sales file and the columns it reads,
    [build_fact_sales] returns exactly when the SKU Code columns of the sales
    and of the products are of the same kind (or one of the tables has no
    row) and the Date of every sale gives a timestamp.  When the key columns
    clash, text against numbers, it raises the ValueError of [merge] right
    after its opening message; when the Date of some sale gives no timestamp,
    whether it holds a value that is not a date or is missing (NaT), it
    raises; in both cases it saves nothing. *)
Theorem fact_sales_returns_iff_keys_and_dates self path dim_product w sales :
  files w !! path = Some sales →
  has_columns ["ProductKey"; "SKU Code"] dim_product →
  has_columns ["SKU Code"; "Quantity"; "Date"] sales →
  ("ProductKey" ∉ columns sales) →
  ((∃ fact w', build_fact_sales self path dim_product w = (Ok fact, w')) ↔
   compatible_keys sales dim_product ∧
   ∀ l, l ∈ rows sales →
     ∃ t, to_datetime_cell (merged_dates sales dim_product) (cell_at l "Date") = Some t) ∧
  (¬ compatible_keys sales dim_product →
   build_fact_sales self path dim_product w
   = (Raise MergeDtypeError,
      mkWorld (logs w ++ [(INFO, Text "Construction de FactSales...")]) (files w))) ∧
  (∀ l, l ∈ rows sales →
     to_datetime_cell (merged_dates sales dim_product) (cell_at l "Date") = None →
     ∃ e w', build_fact_sales self path dim_product w = (Raise e, w') ∧
             files w' = files w) ∧
  (∀ l, cell_at l "Date" = NA →
     to_datetime_cell (merged_dates sales dim_product) (cell_at l "Date") = None).
Proof.
  intros Hfile Hdim Hsales Hpk.
  assert ((∃ fact w', build_fact_sales self path dim_product w = (Ok fact, w')) →
          ∀ l, l ∈ rows sales →
            ∃ t, to_datetime_cell (merged_dates sales dim_product) (cell_at l "Date")
                 = Some t) as Hparse.
  { intros (fact & w' & (sales' & Hfile' & _ & _ & Hall & _)%build_fact_sales_run) l Hl.
    assert (sales' = sales) as -> by congruence.
    rewrite Forall_forall in Hall.
    destruct (Hall _ (date_in_merged sales dim_product l Hl)) as [y Hy].
    apply date_key_result_ok in Hy as (t & Ht & _). eauto. }
  split; [split|split; [|split]].
  - intros Hret. split; [|by apply Hparse].
    destruct Hret as (fact & w' & Hrun).
    exact (build_fact_sales_keys _ _ _ _ _ _ _ Hrun Hfile).
  - intros [Hkeys Hall]. by apply (build_fact_sales_returns self path dim_product w sales).
  - by apply build_fact_sales_clash.
  - intros l Hl Hnone.
    destruct (build_fact_sales self path dim_product w) as [[fact|e] w'] eqn:Hrun.
    + destruct (Hparse ltac:(eauto) l Hl) as [t Ht]. congruence.
    + exists e, w'. split; [done|].
      destruct (build_fact_sales_saves_to self path dim_product w) as [_ Hf].
      by rewrite Hrun in Hf.
  - by intros l ->.
Qed.

Lemma joinpath_not_sales dir name :
  name = "DimProduct.csv" ∨ name = "FactSales.csv" →
  joinpath dir name ≠ "../data/clean/Sales_clean.csv".
Proof.
  unfold joinpath. intros [-> | ->] E;
    repeat (destruct dir as [|? dir]; cbn in E; [discriminate E | injection E as _ E]);
    destruct dir; discriminate E.
Qed.

Lemma build_dim_product_returns self df_inventory w :
  has_columns dim_columns df_inventory →
  build_dim_product self df_inventory w
  = (Ok (dim_product_of df_inventory),
     mkWorld (logs w ++ [(INFO, Text "Construction de DimProduct...");
                        (INFO, TextPath "Sauvegarde de DimProduct → "
                                 (joinpath (model_output_dir self) "DimProduct.csv"))])
       (<[joinpath (model_output_dir self) "DimProduct.csv" := dim_product_of df_inventory]>
          (files w))).
Proof.
  intros Hcols. unfold build_dim_product. rewrite bind_log.
  fold dim_columns. rewrite (getitems_total _ _ Hcols), bind_lift_Ok.
  unfold insert0.
  change (has_column (mkDataFrame dim_columns _) "ProductKey") with false.
  cbv iota. rewrite bind_lift_Ok, bind_log. unfold len. cbn [rows columns].
  rewrite length_map. unfold dim_product_of, len. cbn [logs files bind to_csv ret].
  by rewrite <- app_assoc.
Qed.

Lemma build_dim_product_run self df_inventory w dim w' :
  build_dim_product self df_inventory w = (Ok dim, w') →
  has_columns dim_columns df_inventory ∧ dim = dim_product_of df_inventory ∧
  files w' = <[joinpath (model_output_dir self) "DimProduct.csv" := dim]> (files w).
Proof.
  intros Hrun.
  assert (has_columns dim_columns df_inventory) as Hcols.
  { unfold build_dim_product in Hrun. rewrite bind_log in Hrun.
    by apply bind_lift_inv in Hrun as (d & (Hc & _)%getitems_ok & _). }
  rewrite (build_dim_product_returns self _ w Hcols) in Hrun.
  by injection Hrun as <- <-.
Qed.

Lemma dim_product_keys df_inventory d :
  d ∈ rows (dim_product_of df_inventory) →
  ∃ k, cell_at d "ProductKey" = Int k ∧ 1 <= k <= Z.of_nat (len df_inventory).
Proof.
  intros Hd.
  assert (cell_at d "ProductKey" ∈ range1 (len df_inventory)) as Hin.
  { rewrite <- (zip_with_insert_column (project_row dim_columns) "ProductKey"
                  (rows df_inventory) (range1 (len df_inventory)))
      by apply range1_length.
    apply list_elem_of_In, (in_map (λ r, cell_at r "ProductKey")).
    by apply list_elem_of_In. }
  unfold range1 in Hin. apply list_elem_of_In, in_map_iff in Hin as (k & <- & Hk).
  apply in_seq in Hk. exists (Z.of_nat k). split; [done | lia].
Qed.

Lemma load_inventory_run self w df w1 :
  load_inventory self w = (Ok df, w1) →
  files w !! inventory_clean_path self = Some df ∧ files w1 = files w.
Proof.
  unfold load_inventory. rewrite bind_log. unfold bind, read_csv, ret. cbn [files].
  destruct (files w !! inventory_clean_path self) as [i|]; [|discriminate].
  by intros [= <- <-].
Qed.

Lemma load_inventory_ok self w df :
  files w !! inventory_clean_path self = Some df →
  load_inventory self w
  = (Ok df, mkWorld (logs w ++ [(INFO, TextPath "Chargement de Inventory_clean depuis "
                                         (inventory_clean_path self))]) (files w)).
Proof.
  intros Hfile. unfold load_inventory. rewrite bind_log.
  unfold bind, read_csv, ret. cbn [files]. by rewrite Hfile.
Qed.

(** X26.  When [run] returns, it has read the clean inventory and the clean
    sales and has saved DimProduct.csv and FactSales.csv, and nothing else;
    DimProduct holds the products keyed 1 to N, FactSales the fact rows of
    the sales joined with it, and every ProductKey of a fact row is NaN or an
    integer between 1 and the number N of inventory rows. *)
Theorem builder_run_writes_star_schema self w w' :
  run self w = (Ok tt, w') →
  ∃ df_inventory sales fact,
    files w !! inventory_clean_path self = Some df_inventory ∧
    files w !! "../data/clean/Sales_clean.csv" = Some sales ∧
    files w' = <[joinpath (model_output_dir self) "FactSales.csv" := fact]>
                 (<[joinpath (model_output_dir self) "DimProduct.csv"
                      := dim_product_of df_inventory]> (files w)) ∧
    rows fact = fact_rows sales (dim_product_of df_inventory) ∧
    ∀ f, f ∈ rows fact →
      cell_at f "ProductKey" = NA ∨
      ∃ k, cell_at f "ProductKey" = Int k ∧ 1 <= k <= Z.of_nat (len df_inventory).
Proof.
  unfold run.
  intros (df & w1 & [Hinv Hf1]%load_inventory_run & Hrun)%bind_inv.
  apply bind_inv in Hrun as (dim & w2 & (Hcols & -> & Hf2)%build_dim_product_run & Hrun).
  apply bind_inv in Hrun as (fact & w3 & Hfact & Hrun).
  injection Hrun as <-.
  apply build_fact_sales_run in Hfact as (sales & Hsales & Hrows & _ & _ & Hf3).
  exists df, sales, fact. split; [done|]. split; [|split; [|split; [done|]]].
  - rewrite Hf2, Hf1, lookup_insert_ne in Hsales; [done|].
    apply joinpath_not_sales. by left.
  - by rewrite Hf3, Hf2, Hf1.
  - intros f Hf. rewrite Hrows in Hf.
    apply list_elem_of_In, in_flat_map in Hf as (l & _ & Hf).
    unfold fact_rows_of in Hf. apply in_map_iff in Hf as (pk & <- & Hpk%list_elem_of_In).
    destruct (fact_row_fields (merged_dates sales (dim_product_of df)) l pk)
      as (_ & -> & _).
    apply fact_row_resolved in Hpk as [[-> _]|(d & Hd & ->)]; [by left|]. right.
    apply list_elem_of_In, filter_In in Hd as [Hd _].
    by apply dim_product_keys, list_elem_of_In.
Qed.

(** X27.  [run] saves DimProduct before it reads the sales: when the clean
    inventory is there with its product columns and the clean sales file is
    missing, [run] raises FileNotFoundError and DimProduct.csv has been
    written. *)
Theorem builder_run_is_not_atomic self w df_inventory :
  files w !! inventory_clean_path self = Some df_inventory →
  has_columns dim_columns df_inventory →
  files w !! "../data/clean/Sales_clean.csv" = None →
  ∃ w', run self w = (Raise (FileNotFoundError "../data/clean/Sales_clean.csv"), w') ∧
        files w' = <[joinpath (model_output_dir self) "DimProduct.csv"
                       := dim_product_of df_inventory]> (files w).
Proof.
  intros Hinv Hcols Hsales. unfold run.
  rewrite (bind_value _ _ _ _ _ (load_inventory_ok _ _ _ Hinv)).
  rewrite (bind_value _ _ _ _ _ (build_dim_product_returns _ _ _ Hcols)).
  unfold build_fact_sales. rewrite bind_assoc, bind_log, bind_assoc.
  unfold bind at 1, read_csv at 1. cbn [files].
  rewrite lookup_insert_ne by (apply joinpath_not_sales; by left).
  rewrite Hsales. eexists. split; reflexivity.
Qed.

End Builder.

Section MainProgram.
Import Main.
Context `{Parsers}.

Lemma filter_sublist {A} (f : A → bool) l : List.filter f l `sublist_of` l.
Proof.
  induction l as [|x l IH]; cbn; [constructor|].
  destruct (f x); by constructor.
Qed.

(** X28.  With [--clean-all] alone, [main] runs the inventory cleaner and
    then the sales cleaner.  When it returns, both raw files existed, the
    two clean files are the only files written, Inventory_clean.csv holds
    the clean rows of the raw inventory, whatever it held before, and every
    row of Sales_clean.csv is a normalised raw sale, in the order of the raw
    file.  When the inventory cleaner raises, [main] raises the same
    exception, the sales cleaner does not run and no file is written. *)
Theorem main_clean_all_runs_both_cleaners today w :
  (∀ w',
     main today (mkArgs false false true) w = (Ok tt, w') →
     ∃ raw_inventory inventory raw_sales sales,
       files w !! "../data/raw/Inventory_raw.csv" = Some raw_inventory ∧
       files w !! "../data/raw/Sales_raw.csv" = Some raw_sales ∧
       rows inventory = map clean_inventory_row (retained_inventory raw_inventory) ∧
       rows sales `sublist_of` normalized_sales raw_sales ∧
       files w' = <["../data/clean/Sales_clean.csv" := sales]>
                    (<["../data/clean/Inventory_clean.csv" := inventory]> (files w))) ∧
  (∀ e w1,
     CleanInventory.run
       (CleanInventory.mkInventoryCleaner
          "../data/raw/Inventory_raw.csv" "../data/clean/Inventory_clean.csv") w
     = (Raise e, w1) →
     main today (mkArgs false false true) w = (Raise e, w1) ∧ files w1 = files w).
Proof.
  split.
  - intros w' Hmain. unfold main in Hmain. cbn [clean_inventory clean_sales clean_all when]
      in Hmain.
    rewrite !bind_ret in Hmain.
    apply bind_inv in Hmain as ([] & w1 & Hinv & Hsales).
    apply inventory_run_run in Hinv as (raw & inventory & w3 & w4 & Hraw & Hclean & Hf1).
    apply sales_run_run in Hsales
      as (raw_sales & inventory' & sales & w5 & w6 & Hs & Hi & Hclean' & Hf2).
    cbn [CleanInventory.input_path CleanInventory.output_path CleanSales.sales_path
         CleanSales.inventory_path CleanSales.output_path] in *.
    rewrite Hf1 in Hs, Hi.
    rewrite lookup_insert_ne in Hs by done.
    exists raw, inventory, raw_sales, sales.
    apply inventory_clean_data_run in Hclean as (Hrows & _).
    apply sales_clean_data_run in Hclean' as (Hrows' & _).
    split; [done|]. split; [done|]. split; [done|]. split.
    + rewrite Hrows'. apply filter_sublist.
    + by rewrite Hf2, Hf1.
  - intros e w1 Hinv. unfold main. cbn [clean_inventory clean_sales clean_all when].
    rewrite !bind_ret. unfold bind at 1. rewrite Hinv. split; [done|].
    destruct (inventory_run_saves_to
                (CleanInventory.mkInventoryCleaner
                   "../data/raw/Inventory_raw.csv" "../data/clean/Inventory_clean.csv") w)
      as [_ Hf].
    by rewrite Hinv in Hf.
Qed.

(** X29.  With [--clean-sales] alone, [main] relies on an
    Inventory_clean.csv left by an earlier call: when the raw sales file is
    there and Inventory_clean.csv is not, it raises FileNotFoundError for
    Inventory_clean.csv and writes no file. *)
Theorem main_clean_sales_needs_clean_inventory today w raw_sales :
  files w !! "../data/raw/Sales_raw.csv" = Some raw_sales →
  files w !! "../data/clean/Inventory_clean.csv" = None →
  ∃ w', main today (mkArgs false true false) w
        = (Raise (FileNotFoundError "../data/clean/Inventory_clean.csv"), w') ∧
        files w' = files w.
Proof.
  intros Hs Hi.
  set (cleaner := CleanSales.mkSalesCleaner
         "../data/raw/Sales_raw.csv" "../data/clean/Inventory_clean.csv"
         "../data/clean/Sales_clean.csv").
  assert (CleanSales.load_data cleaner w
          = (Raise (FileNotFoundError "../data/clean/Inventory_clean.csv"),
             mkWorld (logs w ++ [(INFO, Text "Chargement des fichiers Sales_raw et Inventory_clean...")])
               (files w))) as Hload.
  { unfold CleanSales.load_data, cleaner. rewrite bind_log.
    unfold bind, read_csv, ret. cbn [files CleanSales.sales_path].
    rewrite Hs. cbn [files CleanSales.inventory_path]. by rewrite Hi. }
  unfold main. cbn [clean_inventory clean_sales clean_all when]. rewrite bind_ret.
  fold cleaner. unfold CleanSales.run. cbv zeta.
  unfold bind at 1. unfold bind at 1. rewrite Hload.
  eexists. split; reflexivity.
Qed.

End MainProgram.

(** *** The scenarios, run *)

(** The columns of an explicit table. *)
Ltac columns_present :=
  let c := fresh "c" in
  let Hc := fresh "Hc" in
  intros c Hc; apply has_column_true; revert c Hc; apply Forall_forall;
  repeat constructor.

Lemma scenario_A_columns :
  has_columns ["SKU Code"; "Design No."; "Category"; "Stock"] scenario_A.
Proof. columns_present. Qed.

Lemma scenario_A_text : text_columns ["SKU Code"; "Category"] scenario_A.
Proof.
  intros c Hc. split.
  - intros r Hr. unfold scenario_A in Hr. cbn [rows] in Hr. log_cases; subst; exact I.
  - intros _. exists scenario_A_row.
    log_cases; subst; eexists; (split; [by left | reflexivity]).
Qed.

Lemma inventory_validate_types_only_warns_witness :
  has_columns ["SKU Code"; "Design No."; "Category"; "Stock"] scenario_A ∧
  text_columns ["SKU Code"; "Category"] scenario_A ∧
  ∃ entries,
    CleanInventory.validate_types (H:=iso_parsers) scenario_A world0
    = (Ok tt, mkWorld (logs world0 ++ entries) (files world0)) ∧
    Forall (λ e, e.1 = WARNING) entries.
Proof.
  split; [exact scenario_A_columns|]. split; [exact scenario_A_text|].
  destruct (inventory_validate_types_only_warns (H:=iso_parsers) scenario_A world0
              scenario_A_columns scenario_A_text) as (entries & Hrun & Hall & _).
  exists entries. split; [exact Hrun | exact Hall].
Defined.

Lemma scenario_A_retained : retained_inventory scenario_A = [scenario_A_row].
Proof. vm_compute. reflexivity. Qed.

Lemma scenario_A_stock : Forall stock_ok (retained_inventory scenario_A).
Proof.
  rewrite scenario_A_retained. repeat constructor. eexists. vm_compute. reflexivity.
Qed.

Lemma scenario_A_run :
  CleanInventory.clean_data scenario_A world0
  = (Ok scenario_A_clean, snd (CleanInventory.clean_data scenario_A world0)).
Proof. vm_compute. reflexivity. Qed.

Lemma separator_warning_predicts_split_witness :
  text_column scenario_A "SKU Code" ∧
  CleanInventory.validate_types (H:=iso_parsers) scenario_A world0
    = (Ok tt, snd (CleanInventory.validate_types (H:=iso_parsers) scenario_A world0)) ∧
  retained_inventory scenario_A ≠ [] ∧
  Forall stock_ok (retained_inventory scenario_A) ∧
  ∃ out w',
    CleanInventory.clean_data scenario_A
      (snd (CleanInventory.validate_types (H:=iso_parsers) scenario_A world0))
    = (Ok out, w').
Proof.
  assert (CleanInventory.validate_types (H:=iso_parsers) scenario_A world0
          = (Ok tt, snd (CleanInventory.validate_types (H:=iso_parsers) scenario_A world0)))
    as Hval by (vm_compute; reflexivity).
  assert (new_entries world0
            (snd (CleanInventory.validate_types (H:=iso_parsers) scenario_A world0)) = [])
    as Hnew by (vm_compute; reflexivity).
  assert (retained_inventory scenario_A ≠ []) as Hne
    by (rewrite scenario_A_retained; discriminate).
  assert (text_column scenario_A "SKU Code") as Htext
    by (apply scenario_A_text; by left).
  split; [exact Htext|].
  split; [exact Hval|]. split; [exact Hne|]. split; [exact scenario_A_stock|].
  apply (separator_warning_predicts_split (H:=iso_parsers) scenario_A world0 _ Htext Hval);
    [|exact Hne | exact scenario_A_stock].
  rewrite Hnew. apply not_elem_of_nil.
Defined.

Lemma inventory_clean_table_shape_witness :
  CleanInventory.clean_data scenario_A world0
    = (Ok scenario_A_clean, snd (CleanInventory.clean_data scenario_A world0)) ∧
  ("Category" ∉ columns scenario_A_clean) ∧
  has_columns ["SKU Code"; "Design No."; "Stock"; "BrandCode"; "CategoryName"]
    scenario_A_clean.
Proof.
  split; [exact scenario_A_run|].
  destruct (inventory_clean_table_shape _ _ _ _ scenario_A_run) as (Hno & Hhas & _).
  split; [exact Hno | exact Hhas].
Defined.

Lemma verification_passes_iff_no_error_witness :
  CleanInventory.verification_data scenario_A_clean world0
    = (Ok tt, snd (CleanInventory.verification_data scenario_A_clean world0)) ∧
  files (snd (CleanInventory.verification_data scenario_A_clean world0)) = files world0.
Proof.
  assert (CleanInventory.verification_data scenario_A_clean world0
          = (Ok tt, snd (CleanInventory.verification_data scenario_A_clean world0)))
    as Hrun by (vm_compute; reflexivity).
  split; [exact Hrun|].
  exact (proj1 (verification_passes_iff_no_error _ _ _ Hrun)).
Defined.

Lemma huge_stock_run :
  CleanInventory.clean_data huge_stock world0
  = (Ok huge_stock_clean, snd (CleanInventory.clean_data huge_stock world0)).
Proof. vm_compute. reflexivity. Qed.

Lemma negative_stock_error_means_overflow_witness :
  CleanInventory.clean_data huge_stock world0
    = (Ok huge_stock_clean, snd (CleanInventory.clean_data huge_stock world0)) ∧
  ∃ entries,
    CleanInventory.verification_data huge_stock_clean
      (snd (CleanInventory.clean_data huge_stock world0))
    = (Ok tt, mkWorld (logs (snd (CleanInventory.clean_data huge_stock world0)) ++ entries)
                (files (snd (CleanInventory.clean_data huge_stock world0)))) ∧
    ((ERROR, Text "Stock négatif détecté après nettoyage !") ∈ entries ↔
     ∃ r, r ∈ retained_inventory huge_stock ∧ stock_overflows r).
Proof.
  split; [exact huge_stock_run|].
  exact (negative_stock_error_means_overflow _ _ _ _ huge_stock_run).
Defined.

Lemma duplicate_skus_run :
  CleanInventory.clean_data duplicate_skus world0
  = (Ok duplicate_skus_clean, snd (CleanInventory.clean_data duplicate_skus world0)).
Proof. vm_compute. reflexivity. Qed.

Lemma duplicate_error_matches_warning_witness :
  CleanInventory.clean_data duplicate_skus world0
    = (Ok duplicate_skus_clean, snd (CleanInventory.clean_data duplicate_skus world0)) ∧
  ((WARNING, Text "Duplicate SKU detected:")
     ∈ new_entries world0 (snd (CleanInventory.clean_data duplicate_skus world0)) ↔
   ¬ NoDup (sku_column (rows duplicate_skus_clean))).
Proof.
  split; [exact duplicate_skus_run|].
  destruct (duplicate_error_matches_warning _ _ _ _ duplicate_skus_run)
    as (entries & _ & _ & Hwarn).
  exact Hwarn.
Defined.

Lemma missing_category_name_is_reported_witness :
  ∃ out,
    CleanInventory.clean_data mixed_categories world0
      = (Ok out, snd (CleanInventory.clean_data mixed_categories world0)) ∧
    no_colon_row ∈ retained_inventory mixed_categories ∧
    cell_at no_colon_row "Category" = Txt "Hats" ∧
    contains_char ":" "Hats" = false ∧
    clean_inventory_row no_colon_row ∈ rows out ∧
    cell_at (clean_inventory_row no_colon_row) "CategoryName" = NA.
Proof.
  assert (∃ out, CleanInventory.clean_data mixed_categories world0
                 = (Ok out, snd (CleanInventory.clean_data mixed_categories world0)))
    as [out Hrun] by (vm_compute; eexists; reflexivity).
  assert (no_colon_row ∈ retained_inventory mixed_categories) as Hr.
  { assert (retained_inventory mixed_categories = rows mixed_categories) as ->
      by (vm_compute; reflexivity).
    unfold mixed_categories, no_colon_row. cbn [rows].
    apply elem_of_cons. right. apply elem_of_cons. by left. }
  assert (cell_at no_colon_row "Category" = Txt "Hats") as Hs by reflexivity.
  assert (contains_char ":" "Hats" = false) as Hsep by reflexivity.
  destruct (missing_category_name_is_reported _ _ _ _ _ _ Hrun Hr Hs Hsep)
    as (Hin & _ & Hname & _).
  exists out. repeat (split; [assumption|]). exact Hname.
Defined.

Lemma raw_world_run :
  (CleanInventory.run (H:=iso_parsers) inventory_cleaner raw_world).1 = Ok tt.
Proof. vm_compute. reflexivity. Qed.

Lemma inventory_run_writes_only_output_witness :
  (CleanInventory.run (H:=iso_parsers) inventory_cleaner raw_world).1 = Ok tt ∧
  ∃ out,
    files (CleanInventory.run (H:=iso_parsers) inventory_cleaner raw_world).2
      !! CleanInventory.output_path inventory_cleaner = Some out.
Proof.
  split; [exact raw_world_run|].
  destruct (inventory_run_writes_only_output (H:=iso_parsers) inventory_cleaner raw_world)
    as (_ & _ & Hok).
  destruct (Hok tt raw_world_run) as (out & Hout & _).
  exists out. exact Hout.
Defined.

Lemma inventory_rerun_aborts_witness :
  CleanInventory.clean_data scenario_A world0
    = (Ok scenario_A_clean, snd (CleanInventory.clean_data scenario_A world0)) ∧
  files rerun_world !! CleanInventory.input_path inventory_cleaner
    = Some scenario_A_clean ∧
  ∃ w', CleanInventory.run (H:=iso_parsers) inventory_cleaner rerun_world
        = (Raise (ColonnesManquantes ["Category"]), w') ∧
        files w' = files rerun_world.
Proof.
  assert (files rerun_world !! CleanInventory.input_path inventory_cleaner
          = Some scenario_A_clean) as Hfile by (vm_compute; reflexivity).
  split; [exact scenario_A_run|]. split; [exact Hfile|].
  exact (inventory_rerun_aborts (H:=iso_parsers) inventory_cleaner _ _ _ _ _
           scenario_A_run Hfile).
Defined.

Lemma inventory_run_saves_clean_table_witness :
  files raw_world !! CleanInventory.input_path inventory_cleaner = Some scenario_A ∧
  has_columns ["SKU Code"; "Design No."; "Category"; "Stock"] scenario_A ∧
  text_columns ["SKU Code"; "Category"] scenario_A ∧
  Forall stock_ok (retained_inventory scenario_A) ∧
  scenario_A_row ∈ retained_inventory scenario_A ∧
  cell_at scenario_A_row "Category" = Txt "BR1:Shirts" ∧
  contains_char ":" "BR1:Shirts" = true ∧
  ∃ out w',
    CleanInventory.run (H:=iso_parsers) inventory_cleaner raw_world = (Ok tt, w') ∧
    files w' = <[CleanInventory.output_path inventory_cleaner := out]> (files raw_world) ∧
    rows out = map clean_inventory_row (retained_inventory scenario_A).
Proof.
  assert (files raw_world !! CleanInventory.input_path inventory_cleaner
          = Some scenario_A) as Hfile by (vm_compute; reflexivity).
  assert (scenario_A_row ∈ retained_inventory scenario_A) as Hr
    by (rewrite scenario_A_retained; in_list).
  assert (cell_at scenario_A_row "Category" = Txt "BR1:Shirts") as Hs by reflexivity.
  assert (contains_char ":" "BR1:Shirts" = true) as Hsep by reflexivity.
  split; [exact Hfile|]. split; [exact scenario_A_columns|].
  split; [exact scenario_A_text|]. split; [exact scenario_A_stock|].
  split; [exact Hr|]. split; [exact Hs|]. split; [exact Hsep|].
  exact (inventory_run_saves_clean_table (H:=iso_parsers) inventory_cleaner scenario_A
           raw_world scenario_A_row "BR1:Shirts" Hfile scenario_A_columns scenario_A_text
           scenario_A_stock Hr Hs Hsep).
Defined.

Lemma empty_inventory_raises_witness :
  has_columns ["SKU Code"; "Design No."; "Category"; "Stock"] header_only ∧
  rows header_only = [] ∧
  ∃ w', CleanInventory.clean_data header_only world0 = (Raise (KeyError (Pos 0)), w') ∧
        files w' = files world0.
Proof.
  assert (has_columns ["SKU Code"; "Design No."; "Category"; "Stock"] header_only)
    as Hcols by columns_present.
  assert (rows header_only = []) as Hnone by reflexivity.
  split; [exact Hcols|]. split; [exact Hnone|].
  exact (proj2 (empty_inventory_raises header_only world0) Hcols Hnone).
Defined.

Lemma scenario_C_columns : has_columns ["SKU Code"; "Quantity"; "Date"] scenario_C.
Proof. columns_present. Qed.

Lemma scenario_C_clean_run :
  CleanSales.clean_data (H:=iso_parsers) scenario_C scenario_A_clean world0
  = (Ok scenario_C_clean, scenario_C_world).
Proof. vm_compute. reflexivity. Qed.

Lemma scenario_C_text : text_columns ["SKU Code"] scenario_C.
Proof.
  intros c Hc. split.
  - intros r Hr. unfold scenario_C in Hr. cbn [rows] in Hr.
    log_cases; subst; exact I.
  - intros _. log_cases; subst. eexists _, _. split; [by left | reflexivity].
Qed.

Lemma sales_validate_types_only_warns_witness :
  has_columns ["SKU Code"; "Quantity"; "Date"] scenario_C ∧
  text_columns ["SKU Code"] scenario_C ∧
  ∃ entries,
    CleanSales.validate_types (H:=iso_parsers) scenario_C world0
    = (Ok tt, mkWorld (logs world0 ++ entries) (files world0)) ∧
    Forall (λ e, e.1 = WARNING) entries.
Proof.
  split; [exact scenario_C_columns|]. split; [exact scenario_C_text|].
  destruct (sales_validate_types_only_warns (H:=iso_parsers) scenario_C world0
              scenario_C_columns scenario_C_text) as (entries & Hrun & Hall & _).
  exists entries. split; [exact Hrun | exact Hall].
Defined.

Lemma clean_sales_are_dated_witness :
  CleanSales.clean_data (H:=iso_parsers) scenario_C scenario_A_clean world0
    = (Ok scenario_C_clean, scenario_C_world) ∧
  ∀ r', r' ∈ rows scenario_C_clean →
    ∃ t, cell_at r' "Date" = TS t ∧ valid_timestamp t = true.
Proof.
  split; [exact scenario_C_clean_run|]. intros r' Hr'.
  destruct (clean_sales_are_dated (H:=iso_parsers) _ _ _ _ _ scenario_C_clean_run r' Hr')
    as (r & t & _ & _ & Hvalid & Hdate & _).
  exists t. split; [exact Hdate | exact Hvalid].
Defined.

Lemma post_validation_passes_iff_no_error_witness :
  CleanSales.post_validation run_day scenario_C_clean world0
    = (Ok tt, snd (CleanSales.post_validation run_day scenario_C_clean world0)) ∧
  files (snd (CleanSales.post_validation run_day scenario_C_clean world0)) = files world0.
Proof.
  assert (CleanSales.post_validation run_day scenario_C_clean world0
          = (Ok tt, snd (CleanSales.post_validation run_day scenario_C_clean world0)))
    as Hrun by (vm_compute; reflexivity).
  split; [exact Hrun|].
  exact (proj1 (post_validation_passes_iff_no_error _ _ _ _ Hrun)).
Defined.


Lemma sales_world_run :
  (CleanSales.run (H:=iso_parsers) sales_cleaner run_day sales_world).1 = Ok tt.
Proof. vm_compute. reflexivity. Qed.

Lemma sales_run_writes_only_output_witness :
  (CleanSales.run (H:=iso_parsers) sales_cleaner run_day sales_world).1 = Ok tt ∧
  ∃ out,
    files (CleanSales.run (H:=iso_parsers) sales_cleaner run_day sales_world).2
      !! CleanSales.output_path sales_cleaner = Some out.
Proof.
  split; [exact sales_world_run|].
  destruct (sales_run_writes_only_output (H:=iso_parsers) sales_cleaner run_day
              sales_world) as (_ & _ & Hok).
  destruct (Hok tt sales_world_run) as (out & Hout & _).
  exists out. exact Hout.
Defined.

Lemma sales_run_saves_referenced_sales_witness :
  CleanSales.run (H:=iso_parsers) sales_cleaner run_day sales_world
    = (Ok tt, snd (CleanSales.run (H:=iso_parsers) sales_cleaner run_day sales_world)) ∧
  ∃ df_sales df_inventory out,
    files sales_world !! CleanSales.sales_path sales_cleaner = Some df_sales ∧
    files sales_world !! CleanSales.inventory_path sales_cleaner = Some df_inventory ∧
    ∀ r, r ∈ rows out → cell_at r "SKU Code" ∈ valid_skus df_inventory.
Proof.
  assert (CleanSales.run (H:=iso_parsers) sales_cleaner run_day sales_world
          = (Ok tt, snd (CleanSales.run (H:=iso_parsers) sales_cleaner run_day sales_world)))
    as Hrun by (vm_compute; reflexivity).
  split; [exact Hrun|].
  destruct (sales_run_saves_referenced_sales (H:=iso_parsers) _ _ _ _ Hrun)
    as (df_sales & df_inventory & out & Hs & Hi & _ & _ & Hall).
  exists df_sales, df_inventory, out. split; [exact Hs|]. split; [exact Hi|].
  intros r Hr. exact (proj1 (Hall r Hr)).
Defined.

Lemma sales_missing_required_columns_abort_witness :
  files no_quantity_world !! CleanSales.sales_path sales_cleaner
    = Some no_quantity_column ∧
  files no_quantity_world !! CleanSales.inventory_path sales_cleaner
    = Some scenario_A_clean ∧
  (∃ c, c ∈ ["SKU Code"; "Quantity"; "Date"] ∧ c ∉ columns no_quantity_column) ∧
  ∃ w', CleanSales.run (H:=iso_parsers) sales_cleaner run_day no_quantity_world
        = (Raise (ColonnesManquantes ["Quantity"]), w') ∧
        files w' = files no_quantity_world.
Proof.
  assert (files no_quantity_world !! CleanSales.sales_path sales_cleaner
          = Some no_quantity_column) as Hs by (vm_compute; reflexivity).
  assert (files no_quantity_world !! CleanSales.inventory_path sales_cleaner
          = Some scenario_A_clean) as Hi by (vm_compute; reflexivity).
  assert (∃ c, c ∈ ["SKU Code"; "Quantity"; "Date"] ∧ c ∉ columns no_quantity_column)
    as Hmissing.
  { exists "Quantity". split; [in_list|].
    intros Hin. apply has_column_true in Hin. vm_compute in Hin. discriminate. }
  split; [exact Hs|]. split; [exact Hi|]. split; [exact Hmissing|].
  destruct (sales_missing_required_columns_abort (H:=iso_parsers) sales_cleaner run_day
              no_quantity_world _ _ Hs Hi Hmissing) as (_ & w' & Hrun & Hfiles & _).
  exists w'. split; [exact Hrun | exact Hfiles].
Defined.

Lemma sales_run_needs_both_files_witness :
  (files world0 !! CleanSales.sales_path sales_cleaner = None ∨
   files world0 !! CleanSales.inventory_path sales_cleaner = None) ∧
  ∃ path w',
    CleanSales.run (H:=iso_parsers) sales_cleaner run_day world0
    = (Raise (FileNotFoundError path), w') ∧
    files w' = files world0.
Proof.
  assert (files world0 !! CleanSales.sales_path sales_cleaner = None ∨
          files world0 !! CleanSales.inventory_path sales_cleaner = None) as Hmiss
    by (left; reflexivity).
  split; [exact Hmiss|].
  destruct (sales_run_needs_both_files (H:=iso_parsers) sales_cleaner run_day world0 Hmiss)
    as (path & w' & Hrun & _ & _ & Hfiles & _).
  exists path, w'. split; [exact Hrun | exact Hfiles].
Defined.

Lemma scenario_C_quantities :
  Forall (quantity_ok (H:=iso_parsers)) (dated_sales (H:=iso_parsers) scenario_C).
Proof.
  exact (proj1 (proj2 (sales_clean_data_run (H:=iso_parsers) _ _ _ _ _
                         scenario_C_clean_run))).
Qed.

Lemma sales_clean_data_needs_inventory_sku_witness :
  has_columns ["SKU Code"; "Quantity"; "Date"] scenario_C ∧
  text_columns ["SKU Code"] scenario_C ∧
  ("SKU Code" ∉ columns no_sku_column) ∧
  Forall (quantity_ok (H:=iso_parsers)) (dated_sales (H:=iso_parsers) scenario_C) ∧
  (CleanSales.clean_data (H:=iso_parsers) scenario_C no_sku_column world0).1
    = Raise (KeyError (Name "SKU Code")).
Proof.
  assert ("SKU Code" ∉ columns no_sku_column) as Hno.
  { intros Hin. apply has_column_true in Hin. vm_compute in Hin. discriminate. }
  split; [exact scenario_C_columns|]. split; [exact scenario_C_text|].
  split; [exact Hno|]. split; [exact scenario_C_quantities|].
  exact (proj1 (sales_clean_data_needs_inventory_sku (H:=iso_parsers) scenario_C
                  no_sku_column world0 scenario_C_columns scenario_C_text Hno
                  scenario_C_quantities)).
Defined.

Lemma dated_sale_kept : dated_sale ∈ dated_sales (H:=iso_parsers) scenario_C.
Proof.
  assert (head (dated_sales (H:=iso_parsers) scenario_C) = Some dated_sale) as Hhead
    by (vm_compute; reflexivity).
  destruct (dated_sales (H:=iso_parsers) scenario_C) as [|d ds]; [discriminate|].
  injection Hhead as ->. by left.
Qed.

Lemma sku_matching_ignores_case_and_blanks_witness :
  CleanInventory.clean_data scenario_A world0
    = (Ok scenario_A_clean, snd (CleanInventory.clean_data scenario_A world0)) ∧
  CleanSales.clean_data (H:=iso_parsers) scenario_C scenario_A_clean world0
    = (Ok scenario_C_clean, scenario_C_world) ∧
  dated_sale ∈ dated_sales (H:=iso_parsers) scenario_C ∧
  cell_at dated_sale "SKU Code" = Txt " sku001" ∧
  (clean_sales_row (H:=iso_parsers) dated_sale ∈ rows scenario_C_clean ↔
   ∃ i s', i ∈ retained_inventory scenario_A ∧ cell_at i "SKU Code" = Txt s' ∧
           upper (strip s') = upper (strip " sku001")).
Proof.
  pose proof dated_sale_kept as Hd.
  assert (cell_at dated_sale "SKU Code" = Txt " sku001") as Hs by reflexivity.
  split; [exact scenario_A_run|]. split; [exact scenario_C_clean_run|].
  split; [exact Hd|]. split; [exact Hs|].
  exact (sku_matching_ignores_case_and_blanks (H:=iso_parsers) _ _ _ _ _ _ _ _ _ _
           scenario_A_run scenario_C_clean_run Hd Hs).
Defined.

Lemma dim_product_needs_all_columns_witness :
  (∃ c, c ∈ dim_columns ∧ c ∉ columns multi_colon_clean) ∧
  (BuildStarSchema.build_dim_product builder multi_colon_clean world0).1
    = Raise (KeyError (Names (missing_columns multi_colon_clean dim_columns))).
Proof.
  assert (∃ c, c ∈ dim_columns ∧ c ∉ columns multi_colon_clean) as Hmissing.
  { exists "Size". split; [unfold dim_columns; in_list|].
    intros Hin. apply has_column_true in Hin. vm_compute in Hin. discriminate. }
  split; [exact Hmissing|].
  destruct (dim_product_needs_all_columns builder multi_colon_clean world0 Hmissing)
    as [_ Hrun].
  rewrite Hrun. reflexivity.
Defined.

Lemma scenario_D_build :
  BuildStarSchema.build_fact_sales (H:=iso_parsers) builder sales_clean_path
      scenario_D_dim scenario_D_world
  = (Ok scenario_D_fact,
     snd (BuildStarSchema.build_fact_sales (H:=iso_parsers) builder
            sales_clean_path scenario_D_dim scenario_D_world)).
Proof. vm_compute. reflexivity. Qed.

Lemma fact_product_keys_resolve_witness :
  BuildStarSchema.build_fact_sales (H:=iso_parsers) builder sales_clean_path
      scenario_D_dim scenario_D_world
    = (Ok scenario_D_fact,
       snd (BuildStarSchema.build_fact_sales (H:=iso_parsers) builder
              sales_clean_path scenario_D_dim scenario_D_world)) ∧
  ∃ sales, files scenario_D_world !! sales_clean_path = Some sales ∧
    ∀ f, f ∈ rows scenario_D_fact →
      ∃ l, l ∈ rows sales ∧ cell_at f "Quantity" = cell_at l "Quantity".
Proof.
  split; [exact scenario_D_build|].
  destruct (fact_product_keys_resolve (H:=iso_parsers) _ _ _ _ _ _ scenario_D_build)
    as (sales & Hfile & Hall).
  exists sales. split; [exact Hfile|]. intros f Hf.
  destruct (Hall f Hf) as (l & Hl & Hq & _). exists l. split; [exact Hl | exact Hq].
Defined.

Lemma fact_rows_per_sale_witness :
  BuildStarSchema.build_fact_sales (H:=iso_parsers) builder sales_clean_path
      scenario_D_dim scenario_D_world
    = (Ok scenario_D_fact,
       snd (BuildStarSchema.build_fact_sales (H:=iso_parsers) builder
              sales_clean_path scenario_D_dim scenario_D_world)) ∧
  ∃ sales, files scenario_D_world !! sales_clean_path = Some sales ∧
    length (rows scenario_D_fact)
    = sum_list (map (fan_out scenario_D_dim) (rows sales)).
Proof.
  split; [exact scenario_D_build|].
  destruct (fact_rows_per_sale (H:=iso_parsers) _ _ _ _ _ _ scenario_D_build)
    as (sales & Hfile & Hlen & _).
  exists sales. split; [exact Hfile | exact Hlen].
Defined.

Lemma fact_sales_returns_iff_keys_and_dates_witness :
  files numeric_sku_world !! sales_clean_path = Some numeric_sku_sales ∧
  has_columns ["ProductKey"; "SKU Code"] scenario_D_dim ∧
  has_columns ["SKU Code"; "Quantity"; "Date"] numeric_sku_sales ∧
  ("ProductKey" ∉ columns numeric_sku_sales) ∧
  ¬ compatible_keys numeric_sku_sales scenario_D_dim ∧
  (∀ l, l ∈ rows numeric_sku_sales →
     ∃ t, to_datetime_cell (H:=iso_parsers)
            (merged_dates numeric_sku_sales scenario_D_dim) (cell_at l "Date") = Some t) ∧
  BuildStarSchema.build_fact_sales (H:=iso_parsers) builder sales_clean_path
    scenario_D_dim numeric_sku_world
  = (Raise MergeDtypeError,
     mkWorld [(INFO, Text "Construction de FactSales...")] (files numeric_sku_world)).
Proof.
  assert (files numeric_sku_world !! sales_clean_path = Some numeric_sku_sales) as Hfile
    by (vm_compute; reflexivity).
  assert (has_columns ["ProductKey"; "SKU Code"] scenario_D_dim) as Hdim by columns_present.
  assert (has_columns ["SKU Code"; "Quantity"; "Date"] numeric_sku_sales) as Hsales
    by columns_present.
  assert ("ProductKey" ∉ columns numeric_sku_sales) as Hpk.
  { intros Hin. apply has_column_true in Hin. vm_compute in Hin. discriminate. }
  assert (¬ compatible_keys numeric_sku_sales scenario_D_dim) as Hclash
    by (unfold compatible_keys; vm_compute; discriminate).
  split; [exact Hfile|]. split; [exact Hdim|]. split; [exact Hsales|].
  split; [exact Hpk|]. split; [exact Hclash|]. split.
  { apply Forall_forall. repeat constructor; eexists; vm_compute; reflexivity. }
  exact (proj1 (proj2 (fact_sales_returns_iff_keys_and_dates (H:=iso_parsers) builder
                         sales_clean_path scenario_D_dim numeric_sku_world
                         numeric_sku_sales Hfile Hdim Hsales Hpk)) Hclash).
Defined.

Lemma builder_run_writes_star_schema_witness :
  BuildStarSchema.run (H:=iso_parsers) builder clean_world
    = (Ok tt, snd (BuildStarSchema.run (H:=iso_parsers) builder clean_world)) ∧
  ∃ df_inventory fact,
    files clean_world !! BuildStarSchema.inventory_clean_path builder
      = Some df_inventory ∧
    ∀ f, f ∈ rows fact →
      cell_at f "ProductKey" = NA ∨
      ∃ k, cell_at f "ProductKey" = Int k ∧ 1 <= k <= Z.of_nat (len df_inventory).
Proof.
  assert (BuildStarSchema.run (H:=iso_parsers) builder clean_world
          = (Ok tt, snd (BuildStarSchema.run (H:=iso_parsers) builder clean_world)))
    as Hrun by (vm_compute; reflexivity).
  split; [exact Hrun|].
  destruct (builder_run_writes_star_schema (H:=iso_parsers) _ _ _ Hrun)
    as (df_inventory & sales & fact & Hinv & _ & _ & _ & Hkeys).
  exists df_inventory, fact. split; [exact Hinv | exact Hkeys].
Defined.

Lemma builder_run_is_not_atomic_witness :
  files inventory_only_world !! BuildStarSchema.inventory_clean_path builder
    = Some scenario_A_clean ∧
  has_columns dim_columns scenario_A_clean ∧
  files inventory_only_world !! "../data/clean/Sales_clean.csv" = None ∧
  ∃ w',
    BuildStarSchema.run (H:=iso_parsers) builder inventory_only_world
    = (Raise (FileNotFoundError "../data/clean/Sales_clean.csv"), w') ∧
    files w' = <[BuildStarSchema.joinpath (BuildStarSchema.model_output_dir builder)
                   "DimProduct.csv" := dim_product_of scenario_A_clean]>
                 (files inventory_only_world).
Proof.
  assert (files inventory_only_world !! BuildStarSchema.inventory_clean_path builder
          = Some scenario_A_clean) as Hinv by (vm_compute; reflexivity).
  assert (has_columns dim_columns scenario_A_clean) as Hcols by columns_present.
  assert (files inventory_only_world !! "../data/clean/Sales_clean.csv" = None)
    as Hsales by (vm_compute; reflexivity).
  split; [exact Hinv|]. split; [exact Hcols|]. split; [exact Hsales|].
  exact (builder_run_is_not_atomic (H:=iso_parsers) builder inventory_only_world
           scenario_A_clean Hinv Hcols Hsales).
Defined.

Lemma main_clean_all_runs_both_cleaners_witness :
  Main.main (H:=iso_parsers) run_day (Main.mkArgs false false true) raw_world
    = (Ok tt, snd (Main.main (H:=iso_parsers) run_day (Main.mkArgs false false true)
                     raw_world)) ∧
  ∃ raw_inventory inventory raw_sales sales,
    files raw_world !! "../data/raw/Inventory_raw.csv" = Some raw_inventory ∧
    files raw_world !! "../data/raw/Sales_raw.csv" = Some raw_sales ∧
    rows inventory = map clean_inventory_row (retained_inventory raw_inventory) ∧
    rows sales `sublist_of` normalized_sales (H:=iso_parsers) raw_sales.
Proof.
  assert (Main.main (H:=iso_parsers) run_day (Main.mkArgs false false true) raw_world
          = (Ok tt, snd (Main.main (H:=iso_parsers) run_day
                           (Main.mkArgs false false true) raw_world)))
    as Hrun by (vm_compute; reflexivity).
  split; [exact Hrun|].
  destruct (proj1 (main_clean_all_runs_both_cleaners (H:=iso_parsers) run_day raw_world)
              _ Hrun)
    as (raw_inventory & inventory & raw_sales & sales & Hi & Hs & Hinv & Hrows & _).
  exists raw_inventory, inventory, raw_sales, sales.
  split; [exact Hi|]. split; [exact Hs|]. split; [exact Hinv | exact Hrows].
Defined.

Lemma main_clean_sales_needs_clean_inventory_witness :
  files raw_sales_only_world !! "../data/raw/Sales_raw.csv" = Some scenario_C ∧
  files raw_sales_only_world !! "../data/clean/Inventory_clean.csv" = None ∧
  ∃ w', Main.main (H:=iso_parsers) run_day (Main.mkArgs false true false)
          raw_sales_only_world
        = (Raise (FileNotFoundError "../data/clean/Inventory_clean.csv"), w') ∧
        files w' = files raw_sales_only_world.
Proof.
  assert (files raw_sales_only_world !! "../data/raw/Sales_raw.csv" = Some scenario_C)
    as Hs by (vm_compute; reflexivity).
  assert (files raw_sales_only_world !! "../data/clean/Inventory_clean.csv" = None)
    as Hi by (vm_compute; reflexivity).
  split; [exact Hs|]. split; [exact Hi|].
  exact (main_clean_sales_needs_clean_inventory (H:=iso_parsers) run_day
           raw_sales_only_world scenario_C Hs Hi).
Defined.
